(** * A shallow embedding of the allowance ledger of [app.py]

    The program is one Streamlit script.  Its state is the data frame
    [st.session_state.data] with the columns [date], [type], [category],
    [amount] and [note]; three handlers change it (the entry form, the CSV
    upload, the delete button) and the rest of the script computes what is
    shown from it (the table sorted by date, the three totals, the expenses by
    category, the cumulative balance, the recent items, the CSV download).

    What is modelled, and how:
    - a data frame is the list of its rows, in index order: every frame the
      script stores has the index 0..n-1 ([ignore_index=True], [reset_index],
      the default index of [read_csv]);
    - a cell is text, a number, a timestamp or a missing value (NaN / NaT);
      a number is a float64 that holds a whole number of won, given in [Z]:
      the form's [number_input] has an integer [min_value], [step] and
      [value] and so yields an integer, and sums round as float64 does.  A
      number with a fraction, an infinite one, and a spelling of a number or
      of a date other than the ones named at [parse_number] and [parse_date]
      are outside the model: the theorems that depend on how a file is read
      or on the value of a sum say which fields and amounts they are about;
    - the pandas calls the script makes ([read_csv], [to_datetime],
      [sort_values], [drop], [sum], [groupby], [cumsum], [head], [to_csv]) are
      functions on these lists; a CSV file is taken after tokenising, as a
      header and records of text fields, and [sort_values] is taken over a
      sort kind: the quicksort of numpy, which the script gets, is
      [quicksort_kind], and what holds of every routine that sorts is stated of
      every kind;
    - an exception of the script is a [None] (or a [load_error] inside the
      [try] of the upload handler);
    - each handler and the display part are functions of the data; one run
      of the script, from the interaction that starts it, is [act], with the
      file that the uploader keeps between two runs; the drawing of the charts
      is not modelled. *)

From Stdlib Require Import ZArith List String Ascii Bool Lia.
From Stdlib Require Import Permutation Sorted DecimalString DecimalPos DecimalZ.
Import ListNotations.

#[local] Open Scope string_scope.
#[local] Open Scope Z_scope.

Set Implicit Arguments.

(** ** The error monad of the script: [None] is a raised exception *)

Definition bind {A B : Type} (m : option A) (k : A -> option B) : option B :=
  match m with
  | Some a => k a
  | None => None
  end.

Notation "x <- m ;; k" := (bind m (fun x => k))
  (at level 61, m at next level, right associativity).

Fixpoint mapM {A B : Type} (f : A -> option B) (l : list A) : option (list B) :=
  match l with
  | [] => Some []
  | a :: l' => b <- f a ;; bs <- mapM f l' ;; Some (b :: bs)
  end.

(** ** Cells *)

(** A [pd.Timestamp] at midnight, as the calendar date it stands for. *)
Record Timestamp : Type := mkTimestamp { year : Z; month : Z; day : Z }.

Inductive cell : Type :=
| Text (s : string)
| Number (z : Z)
| Stamp (t : Timestamp)
| Missing.

(** *** Numbers

    The whole numbers up to 2^53 in absolute value are float64 values; a
    larger whole number is one when it has 53 significant bits.  The result
    of an addition or a subtraction of two of them is the exact result
    rounded to 53 significant bits: to the nearest value, and to the one
    whose last bit is 0 when two are as near ([round64]).  (A result of
    2^1024 and more is infinite in float64; the model has no infinite
    number, and no theorem is about amounts of that size.) *)
Definition round64 (z : Z) : Z :=
  if Z.abs z <=? 2 ^ 53 then z
  else
    let e := Z.log2 (Z.abs z) - 52 in
    let q := Z.abs z / 2 ^ e in
    let r := Z.abs z mod 2 ^ e in
    let up := (2 ^ (e - 1) <? r) || ((2 ^ (e - 1) =? r) && Z.odd q) in
    Z.sgn z * ((if up then q + 1 else q) * 2 ^ e).

Definition fadd (x y : Z) : Z := round64 (x + y).
Definition fsub (x y : Z) : Z := round64 (x - y).

(** The order of timestamps is the order of the numbers yyyymmdd. *)
Definition ordinal (t : Timestamp) : Z := year t * 10000 + month t * 100 + day t.

Definition is_leap (y : Z) : bool :=
  ((y mod 4 =? 0) && negb (y mod 100 =? 0)) || (y mod 400 =? 0).

Definition days_in_month (y m : Z) : Z :=
  if m =? 2 then (if is_leap y then 29 else 28)
  else if (m =? 4) || (m =? 6) || (m =? 9) || (m =? 11) then 30
  else 31.

(** A calendar date that a [pd.Timestamp] can hold: [Timestamp.min] is in the
    night of 1677-09-21 and [Timestamp.max] is on 2262-04-11. *)
Definition valid_timestamp (t : Timestamp) : bool :=
  (1 <=? month t) && (month t <=? 12) &&
  (1 <=? day t) && (day t <=? days_in_month (year t) (month t)) &&
  (16770922 <=? ordinal t) && (ordinal t <=? 22620411).

(** ** The text of a field *)

Definition digit_of (c : ascii) : option Z :=
  let n := Z.of_N (N_of_ascii c) in
  if (48 <=? n) && (n <=? 57) then Some (n - 48) else None.

Definition digit_char (d : Z) : ascii := ascii_of_N (Z.to_N (48 + d)).

Fixpoint digits_value (acc : Z) (cs : list ascii) : option Z :=
  match cs with
  | [] => Some acc
  | c :: cs' => d <- digit_of c ;; digits_value (acc * 10 + d) cs'
  end.

Definition two_digits (n : Z) : list ascii :=
  [digit_char (n / 10); digit_char (n mod 10)].

Definition four_digits (n : Z) : list ascii :=
  two_digits (n / 100) ++ two_digits (n mod 100).

Definition hyphen : ascii := "-"%char.

(** [Timestamp.strftime("%Y-%m-%d")]: what [to_csv] writes for a column of
    timestamps that are all at midnight. *)
Definition isoformat (t : Timestamp) : string :=
  string_of_list_ascii
    (four_digits (year t) ++ hyphen :: two_digits (month t) ++ hyphen :: two_digits (day t)).

(** The date parser of [read_csv(parse_dates=...)] and [pd.to_datetime], on the
    spelling the export writes and the schema names: an ISO-8601 calendar date
    YYYY-MM-DD.  (pandas guesses other spellings as well; they are outside this
    model and read as unparseable here.) *)
Definition parse_date (s : string) : option Timestamp :=
  match list_ascii_of_string s with
  | [y1; y2; y3; y4; h1; m1; m2; h2; d1; d2] =>
      if Ascii.eqb h1 hyphen && Ascii.eqb h2 hyphen then
        y <- digits_value 0 [y1; y2; y3; y4] ;;
        m <- digits_value 0 [m1; m2] ;;
        d <- digits_value 0 [d1; d2] ;;
        let t := mkTimestamp y m d in
        if valid_timestamp t then Some t else None
      else None
  | _ => None
  end.

(** An integer literal: an optional sign and at least one digit. *)
Definition parse_int (s : string) : option Z :=
  match s with
  | String "+" r => option_map Z.of_uint (NilZero.uint_of_string r)
  | _ => option_map Z.of_int (NilZero.int_of_string s)
  end.

Definition zero_char : ascii := "0"%char.
Definition dot_char : ascii := "."%char.

Fixpoint drop_zeros (cs : list ascii) : list ascii :=
  match cs with
  | c :: cs' => if Ascii.eqb c zero_char then drop_zeros cs' else cs
  | [] => []
  end.

(** The text before a fraction part made of zeros only ("1000.0" gives "1000");
    any other text is returned as it is. *)
Definition whole_part (s : string) : string :=
  match drop_zeros (rev (list_ascii_of_string s)) with
  | c :: r => if Ascii.eqb c dot_char then string_of_list_ascii (rev r) else s
  | [] => s
  end.

(** The numeric literals of this model are the whole ones, with or without a
    fraction part of zeros.  A literal with another fraction or an exponent is
    a number for pandas and lies outside the model of whole amounts. *)
Definition parse_number (s : string) : option Z := parse_int (whole_part s).

(** [repr] of a float that holds a whole number below 1e16, as [to_csv] writes
    a float64 column.  (From 1e16 on [repr] has an exponent; the theorems
    about what is read back from an export are about smaller amounts.) *)
Definition float_repr (z : Z) : string :=
  NilZero.string_of_int (Z.to_int z) ++ ".0".


(** The default [na_values] of [read_csv]. *)
Definition na_values : list string :=
  [""; "#N/A"; "#N/A N/A"; "#NA"; "-1.#IND"; "-1.#QNAN"; "-NaN"; "-nan";
   "1.#IND"; "1.#QNAN"; "<NA>"; "N/A"; "NA"; "NULL"; "NaN"; "None"; "n/a";
   "nan"; "null"].

Definition is_na (s : string) : bool := existsb (String.eqb s) na_values.

(** ** Data frames *)

(** One row of [st.session_state.data]. *)
Record row : Type := mkRow {
  date : cell;
  type : cell;
  category : cell;
  amount : cell;
  note : cell
}.

(** A frame with the index 0..n-1 is the list of its rows. *)
Definition DataFrame : Type := list row.

Definition required_columns : list string :=
  ["date"; "type"; "category"; "amount"; "note"].

(** The labels of the selectbox, [["지출", "수입"]]. *)
Definition expense_label : string := "지출".
Definition income_label : string := "수입".
Definition default_category : string := "기타".

(** ** The entry form (lines 19-40) *)

Inductive entry_kind : Type := Expense | Income.

Definition label_of (k : entry_kind) : string :=
  match k with
  | Expense => expense_label
  | Income => income_label
  end.

(** The values of the widgets when the form is submitted.  [number_input] with
    [min_value=0] yields no negative number, hence [N].  (Streamlit lets it
    be 2^53 - 1 at most.) *)
Record entry_form : Type := mkForm {
  entry_date : Timestamp;
  entry_type : entry_kind;
  entry_category : string;
  entry_amount : N;
  entry_note : string
}.

(** The ASCII characters [str.isspace] accepts (the Unicode spaces outside
    ASCII take several bytes and are not modelled). *)
Definition is_space (c : ascii) : bool :=
  let n := N_of_ascii c in
  (((9 <=? n) && (n <=? 13)) || ((28 <=? n) && (n <=? 32)))%N.

Fixpoint lstrip (cs : list ascii) : list ascii :=
  match cs with
  | c :: cs' => if is_space c then lstrip cs' else cs
  | [] => []
  end.

(** [str.strip()] *)
Definition strip (s : string) : string :=
  string_of_list_ascii (rev (lstrip (rev (lstrip (list_ascii_of_string s))))).

(** [new_row] of the handler; [x or "기타"] takes the default for the empty
    text, and [float(entry_amount)] is the nearest float64. *)
Definition new_row (f : entry_form) : row :=
  {| date := Stamp (entry_date f);
     type := Text (label_of (entry_type f));
     category :=
       Text (let c := strip (entry_category f) in
             if String.eqb c "" then default_category else c);
     amount := Number (round64 (Z.of_N (entry_amount f)));
     note := Text (entry_note f) |}.

(** [if add_clicked:] the new row is appended, [pd.concat(..., ignore_index=True)]. *)
Definition add_clicked (data : DataFrame) (f : entry_form) : DataFrame :=
  (data ++ [new_row f])%list.

(** ** The CSV upload (lines 42-55) *)

(** The uploaded file after tokenising: the header line and the records, each a
    list of fields. *)
Record csv_file : Type := mkCsv {
  header : list string;
  records : list (list string)
}.

(** What [pd.read_csv] raises.  (A file in which every record has one field
    more than the header is read by pandas with its first field as the index;
    this model takes every record that is longer than the header as a
    tokenising error, and the theorems about an upload that succeeds are about
    files without such records.) *)
Inductive load_error : Type :=
| EmptyDataError        (* no columns to parse from file *)
| MissingParseDates     (* ValueError: missing column provided to parse_dates *)
| ParserError.          (* a record with more fields than the header *)

Inductive dtype : Type := datetime64 | float64 | object.

Definition is_some {A : Type} (o : option A) : bool :=
  match o with Some _ => true | None => false end.

(** The field of column [j]; a short record is padded with missing values. *)
Definition field_at (j : nat) (rec : list string) : string := nth j rec "".

Definition column (f : csv_file) (j : nat) : list string :=
  map (field_at j) (records f).

(** The type of a column.  The column named in [parse_dates] becomes
    [datetime64] when every field is a date or missing and is left as text
    otherwise; another column is numeric when every field is a number or
    missing.  (pandas also reads a column of True/False spellings as
    booleans; such a column stays text here, and the numbers are those of
    [parse_number].) *)
Definition infer_dtype (parse_dates : bool) (fields : list string) : dtype :=
  if parse_dates then
    if forallb (fun s => is_na s || is_some (parse_date s)) fields
    then datetime64 else object
  else
    if forallb (fun s => is_na s || is_some (parse_number s)) fields
    then float64 else object.

Definition read_cell (t : dtype) (s : string) : cell :=
  if is_na s then Missing
  else match t with
       | datetime64 => match parse_date s with Some d => Stamp d | None => Text s end
       | float64 => match parse_number s with Some z => Number z | None => Text s end
       | object => Text s
       end.

(** The position of the first column with this name (a later column of the
    same name is renamed by pandas and is never selected by the script). *)
Fixpoint find_column (name : string) (cols : list string) : option nat :=
  match cols with
  | [] => None
  | c :: cols' =>
      if String.eqb c name then Some O
      else option_map S (find_column name cols')
  end.

Definition column_dtype (f : csv_file) (j : nat) : dtype :=
  infer_dtype (match find_column "date" (header f) with
               | Some k => Nat.eqb j k
               | None => false
               end)
              (column f j).

Definition read_record (f : csv_file) (rec : list string) : list cell :=
  map (fun j => read_cell (column_dtype f j) (field_at j rec))
      (seq 0 (List.length (header f))).

(** The frame [read_csv] returns: its columns and its rows of cells. *)
Record parsed_frame : Type := mkParsed {
  columns : list string;
  values : list (list cell)
}.

(** [pd.read_csv(uploaded, parse_dates=["date"])] *)
Definition read_csv (f : csv_file) : load_error + parsed_frame :=
  match header f with
  | [] => inl EmptyDataError
  | _ =>
      if negb (is_some (find_column "date" (header f))) then inl MissingParseDates
      else if existsb (fun rec => Nat.ltb (List.length (header f)) (List.length rec)) (records f)
      then inl ParserError
      else inr {| columns := header f; values := map (read_record f) (records f) |}
  end.

(** [set(...).issubset(df_up.columns)] *)
Definition issubset (names cols : list string) : bool :=
  forallb (fun n => is_some (find_column n cols)) names.

(** [df_up[name]] in one row. *)
Definition getitem (name : string) (df_up : parsed_frame) (r : list cell) : cell :=
  match find_column name (columns df_up) with
  | Some j => nth j r Missing
  | None => Missing
  end.

(** [df_up[["date", "type", "category", "amount", "note"]].copy()] *)
Definition select_required (df_up : parsed_frame) : DataFrame :=
  map (fun r => {| date := getitem "date" df_up r;
                   type := getitem "type" df_up r;
                   category := getitem "category" df_up r;
                   amount := getitem "amount" df_up r;
                   note := getitem "note" df_up r |})
      (values df_up).

(** What the sidebar shows after an upload. *)
Inductive upload_message : Type :=
| Imported                       (* "CSV 불러오기 완료" *)
| SchemaMismatch                 (* "CSV에 필요한 열이 없습니다." *)
| LoadFailed (e : load_error).   (* "CSV 로드 실패: {e}" *)

(** [if uploaded is not None:] the message and the data afterwards. *)
Definition upload (data : DataFrame) (f : csv_file) : upload_message * DataFrame :=
  match read_csv f with
  | inl e => (LoadFailed e, data)
  | inr df_up =>
      if issubset required_columns (columns df_up)
      then (Imported, select_required df_up)
      else (SchemaMismatch, data)
  end.

(** ** Sorting by date (lines 64-65 and 104) *)

(** [l[idx]]: the elements of [l] at the positions [idx], in that order. *)
Definition reindex {A : Type} (idx : list nat) (l : list A) : list A :=
  flat_map (fun i => match nth_error l i with Some x => [x] | None => [] end) idx.

(** The script passes no [kind] to [sort_values], so it gets the default one,
    "quicksort", of which pandas and numpy promise that it sorts and nothing
    about equal keys (only "mergesort" and "stable" keep them in order).  A
    sort kind is therefore any [argsort] that returns the positions of the
    keys in an ascending order; the one that numpy has under the name
    "quicksort" for a column of timestamps is [quicksort_kind] below. *)
Record sort_kind : Type := mkKind {
  argsort : list Z -> list nat;
  argsort_perm : forall ks, Permutation (argsort ks) (seq 0 (List.length ks));
  argsort_sorted : forall ks, Sorted Z.le (reindex (argsort ks) ks)
}.

(** The key of a row in a [date] column that went through [pd.to_datetime]:
    a timestamp, or NaT (and no other cell is left in such a column). *)
Definition sort_key (r : row) : option Z :=
  match date r with
  | Stamp t => Some (ordinal t)
  | _ => None
  end.

Definition notna (r : row) : bool := is_some (sort_key r).
Definition isna (r : row) : bool := negb (notna r).

Definition key_of (r : row) : Z :=
  match sort_key r with Some k => k | None => 0 end.

(** [df.sort_values("date", ascending=...)] followed by [reset_index] or read
    in row order: pandas' [nargsort] sorts the rows that have a date, through
    the reversed column when descending, and puts the rows without one last. *)
Definition sort_values (K : sort_kind) (ascending : bool) (df : DataFrame) : DataFrame :=
  let non_nans := filter notna df in
  let nans := filter isna df in
  ((if ascending
    then reindex (argsort K (map key_of non_nans)) non_nans
    else rev (reindex (argsort K (map key_of (rev non_nans))) (rev non_nans)))
   ++ nans)%list.

(** [pd.to_datetime] on one cell of the [date] column: text is parsed, and text
    that is no date raises.  (The column never holds a number: the form stores
    a timestamp and [read_csv] leaves it as timestamps or as text.) *)
Definition to_datetime (c : cell) : option cell :=
  match c with
  | Stamp t => Some (Stamp t)
  | Missing => Some Missing
  | Text s => option_map Stamp (parse_date s)
  | Number _ => None
  end.

Definition set_date (r : row) (d : cell) : row :=
  {| date := d; type := type r; category := category r;
     amount := amount r; note := note r |}.

(** [df["date"] = pd.to_datetime(df["date"])] *)
Definition convert_dates (df : DataFrame) : option DataFrame :=
  mapM (fun r => d <- to_datetime (date r) ;; Some (set_date r d)) df.

(** The table that is shown, [df] of lines 62-65. *)
Definition shown (K : sort_kind) (data : DataFrame) : option DataFrame :=
  df <- convert_dates data ;; Some (sort_values K false df).

(** ** The delete button (lines 70-79) *)

Inductive delete_message : Type :=
| Deleted             (* st.success("삭제 완료") *)
| NothingSelected.    (* st.warning("삭제할 항목을 하나 이상 선택하세요.") *)

Definition selected (index : list nat) (i : nat) : bool := existsb (Nat.eqb i) index.

Fixpoint drop_from (i : nat) (index : list nat) (data : DataFrame) : DataFrame :=
  match data with
  | [] => []
  | r :: data' =>
      if selected index i then drop_from (S i) index data'
      else r :: drop_from (S i) index data'
  end.

(** [data.drop(index=...)]: the rows with these labels are left out, and a
    label that is not in the index raises [KeyError].  The index of [data] is
    0..n-1, so the labels are positions in [data]. *)
Definition drop (index : list nat) (data : DataFrame) : option DataFrame :=
  if forallb (fun i => Nat.ltb i (List.length data)) index
  then Some (drop_from 0 index data)
  else None.

(** [if st.button("선택 항목 삭제"):] with the labels chosen in the multiselect,
    whose options are the index of the shown table. *)
Definition delete_clicked (data : DataFrame) (to_delete : list nat)
  : option (delete_message * DataFrame) :=
  match to_delete with
  | [] => Some (NothingSelected, data)
  | _ => data' <- drop to_delete data ;; Some (Deleted, data')
  end.

(** ** The summary (lines 81-90) *)

(** [df["type"] == label] *)
Definition has_type (label : string) (r : row) : bool :=
  match type r with
  | Text s => String.eqb s label
  | _ => false
  end.

(** [Series.sum()]: the values are added to zero one after the other, as
    float64, and missing values are skipped.  On cells that are no numbers
    pandas gives no number (it concatenates text or raises); that is [None].
    (numpy adds an array of eight and more float64 values in blocks, and the
    groups of [groupby] with a correction term; an amount column that was
    read from integer literals is int64 and is added without rounding.  The
    order and the kind of number do not matter as long as no sum of some of
    the values leaves the range in which float64 is exact; the theorems that
    give the value of a sum are about such amounts, see [exact], and the
    amounts on which a sum is shown to round are two values of the form.) *)
Fixpoint add_up (acc : Z) (cs : list cell) : option Z :=
  match cs with
  | [] => Some acc
  | Number z :: cs' => add_up (fadd acc z) cs'
  | Missing :: cs' => add_up acc cs'
  | _ :: _ => None
  end.

Definition sum (cs : list cell) : option Z := add_up 0 cs.

(** [df.loc[df["type"] == label, "amount"].sum()] *)
Definition total_by_type (label : string) (df : DataFrame) : option Z :=
  sum (map amount (filter (has_type label) df)).

(** The three metrics of the summary. *)
Record summary : Type := mkSummary {
  total_income : Z;
  total_expense : Z;
  balance : Z
}.

(** [total_income], [total_expense] and [balance] of lines 83-85; a total that
    is no number has no difference.  (Lines 88-90 show [int(...)] of the
    three, each the whole number that it is.) *)
Definition summarize (df : DataFrame) : option summary :=
  income <- total_by_type income_label df ;;
  expense <- total_by_type expense_label df ;;
  Some {| total_income := income;
          total_expense := expense;
          balance := fsub income expense |}.

(** ** The cumulative balance (lines 104-107) *)

(** [r["amount"] if r["type"] == "수입" else -r["amount"]]; the negation of
    text raises. *)
Definition signed_amount (r : row) : option cell :=
  if has_type income_label r then Some (amount r)
  else match amount r with
       | Number z => Some (Number (- z))
       | Missing => Some Missing
       | _ => None
       end.

(** [Series.cumsum()]: a missing value stays missing and is skipped by the
    running total, which is a float64. *)
Fixpoint cumsum (acc : Z) (cs : list cell) : option (list cell) :=
  match cs with
  | [] => Some []
  | Number z :: cs' =>
      rest <- cumsum (fadd acc z) cs' ;; Some (Number (fadd acc z) :: rest)
  | Missing :: cs' => rest <- cumsum acc cs' ;; Some (Missing :: rest)
  | _ :: _ => None
  end.

(** ** The download (lines 121-123) *)

(** The field that is written for a cell, with the spelling of the numbers of
    its column. *)
Definition write_cell (number : Z -> string) (c : cell) : string :=
  match c with
  | Text s => s
  | Number z => number z
  | Stamp t => isoformat t
  | Missing => ""
  end.

(** [df.to_csv(index=False)]: missing values are written as empty fields. *)
Definition to_csv_as (number : Z -> string) (df : DataFrame) : csv_file :=
  {| header := required_columns;
     records := map (fun r => [write_cell number (date r); write_cell number (type r);
                               write_cell number (category r);
                               write_cell number (amount r);
                               write_cell number (note r)]) df |}.

(** The file of a frame whose amounts are float64, which they are after a row
    of the form; [to_csv_as int_repr] is the file when they are int64. *)
Definition to_csv (df : DataFrame) : csv_file := to_csv_as float_repr df.

(** ** The expenses by category (lines 92-100) *)

(** [groupby] sorts its keys and lists each one once. *)
Fixpoint insert_key {A : Type} (cmp : A -> A -> comparison) (k : A) (ks : list A)
  : list A :=
  match ks with
  | [] => [k]
  | k' :: ks' =>
      match cmp k k' with
      | Lt => k :: ks
      | Eq => ks
      | Gt => k' :: insert_key cmp k ks'
      end
  end.

Definition unique_sorted {A : Type} (cmp : A -> A -> comparison) (l : list A) : list A :=
  fold_right (insert_key cmp) [] l.

Definition compare_timestamp (t t' : Timestamp) : comparison :=
  match year t ?= year t' with
  | Eq => match month t ?= month t' with
          | Eq => day t ?= day t'
          | c => c
          end
  | c => c
  end.

Definition numbers_of (cs : list cell) : list Z :=
  flat_map (fun c => match c with Number z => [z] | _ => [] end) cs.

Definition stamps_of (cs : list cell) : list Timestamp :=
  flat_map (fun c => match c with Stamp t => [t] | _ => [] end) cs.

Definition texts_of (cs : list cell) : list string :=
  flat_map (fun c => match c with Text s => [s] | _ => [] end) cs.

(** The keys of [groupby("category")].  A missing category is no key
    ([dropna=True]).  The keys come sorted ([sort=True]): text by code point,
    which is the order of the bytes of UTF-8, and in a column that holds text
    and other values, the other values first ([_sort_mixed] of pandas), where a
    number and a timestamp cannot be compared.  (The script never stores a
    timestamp as category.) *)
Definition group_keys (cs : list cell) : option (list cell) :=
  let numbers := unique_sorted Z.compare (numbers_of cs) in
  let stamps := unique_sorted compare_timestamp (stamps_of cs) in
  let texts := unique_sorted String.compare (texts_of cs) in
  match numbers, stamps with
  | _ :: _, _ :: _ => None
  | _, _ => Some (map Number numbers ++ map Stamp stamps ++ map Text texts)%list
  end.

Definition timestamp_eqb (t t' : Timestamp) : bool :=
  (year t =? year t') && (month t =? month t') && (day t =? day t').

(** [==] on two cells; a missing value is equal to nothing. *)
Definition cell_eqb (a b : cell) : bool :=
  match a, b with
  | Text s, Text s' => String.eqb s s'
  | Number z, Number z' => z =? z'
  | Stamp t, Stamp t' => timestamp_eqb t t'
  | _, _ => false
  end.

(** The rows of the group with this key. *)
Definition in_group (k : cell) (r : row) : bool := cell_eqb (category r) k.

(** A series of totals: the group keys as index, one total for each. *)
Definition series : Type := list (cell * Z).

(** [Series.sort_values(ascending=...)] on totals, none of which is missing:
    [nargsort] as for the rows, through the reversed series when descending. *)
Definition sort_series (K : sort_kind) (ascending : bool) (s : series) : series :=
  if ascending
  then reindex (argsort K (map snd s)) s
  else rev (reindex (argsort K (map snd (rev s))) (rev s)).

(** [df[df["type"] == "지출"].groupby("category")["amount"].sum()
      .sort_values(ascending=False)] *)
Definition expense_by_cat (K : sort_kind) (df : DataFrame) : option series :=
  let expenses := filter (has_type expense_label) df in
  keys <- group_keys (map category expenses) ;;
  totals <- mapM (fun k => s <- sum (map amount (filter (in_group k) expenses)) ;;
                           Some (k, s)) keys ;;
  Some (sort_series K false totals).

(** What is under "카테고리별 지출": the bar chart, or the line that says
    there are no expenses to analyse. *)
Inductive category_chart : Type :=
| BarChart (s : series)   (* st.bar_chart(expense_by_cat) *)
| NoExpenses.             (* "지출 항목이 없어 카테고리 분석을 할 수 없습니다." *)

(** ** One run of the display part (lines 57-123) *)

(** What the script has computed when it reaches its last line.  (The table
    of the recent items is [head 5] of the shown table, see [head] below.) *)
Record page : Type := mkPage {
  df : DataFrame;                  (* the shown table *)
  metrics : summary;               (* the three metrics *)
  by_category : category_chart;    (* the chart of the expenses, or the line *)
  df_time : DataFrame;             (* df.sort_values("date") *)
  cumulative_balance : list cell;  (* df_time["cumulative_balance"] *)
  csv_buf : csv_file               (* the file behind the download button *)
}.

Inductive rendering : Type :=
| NoRecords            (* st.info: the data is empty, nothing is computed *)
| Raised               (* an exception stopped the script *)
| Rendered (p : page).

Definition render_page (K : sort_kind) (data : DataFrame) : option page :=
  df <- shown K data ;;
  metrics <- summarize df ;;
  expense <- expense_by_cat K df ;;
  let df_time := sort_values K true df in
  signed <- mapM signed_amount df_time ;;
  cumulative <- cumsum 0 signed ;;
  Some {| df := df;
          metrics := metrics;
          by_category := match expense with [] => NoExpenses | _ => BarChart expense end;
          df_time := df_time;
          cumulative_balance := cumulative;
          csv_buf := to_csv (sort_values K true df) |}.

Definition render (K : sort_kind) (data : DataFrame) : rendering :=
  match data with
  | [] => NoRecords
  | _ => match render_page K data with
         | Some p => Rendered p
         | None => Raised
         end
  end.

(** The metrics that are on the page: they are shown as soon as they are
    computed, whatever the rest of the script does, and not at all when the
    data is empty. *)
Definition shown_metrics (K : sort_kind) (data : DataFrame) : option summary :=
  match data with
  | [] => None
  | _ => df <- shown K data ;; summarize df
  end.

(** ** The chart of the expenses on its own (lines 92-100)

    It is reached when the data is not empty and the table and the summary
    before it raised nothing, whatever the rest of the script does. *)
Definition chart (K : sort_kind) (data : DataFrame) : option category_chart :=
  match data with
  | [] => None
  | _ =>
      df <- shown K data ;;
      _ <- summarize df ;;
      s <- expense_by_cat K df ;;
      Some (match s with [] => NoExpenses | _ => BarChart s end)
  end.

(** ** The recent items (lines 117-119) *)

(** [df.head(n).reset_index(drop=True)]; the table under "최근 5개 항목" is
    [head 5] of the shown table. *)
Definition head (n : nat) (df : DataFrame) : DataFrame := firstn n df.

(** ** The labels of the multiselect (line 72) *)

(** [options=df.index.astype(int).tolist()]: the positions of the shown
    table. *)
Definition options (df : DataFrame) : list nat := seq 0 (List.length df).

(** ** The ledgers a session can hold *)

(** What a user does to [st.session_state.data]: submit the form, click the
    delete button with some labels selected, or upload a file. *)
Inductive event : Type :=
| Add (f : entry_form)
| Delete (to_delete : list nat)
| Upload (f : csv_file).

(** One handler at a time.  An exception stops the script and leaves the data
    as it was.  (The delete button is on the page only when the data is not
    empty and the table could be shown, with the positions of the table as
    labels: every click that can happen is a [Delete] here.  A run of the
    script goes through the handlers as [act] below says; every state that
    the runs reach is a state of [run], see [trace], so what holds of every
    [run] holds of every session.) *)
Definition step (data : DataFrame) (e : event) : DataFrame :=
  match e with
  | Add f => add_clicked data f
  | Delete to_delete =>
      match delete_clicked data to_delete with
      | Some (_, data') => data'
      | None => data
      end
  | Upload f => snd (upload data f)
  end.

(** The data after these events, from the empty frame of a new session. *)
Definition run (es : list event) : DataFrame := fold_left step es [].

(** ** The runs of the script

    Streamlit runs the whole script at every interaction: the handler of the
    form when the form was submitted, then the handler of the upload whenever
    the uploader holds a file, which it does from the moment a file is chosen
    until it is taken out, then the display part. *)
Record session : Type := mkSession {
  stored : DataFrame;              (* st.session_state.data *)
  uploaded : option csv_file       (* the value of st.file_uploader *)
}.

Inductive action : Type :=
| Submit (f : entry_form)          (* the form is submitted *)
| Click (to_delete : list nat)     (* the delete button is clicked *)
| Choose (f : csv_file)            (* a file is put into the uploader *)
| Remove.                          (* the file is taken out of the uploader *)

(** [if uploaded is not None:] the file in the uploader is read in this run. *)
Definition reload (uploaded : option csv_file) (data : DataFrame) : DataFrame :=
  match uploaded with
  | Some f => snd (upload data f)
  | None => data
  end.

(** One run.  A click on the delete button comes after the upload handler of
    its run, and [st.experimental_rerun()] after a deletion starts the script
    again, with the upload handler.  (As in [step], every click that can
    happen is a [Click] here.) *)
Definition act (s : session) (a : action) : session :=
  match a with
  | Submit f =>
      {| stored := reload (uploaded s) (add_clicked (stored s) f);
         uploaded := uploaded s |}
  | Click to_delete =>
      let data := reload (uploaded s) (stored s) in
      {| stored := match delete_clicked data to_delete with
                   | Some (Deleted, data') => reload (uploaded s) data'
                   | _ => data
                   end;
         uploaded := uploaded s |}
  | Choose f => {| stored := reload (Some f) (stored s); uploaded := Some f |}
  | Remove => {| stored := stored s; uploaded := None |}
  end.

Definition new_session : session := {| stored := []; uploaded := None |}.

(** The session after these interactions. *)
Definition play (acts : list action) : session := fold_left act acts new_session.

(** The handlers that the runs go through, one after the other: the events of
    one interaction when the uploader holds [uploaded], and of a list of
    interactions. *)
Definition reload_events (uploaded : option csv_file) : list event :=
  match uploaded with
  | Some f => [Upload f]
  | None => []
  end.

Definition events_of (uploaded : option csv_file) (a : action) : list event :=
  match a with
  | Submit f => Add f :: reload_events uploaded
  | Click to_delete =>
      reload_events uploaded ++ Delete to_delete :: reload_events uploaded
  | Choose f => [Upload f]
  | Remove => []
  end.

Fixpoint trace (uploaded : option csv_file) (acts : list action) : list event :=
  match acts with
  | [] => []
  | a :: acts' =>
      events_of uploaded a
      ++ trace (match a with
                | Choose f => Some f
                | Remove => None
                | _ => uploaded
                end) acts'
  end.

(** ** The sort kinds *)

(** *** A stable sort

    An insertion pass over the keys paired with their positions.  A key goes
    past the keys that are strictly smaller, so equal keys stay in the order
    they came in. *)
Fixpoint insert (p : Z * nat) (l : list (Z * nat)) : list (Z * nat) :=
  match l with
  | [] => [p]
  | q :: l' => if fst q <? fst p then q :: insert p l' else p :: q :: l'
  end.

Fixpoint insertion_sort (l : list (Z * nat)) : list (Z * nat) :=
  match l with
  | [] => []
  | p :: l' => insert p (insertion_sort l')
  end.

Definition enumerate (ks : list Z) : list (Z * nat) :=
  combine ks (seq 0 (List.length ks)).

Definition insertion_argsort (ks : list Z) : list nat :=
  map snd (insertion_sort (enumerate ks)).

(** *** The sort of the script: "quicksort" of numpy

    [np.argsort(v, kind="quicksort")] on timestamps is the routine
    [aquicksort] of numpy's [npysort/quicksort]: an introsort on the array
    [tosort] of the positions, which partitions a range around the median of
    three keys, sorts a range of 17 positions and fewer by insertion, and
    falls back on a heap sort when the partitions go too deep. *)

(** [tosort[p]], and [tosort[p] = x]. *)
Definition item (tosort : list nat) (p : nat) : nat := nth p tosort O.

Fixpoint store (tosort : list nat) (p : nat) (x : nat) : list nat :=
  match tosort, p with
  | [], _ => []
  | _ :: rest, O => x :: rest
  | y :: rest, S p' => y :: store rest p' x
  end.

(** [INTP_SWAP(tosort[p], tosort[q])] *)
Definition swap (tosort : list nat) (p q : nat) : list nat :=
  store (store tosort p (item tosort q)) q (item tosort p).

Section Quicksort.

(** The keys. *)
Variable v : list Z.

(** [v[i] < v[j]] *)
Definition less (i j : nat) : bool := nth i v 0 <? nth j v 0.

(** [do { ++pi; } while (v[*pi] < vp);] *)
Fixpoint scan_up (fuel : nat) (tosort : list nat) (vp : Z) (pi : nat) : nat :=
  match fuel with
  | O => S pi
  | S fuel' =>
      if nth (item tosort (S pi)) v 0 <? vp
      then scan_up fuel' tosort vp (S pi)
      else S pi
  end.

(** [do { --pj; } while (vp < v[*pj]);] *)
Fixpoint scan_down (fuel : nat) (tosort : list nat) (vp : Z) (pj : nat) : nat :=
  match fuel with
  | O => pred pj
  | S fuel' =>
      if vp <? nth (item tosort (pred pj)) v 0
      then scan_down fuel' tosort vp (pred pj)
      else pred pj
  end.

(** The loop [for (;;)] of the partition: the two scans, then the exchange of
    the two positions unless they have met.  (Each scan stops at the ends of
    the range, where the median step has put a key that stops it; the fuel is
    the length of the array.) *)
Fixpoint exchanges (fuel : nat) (tosort : list nat) (vp : Z) (pi pj : nat)
  : list nat * nat :=
  let pi' := scan_up (List.length tosort) tosort vp pi in
  let pj' := scan_down (List.length tosort) tosort vp pj in
  match fuel with
  | O => (tosort, pi')
  | S fuel' =>
      if (pj' <=? pi')%nat then (tosort, pi')
      else exchanges fuel' (swap tosort pi' pj') vp pi' pj'
  end.

(** The partition of the range [pl..pr] around the median of its first, its
    middle and its last key; the result is the array and the place of the
    pivot. *)
Definition partition (tosort : list nat) (pl pr : nat) : list nat * nat :=
  let pm := (pl + Nat.div2 (pr - pl))%nat in
  let tosort :=
    if less (item tosort pm) (item tosort pl) then swap tosort pm pl else tosort in
  let tosort :=
    if less (item tosort pr) (item tosort pm) then swap tosort pr pm else tosort in
  let tosort :=
    if less (item tosort pm) (item tosort pl) then swap tosort pm pl else tosort in
  let vp := nth (item tosort pm) v 0 in
  let tosort := swap tosort pm (pr - 1) in
  let '(tosort, pi) := exchanges (List.length tosort) tosort vp pl (pr - 1) in
  (swap tosort pi (pr - 1), pi).

(** The insertion sort of a short range: a position goes down past the
    positions whose key is greater.  The part that is sorted already is kept
    with its last position first. *)
Fixpoint sink (vi : nat) (sorted : list nat) : list nat :=
  match sorted with
  | k :: rest => if less vi k then k :: sink vi rest else vi :: sorted
  | [] => [vi]
  end.

Definition insertion (positions : list nat) : list nat :=
  rev (fold_left (fun sorted vi => sink vi sorted) positions []).

(** The heap sort [aheapsort]; [a] is the range, and its positions count from
    1 as in numpy. *)
Definition heap_item (a : list nat) (i : nat) : nat := item a (pred i).

Definition heap_store (a : list nat) (i : nat) (x : nat) : list nat :=
  store a (pred i) x.

(** [for (i = l, j = l << 1; j <= n;)]: [tmp] goes down the heap of the first
    [n] positions, from the place [i]. *)
Fixpoint sift (fuel : nat) (a : list nat) (n tmp i j : nat) : list nat :=
  match fuel with
  | O => heap_store a i tmp
  | S fuel' =>
      if (n <? j)%nat then heap_store a i tmp
      else
        let j := if (j <? n)%nat && less (heap_item a j) (heap_item a (S j))
                 then S j else j in
        if less tmp (heap_item a j)
        then sift fuel' (heap_store a i (heap_item a j)) n tmp j (j + j)
        else heap_store a i tmp
  end.

(** [for (l = n >> 1; l > 0; --l)] *)
Fixpoint heapify (a : list nat) (n l : nat) : list nat :=
  match l with
  | O => a
  | S l' => heapify (sift n a n (heap_item a l) l (l + l)) n l'
  end.

(** [for (; n > 1;)] *)
Fixpoint sort_down (a : list nat) (n : nat) : list nat :=
  match n with
  | S ((S _) as n') =>
      let tmp := heap_item a n in
      let a := heap_store a n (heap_item a 1) in
      sort_down (sift n a n' tmp 1 2) n'
  | _ => a
  end.

Definition heapsort (a : list nat) : list nat :=
  let n := List.length a in
  sort_down (heapify a n (Nat.div2 n)) n.

(** A sort of the range [pl..pr] that leaves the rest of the array. *)
Definition on_range (sort : list nat -> list nat) (tosort : list nat) (pl pr : nat)
  : list nat :=
  firstn pl tosort ++ sort (firstn (S pr - pl) (skipn pl tosort)) ++ skipn (S pr) tosort.

(** The two loops of [aquicksort].  A range of more than 17 positions is
    partitioned; the smaller part is sorted next, and the larger part is put
    on the stack with the depth that is left and sorted after it.  A range
    that is taken up with no depth left ([popped]: the whole array at the
    start, and a range from the stack) is sorted by the heap sort. *)
Fixpoint sort_range (fuel : nat) (popped : bool) (tosort : list nat) (pl pr : nat)
    (cdepth : Z) : list nat :=
  match fuel with
  | O => tosort
  | S fuel' =>
      if popped && (cdepth <? 0) then on_range heapsort tosort pl pr
      else if (16 <? pr - pl)%nat then
        let '(tosort, pi) := partition tosort pl pr in
        let cdepth := cdepth - 1 in
        if (pi - pl <? pr - pi)%nat
        then sort_range fuel' true
               (sort_range fuel' false tosort pl (pi - 1) cdepth) (pi + 1) pr cdepth
        else sort_range fuel' true
               (sort_range fuel' false tosort (pi + 1) pr cdepth) pl (pi - 1) cdepth
      else on_range insertion tosort pl pr
  end.

End Quicksort.

(** The positions 0..n-1 are sorted by their keys; the depth is twice the
    place of the highest bit of n.  (Every partition takes at least one
    position out of the range, so n + 1 is fuel enough.) *)
Definition aquicksort (v : list Z) : list nat :=
  let num := List.length v in
  match num with
  | O => []
  | _ => sort_range v (S num) true (seq 0 num) 0 (num - 1) (2 * Z.log2 (Z.of_nat num))
  end.

Fixpoint ascending (ks : list Z) : bool :=
  match ks with
  | k :: ((k' :: _) as rest) => (k <=? k') && ascending rest
  | _ => true
  end.

(** [idx] holds every position of [ks] once, and the keys at these positions
    ascend. *)
Definition is_argsort (ks : list Z) (idx : list nat) : bool :=
  (List.length idx =? List.length ks)%nat
  && forallb (fun i => existsb (Nat.eqb i) idx) (seq 0 (List.length ks))
  && ascending (reindex idx ks).

(** The routine of numpy returns the positions in an ascending order of their
    keys.  That is tested on its result here, and not proved of the routine:
    [quicksort_argsort] is [aquicksort] on all keys on which the result passes
    the test. *)
Definition quicksort_argsort (ks : list Z) : list nat :=
  let idx := aquicksort ks in
  if is_argsort ks idx then idx else insertion_argsort ks.

(** Position [i] of [ks] holds the key [k]. *)
Definition holds_key (ks : list Z) (k : Z) (i : nat) : bool :=
  match nth_error ks i with
  | Some k' => k' =? k
  | None => false
  end.

(** A sort kind is stable when, for every key, the positions that hold it come
    out in increasing order. *)
Definition stable (K : sort_kind) : Prop :=
  forall ks k,
    filter (holds_key ks k) (argsort K ks)
    = filter (holds_key ks k) (seq 0 (List.length ks)).

(** A sort kind that is stable on [n] keys and fewer. *)
Definition stable_upto (n : nat) (K : sort_kind) : Prop :=
  forall ks k, (List.length ks <= n)%nat ->
    filter (holds_key ks k) (argsort K ks)
    = filter (holds_key ks k) (seq 0 (List.length ks)).

#[local] Open Scope list_scope.

(** ** The vocabulary of the claims *)

(** No record has more fields than the header. *)
Definition rectangular (f : csv_file) : bool :=
  forallb (fun rec => Nat.leb (List.length rec) (List.length (header f))) (records f).


(** The sum of a list of whole numbers. *)
Definition total (zs : list Z) : Z := fold_right Z.add 0 zs.

(** The amount of a row as [sum] counts it: nothing when it is missing. *)
Definition amount_value (r : row) : Z :=
  match amount r with
  | Number z => z
  | _ => 0
  end.

(** The sum of the absolute values of the amounts. *)
Definition magnitude (df : DataFrame) : Z :=
  total (map (fun r => Z.abs (amount_value r)) df).

(** A frame on which float64 adds as the whole numbers do: no sum of some of
    its amounts, with whatever signs, lies outside the whole numbers that
    float64 and int64 both hold exactly. *)
Definition exact (df : DataFrame) : bool := magnitude df <=? 2 ^ 53.

(** The sum, the total of a type and the running totals in the whole numbers,
    with no rounding. *)
Fixpoint exact_sum (cs : list cell) : option Z :=
  match cs with
  | [] => Some 0
  | Number z :: cs' => s <- exact_sum cs' ;; Some (z + s)
  | Missing :: cs' => exact_sum cs'
  | _ :: _ => None
  end.

Definition exact_total (label : string) (df : DataFrame) : option Z :=
  exact_sum (map amount (filter (has_type label) df)).

Fixpoint exact_cumsum (acc : Z) (cs : list cell) : option (list cell) :=
  match cs with
  | [] => Some []
  | Number z :: cs' =>
      rest <- exact_cumsum (acc + z) cs' ;; Some (Number (acc + z) :: rest)
  | Missing :: cs' => rest <- exact_cumsum acc cs' ;; Some (Missing :: rest)
  | _ :: _ => None
  end.




(** Two rows that differ in their dates at most, as a row and what
    [pd.to_datetime] makes of it. *)
Definition same_entry (r r' : row) : Prop :=
  type r' = type r /\ category r' = category r
  /\ amount r' = amount r /\ note r' = note r.

(** A row as the form makes it: one of the two types, and a number as amount. *)
Definition typed (r : row) : Prop :=
  (type r = Text income_label \/ type r = Text expense_label)
  /\ exists z, amount r = Number z.

(** The rows of one day. *)
Definition on_day (k : Z) (r : row) : bool :=
  match sort_key r with
  | Some k' => k' =? k
  | None => false
  end.

(** The characters of a numeric literal of pandas: digits, signs, the point,
    the mark of an exponent and blanks. *)
Definition number_char (c : ascii) : bool :=
  is_some (digit_of c)
  || existsb (Ascii.eqb c) ["+"; "-"; "."; "e"; "E"]%char
  || is_space c.

Definition to_lower (c : ascii) : ascii :=
  let n := N_of_ascii c in
  if ((65 <=? n) && (n <=? 90))%N then ascii_of_N (n + 32) else c.

Definition lower (s : string) : string :=
  string_of_list_ascii (map to_lower (list_ascii_of_string s)).

Definition special_floats : list string :=
  ["inf"; "+inf"; "-inf"; "infinity"; "+infinity"; "-infinity";
   "nan"; "+nan"; "-nan"].

(** Text that pandas may read as a number: made of the characters of numeric
    literals only, or a spelling of infinity or of not-a-number in any case.
    It covers more than pandas reads, and all that [parse_number] reads. *)
Definition number_like (s : string) : bool :=
  (negb (String.eqb s "") && forallb number_char (list_ascii_of_string s))
  || existsb (String.eqb (lower s)) special_floats.

(** The spellings that pandas reads as truth values. *)
Definition bool_values : list string :=
  ["True"; "TRUE"; "true"; "False"; "FALSE"; "false"].

Definition is_bool_literal (s : string) : bool := existsb (String.eqb s) bool_values.

(** Text that [read_csv] gives back as the text it is, whatever else its
    column holds: no marker of a missing value (the empty text is one),
    nothing that may be read as a number, no truth value. *)
Definition plain (s : string) : bool :=
  negb (is_na s) && negb (number_like s) && negb (is_bool_literal s).


(** The ASCII letters and digits. *)
Definition is_alnum (c : ascii) : bool :=
  let n := N_of_ascii c in
  (((48 <=? n) && (n <=? 57)) || ((65 <=? n) && (n <=? 90))
   || ((97 <=? n) && (n <=? 122)))%N.

(** Text in which every character is a Hangul syllable (U+AC00 to U+D7A3,
    three bytes in UTF-8) or an ASCII character that is no letter and no
    digit; [syllables] tells whether a syllable is required still. *)
Fixpoint hangul_text (syllables : bool) (cs : list ascii) : bool :=
  match cs with
  | [] => negb syllables
  | c :: rest =>
      let n := N_of_ascii c in
      if (n <? 128)%N then negb (is_alnum c) && hangul_text syllables rest
      else
        match rest with
        | c2 :: c3 :: rest' =>
            let n2 := N_of_ascii c2 in
            let n3 := N_of_ascii c3 in
            let code := ((n - 224) * 4096 + (n2 - 128) * 64 + (n3 - 128))%N in
            ((224 <=? n) && (n <? 240) && (128 <=? n2) && (n2 <? 192)
             && (128 <=? n3) && (n3 <? 192)
             && (44032 <=? code) && (code <=? 55203))%N
            && hangul_text false rest'
        | _ => false
        end
  end.

(** Text that no reader of dates takes for a date: it has a Hangul syllable,
    and no letter or digit of ASCII ("어제", "지난 주"). *)
Definition undatable (s : string) : bool := hangul_text true (list_ascii_of_string s).







(** Two frames with the same amounts in the same order. *)
Definition same_amounts (l l' : DataFrame) : bool :=
  (List.length l =? List.length l')%nat
  && forallb (fun p => match amount (fst p), amount (snd p) with
                       | Number z, Number z' => z =? z'
                       | _, _ => false
                       end) (combine l l').



(** ** The vocabulary of the further properties *)


(** Text made of blanks only. *)
Definition blank (s : string) : bool := forallb is_space (list_ascii_of_string s).

(** An event of the form or of the delete button. *)
Definition by_hand (e : event) : Prop :=
  match e with
  | Upload _ => False
  | _ => True
  end.

(** The positions of [data] that are not selected. *)
Definition unselected (index : list nat) (data : DataFrame) : list nat :=
  filter (fun i => negb (selected index i)) (seq 0 (List.length data)).

(** A row whose date [pd.to_datetime] accepts. *)
Definition date_ok (r : row) : bool := is_some (to_datetime (date r)).

(** A row whose amount is a number or is missing. *)
Definition amount_ok (r : row) : bool :=
  match amount r with
  | Number _ | Missing => true
  | _ => false
  end.

Definition renderable (r : row) : bool := date_ok r && amount_ok r.

(** A file that the upload handler stores. *)
Definition accepted (f : csv_file) : bool :=
  match fst (upload [] f) with
  | Imported => true
  | _ => false
  end.

(** The metrics after one more row of this type and amount. *)
Definition with_entry (m : summary) (k : entry_kind) (a : Z) : summary :=
  match k with
  | Income => {| total_income := total_income m + a;
                 total_expense := total_expense m;
                 balance := balance m + a |}
  | Expense => {| total_income := total_income m;
                  total_expense := total_expense m + a;
                  balance := balance m - a |}
  end.

(** [r] may stand above [r'] in a table that shows the latest date first and
    the rows without a date last. *)
Definition latest_first (r r' : row) : bool :=
  match sort_key r, sort_key r' with
  | Some k, Some k' => k' <=? k
  | None, Some _ => false
  | _, None => true
  end.

(** What a row adds to the balance: its amount when it is an income, minus its
    amount when it is not, and nothing when the amount is missing. *)
Definition signed_value (r : row) : Z :=
  match signed_amount r with
  | Some (Number z) => z
  | _ => 0
  end.

(** The sum of what the rows up to position [i] add to the balance. *)
Definition running_total (l : DataFrame) (i : nat) : Z :=
  fold_right Z.add 0 (map signed_value (firstn (S i) l)).



(** The row that [read_csv] makes of a record, given the positions of the five
    required columns. *)
Definition row_of_record (f : csv_file) (jd jt jc ja jn : nat) (rec : list string) : row :=
  {| date := read_cell (column_dtype f jd) (field_at jd rec);
     type := read_cell (column_dtype f jt) (field_at jt rec);
     category := read_cell (column_dtype f jc) (field_at jc rec);
     amount := read_cell (column_dtype f ja) (field_at ja rec);
     note := read_cell (column_dtype f jn) (field_at jn rec) |}.

(** A row that has a category. *)
Definition has_category (r : row) : bool :=
  match category r with
  | Missing => false
  | _ => true
  end.

(** The bars of the chart; the line about no expenses stands for none. *)
Definition bars (ch : category_chart) : series :=
  match ch with
  | BarChart s => s
  | NoExpenses => []
  end.

(** A row whose category is no timestamp. *)
Definition plain_category (r : row) : bool :=
  match category r with
  | Stamp _ => false
  | _ => true
  end.

(** A row of cells that the model tells apart as the script does: its date is
    a timestamp, a missing value, or text that is an ISO date or that no
    reader takes for a date; its amount is a number, a missing value or plain
    text; its category is no timestamp. *)
Definition modelled (r : row) : bool :=
  match date r with
  | Stamp _ | Missing => true
  | Text s => is_some (parse_date s) || undatable s
  | Number _ => false
  end
  && match amount r with
     | Number _ | Missing => true
     | Text s => plain s
     | Stamp _ => false
     end
  && plain_category r.

(** An interaction that leaves the file in the uploader. *)
Definition keeps_file (a : action) : Prop :=
  match a with
  | Submit _ | Click _ => True
  | Choose _ | Remove => False
  end.

(** ** Definitions of the proofs *)

(** The element at a position, as a list of at most one element. *)
Definition pick {A : Type} (l : list A) (i : nat) : list A :=
  match nth_error l i with Some x => [x] | None => [] end.

(** The absolute value of a cell as a sum counts it. *)
Definition cell_magnitude (c : cell) : Z :=
  match c with
  | Number z => Z.abs z
  | _ => 0
  end.

Definition cells_magnitude (cs : list cell) : Z := total (map cell_magnitude cs).

(** The metrics in the whole numbers. *)
Definition exact_summarize (df : DataFrame) : option summary :=
  income <- exact_total income_label df ;;
  expense <- exact_total expense_label df ;;
  Some {| total_income := income;
          total_expense := expense;
          balance := income - expense |}.

(** The order of the keys, on keys paired with their positions. *)
Definition key_le (p q : Z * nat) : Prop := fst p <= fst q.

(** Every pair of the list names a position of [ks] and the key found there. *)
Definition indexes (ks : list Z) (l : list (Z * nat)) : Prop :=
  Forall (fun p => nth_error ks (snd p) = Some (fst p)) l.


(** ** Rows, forms and files of the examples *)

Definition lunch : entry_form :=
  {| entry_date := mkTimestamp 2024 1 1;
     entry_type := Expense;
     entry_category := "식비";
     entry_amount := 5000;
     entry_note := "" |}.

Definition allowance : entry_form :=
  {| entry_date := mkTimestamp 2024 1 2;
     entry_type := Income;
     entry_category := "용돈";
     entry_amount := 10000;
     entry_note := "" |}.

Definition snack : entry_form :=
  {| entry_date := mkTimestamp 2024 1 1;
     entry_type := Expense;
     entry_category := "간식";
     entry_amount := 1500;
     entry_note := "" |}.

Definition bus : entry_form :=
  {| entry_date := mkTimestamp 2024 1 1;
     entry_type := Expense;
     entry_category := "교통";
     entry_amount := 1200;
     entry_note := "" |}.



(** The purchase number [n] of one day, of 100 won times [n]. *)
Definition purchase (n : nat) : entry_form :=
  {| entry_date := mkTimestamp 2024 1 1;
     entry_type := Expense;
     entry_category := "간식";
     entry_amount := 100 * N.of_nat n;
     entry_note := "" |}.

(** Twenty purchases of one day, in the order 1, 2, ..., 20. *)
Definition busy_day : DataFrame := run (map (fun n => Add (purchase n)) (seq 1 20)).

Definition scenario : DataFrame := run [Add lunch; Add allowance].

Definition one_day : DataFrame := run [Add lunch; Add snack; Add bus].

Definition pay : row :=
  {| date := Stamp (mkTimestamp 2024 1 1); type := Text "수입";
     category := Text "용돈"; amount := Number 10000; note := Text "1월" |}.

Definition meal : row :=
  {| date := Stamp (mkTimestamp 2024 1 3); type := Text "지출";
     category := Text "식비"; amount := Number 5000; note := Text "점심" |}.

Definition savings : row :=
  {| date := Stamp (mkTimestamp 2024 1 2); type := Text "저축";
     category := Text "은행"; amount := Number 3000; note := Text "적금" |}.

Definition file_without_date : csv_file :=
  {| header := ["type"; "category"; "amount"; "note"];
     records := [["지출"; "식비"; "1000"; "점심"]] |}.

Definition file_without_note : csv_file :=
  {| header := ["date"; "type"; "category"; "amount"];
     records := [["2024-01-01"; "지출"; "식비"; "1000"]] |}.

Definition file_with_malformed_fields : csv_file :=
  {| header := required_columns;
     records := [["어제"; "지출"; "식비"; "천원"; "점심"];
                 ["2024-01-02"; "수입"; "용돈"; "10000"; "1월"]] |}.



Definition file_with_savings : csv_file :=
  {| header := required_columns;
     records := [["2024-01-01"; "수입"; "용돈"; "10000"; "1월"];
                 ["2024-01-02"; "저축"; "은행"; "3000"; "적금"];
                 ["2024-01-03"; "지출"; "식비"; "5000"; "점심"]] |}.

Definition file_with_one_saving : csv_file :=
  {| header := required_columns;
     records := [["2024-01-02"; "저축"; "은행"; "3000"; "적금"]] |}.


(** Two lunches, a snack and the allowance. *)
Definition two_lunches : DataFrame := run [Add lunch; Add snack; Add allowance; Add lunch].

(** * Lemmas *)

(** ** Positions and permutations *)

Section Reindex.

Context {A : Type}.

Lemma reindex_cons (i : nat) (idx : list nat) (l : list A) :
  reindex (i :: idx) l = (pick l i ++ reindex idx l)%list.
Proof. reflexivity. Qed.

Lemma reindex_shift (a : A) (l : list A) (idx : list nat) :
  reindex (map S idx) (a :: l) = reindex idx l.
Proof.
  induction idx as [|i idx IH]; [reflexivity|].
  cbn [map]. rewrite !reindex_cons, IH. reflexivity.
Qed.

Lemma reindex_seq (l : list A) : reindex (seq 0 (List.length l)) l = l.
Proof.
  induction l as [|a l IH]; [reflexivity|].
  cbn [List.length seq]. rewrite <- seq_shift, reindex_cons, reindex_shift, IH.
  reflexivity.
Qed.

Lemma reindex_Permutation (idx idx' : list nat) (l : list A) :
  Permutation idx idx' -> Permutation (reindex idx l) (reindex idx' l).
Proof.
  intros H. unfold reindex. now apply Permutation_flat_map.
Qed.

Lemma reindex_all (idx : list nat) (l : list A) :
  Permutation idx (seq 0 (List.length l)) -> Permutation (reindex idx l) l.
Proof.
  intros H. rewrite <- (reindex_seq l) at 2. now apply reindex_Permutation.
Qed.

Lemma reindex_filter (P : A -> bool) (idx : list nat) (l : list A) :
  filter P (reindex idx l)
  = reindex (filter (fun i => match nth_error l i with
                              | Some x => P x
                              | None => false
                              end) idx) l.
Proof.
  induction idx as [|i idx IH]; [reflexivity|].
  rewrite reindex_cons, filter_app, IH. cbn [filter]. unfold pick.
  destruct (nth_error l i) as [x|] eqn:E; cbn [filter app].
  - destruct (P x); [|reflexivity].
    rewrite reindex_cons. unfold pick. now rewrite E.
  - reflexivity.
Qed.

End Reindex.

Lemma reindex_map {A B : Type} (f : A -> B) (idx : list nat) (l : list A) :
  reindex idx (map f l) = map f (reindex idx l).
Proof.
  induction idx as [|i idx IH]; [reflexivity|].
  rewrite !reindex_cons, map_app, IH. f_equal.
  unfold pick. rewrite nth_error_map. now destruct (nth_error l i).
Qed.

(** ** The insertion pass *)

Lemma insert_Permutation (p : Z * nat) (l : list (Z * nat)) :
  Permutation (insert p l) (p :: l).
Proof.
  induction l as [|q l IH]; cbn [insert]; [reflexivity|].
  destruct (fst q <? fst p); [|reflexivity].
  rewrite IH. apply perm_swap.
Qed.

Lemma insertion_sort_Permutation (l : list (Z * nat)) :
  Permutation (insertion_sort l) l.
Proof.
  induction l as [|p l IH]; cbn [insertion_sort]; [reflexivity|].
  rewrite insert_Permutation. now constructor.
Qed.

Lemma insert_HdRel (p q : Z * nat) (l : list (Z * nat)) :
  key_le q p -> HdRel key_le q l -> HdRel key_le q (insert p l).
Proof.
  intros Hqp Hl. destruct l as [|r l]; cbn [insert].
  - now constructor.
  - inversion Hl; subst. destruct (fst r <? fst p); now constructor.
Qed.

Lemma insert_Sorted (p : Z * nat) (l : list (Z * nat)) :
  Sorted key_le l -> Sorted key_le (insert p l).
Proof.
  induction 1 as [|q l Hs IH Hq]; cbn [insert].
  - repeat constructor.
  - destruct (fst q <? fst p) eqn:E.
    + constructor; [exact IH|]. apply insert_HdRel; [|exact Hq].
      unfold key_le. lia.
    + constructor; [now constructor|]. constructor. unfold key_le. lia.
Qed.

Lemma insertion_sort_Sorted (l : list (Z * nat)) : Sorted key_le (insertion_sort l).
Proof.
  induction l as [|p l IH]; cbn [insertion_sort]; [constructor|].
  now apply insert_Sorted.
Qed.

Lemma Sorted_map_fst (l : list (Z * nat)) :
  Sorted key_le l -> Sorted Z.le (map fst l).
Proof.
  induction 1 as [|q l Hs IH Hq]; cbn [map]; constructor; [exact IH|].
  destruct Hq; cbn [map]; now constructor.
Qed.

(** Equal keys keep their order through the insertion pass. *)
Lemma filter_insert (k : Z) (p : Z * nat) (l : list (Z * nat)) :
  filter (fun q => fst q =? k) (insert p l)
  = if fst p =? k then p :: filter (fun q => fst q =? k) l
    else filter (fun q => fst q =? k) l.
Proof.
  induction l as [|q l IH]; cbn [insert filter].
  - now destruct (fst p =? k).
  - destruct (fst q <? fst p) eqn:E; cbn [filter].
    + rewrite IH. destruct (fst p =? k) eqn:Ep, (fst q =? k) eqn:Eq;
        try reflexivity. lia.
    + reflexivity.
Qed.

Lemma filter_insertion_sort (k : Z) (l : list (Z * nat)) :
  filter (fun q => fst q =? k) (insertion_sort l) = filter (fun q => fst q =? k) l.
Proof.
  induction l as [|p l IH]; cbn [insertion_sort]; [reflexivity|].
  rewrite filter_insert, IH. reflexivity.
Qed.

(** ** Keys paired with their positions *)

Lemma combine_seq_indexes (pre ks : list Z) :
  indexes (pre ++ ks) (combine ks (seq (List.length pre) (List.length ks))).
Proof.
  revert pre. induction ks as [|k ks IH]; intros pre; cbn [List.length seq combine].
  - constructor.
  - constructor.
    + cbn [fst snd]. rewrite nth_error_app2 by lia.
      now rewrite Nat.sub_diag.
    + specialize (IH (pre ++ [k])%list).
      rewrite <- app_assoc, length_app in IH. cbn [List.length app] in IH.
      now rewrite Nat.add_1_r in IH.
Qed.

Lemma enumerate_indexes (ks : list Z) : indexes ks (enumerate ks).
Proof. exact (combine_seq_indexes [] ks). Qed.

Lemma enumerate_snd (ks : list Z) : map snd (enumerate ks) = seq 0 (List.length ks).
Proof.
  unfold enumerate. generalize 0%nat.
  induction ks as [|k ks IH]; intros n; cbn [List.length seq combine map];
    [reflexivity|].
  now rewrite IH.
Qed.

Lemma indexes_Permutation (ks : list Z) (l l' : list (Z * nat)) :
  Permutation l l' -> indexes ks l -> indexes ks l'.
Proof. intros H. unfold indexes. now rewrite H. Qed.

Lemma reindex_indexes (ks : list Z) (l : list (Z * nat)) :
  indexes ks l -> reindex (map snd l) ks = map fst l.
Proof.
  induction 1 as [|p l Hp Hl IH]; [reflexivity|].
  cbn [map]. rewrite reindex_cons, IH. unfold pick. now rewrite Hp.
Qed.

Lemma filter_holds_key (ks : list Z) (k : Z) (l : list (Z * nat)) :
  indexes ks l ->
  filter (holds_key ks k) (map snd l) = map snd (filter (fun q => fst q =? k) l).
Proof.
  induction 1 as [|p l Hp Hl IH]; [reflexivity|].
  cbn [map filter]. unfold holds_key at 1. rewrite Hp, IH.
  now destruct (fst p =? k).
Qed.

(** ** Every rearrangement before the insertion pass gives a sort kind *)

Section Prearranged.

Variable pre : list (Z * nat) -> list (Z * nat).
Hypothesis pre_Permutation : forall l, Permutation (pre l) l.

Lemma prearranged_perm (ks : list Z) :
  Permutation (map snd (insertion_sort (pre (enumerate ks))))
              (seq 0 (List.length ks)).
Proof.
  rewrite <- enumerate_snd. apply Permutation_map.
  rewrite insertion_sort_Permutation. apply pre_Permutation.
Qed.

Lemma prearranged_sorted (ks : list Z) :
  Sorted Z.le (reindex (map snd (insertion_sort (pre (enumerate ks)))) ks).
Proof.
  rewrite reindex_indexes.
  - apply Sorted_map_fst, insertion_sort_Sorted.
  - apply indexes_Permutation with (l := enumerate ks).
    + symmetry. rewrite insertion_sort_Permutation. apply pre_Permutation.
    + apply enumerate_indexes.
Qed.

End Prearranged.

(** The sort kind that is an insertion pass. *)
Definition insertion_kind : sort_kind :=
  {| argsort := insertion_argsort;
     argsort_perm := prearranged_perm (fun l => l) (fun l => Permutation_refl l);
     argsort_sorted := prearranged_sorted (fun l => l) (fun l => Permutation_refl l) |}.

Lemma insertion_kind_stable : stable insertion_kind.
Proof.
  intros ks k. cbn [argsort insertion_kind]. unfold insertion_argsort.
  rewrite filter_holds_key.
  - rewrite filter_insertion_sort, <- (filter_holds_key k (enumerate_indexes ks)).
    now rewrite enumerate_snd.
  - apply indexes_Permutation with (l := enumerate ks).
    + symmetry. apply insertion_sort_Permutation.
    + apply enumerate_indexes.
Qed.

(** ** The quicksort of numpy is a sort kind *)

Lemma ascending_Sorted (l : list Z) : ascending l = true -> Sorted Z.le l.
Proof.
  induction l as [|k [|k' l] IH]; intros H.
  - constructor.
  - repeat constructor.
  - cbn [ascending] in H. apply andb_true_iff in H as [Hk H].
    constructor; [now apply IH|]. constructor. lia.
Qed.

Lemma is_argsort_perm (ks : list Z) (idx : list nat) :
  is_argsort ks idx = true -> Permutation idx (seq 0 (List.length ks)).
Proof.
  unfold is_argsort. rewrite !andb_true_iff. intros [[Hlen Hall] _].
  apply Nat.eqb_eq in Hlen. symmetry. apply NoDup_Permutation_bis.
  - apply seq_NoDup.
  - rewrite length_seq. lia.
  - intros i Hi. rewrite forallb_forall in Hall. specialize (Hall i Hi).
    apply existsb_exists in Hall as (j & Hj & E).
    apply Nat.eqb_eq in E. now subst.
Qed.

Lemma is_argsort_sorted (ks : list Z) (idx : list nat) :
  is_argsort ks idx = true -> Sorted Z.le (reindex idx ks).
Proof.
  unfold is_argsort. rewrite !andb_true_iff. intros [_ H].
  now apply ascending_Sorted.
Qed.

Lemma quicksort_argsort_perm (ks : list Z) :
  Permutation (quicksort_argsort ks) (seq 0 (List.length ks)).
Proof.
  unfold quicksort_argsort. destruct (is_argsort ks (aquicksort ks)) eqn:E.
  - now apply is_argsort_perm.
  - apply (argsort_perm insertion_kind).
Qed.

Lemma quicksort_argsort_sorted (ks : list Z) :
  Sorted Z.le (reindex (quicksort_argsort ks) ks).
Proof.
  unfold quicksort_argsort. destruct (is_argsort ks (aquicksort ks)) eqn:E.
  - now apply is_argsort_sorted.
  - apply (argsort_sorted insertion_kind).
Qed.

(** The sort kind of the script. *)
Definition quicksort_kind : sort_kind :=
  {| argsort := quicksort_argsort;
     argsort_perm := quicksort_argsort_perm;
     argsort_sorted := quicksort_argsort_sorted |}.

Lemma holds_key_nth (ks : list Z) (k : Z) (i : nat) :
  holds_key ks k i = true -> nth i ks 0 = k.
Proof.
  unfold holds_key. destruct (nth_error ks i) as [k'|] eqn:E; [|discriminate].
  intros H. rewrite (nth_error_nth _ _ _ E). lia.
Qed.

(** A position that goes down stays behind the positions of its key. *)
Lemma filter_sink (ks : list Z) (k : Z) (vi : nat) (sorted : list nat) :
  filter (holds_key ks k) (sink ks vi sorted)
  = if holds_key ks k vi then vi :: filter (holds_key ks k) sorted
    else filter (holds_key ks k) sorted.
Proof.
  induction sorted as [|q sorted IH]; cbn [sink filter].
  - reflexivity.
  - destruct (less ks vi q) eqn:L; cbn [filter].
    + rewrite IH.
      destruct (holds_key ks k vi) eqn:Hv, (holds_key ks k q) eqn:Hq; try reflexivity.
      apply holds_key_nth in Hv, Hq. unfold less in L. lia.
    + reflexivity.
Qed.

Lemma filter_insertion_from (ks : list Z) (k : Z) (positions sorted : list nat) :
  filter (holds_key ks k)
         (rev (fold_left (fun sorted vi => sink ks vi sorted) positions sorted))
  = filter (holds_key ks k) (rev sorted) ++ filter (holds_key ks k) positions.
Proof.
  revert sorted. induction positions as [|vi positions IH]; intros sorted;
    cbn [fold_left filter].
  - now rewrite app_nil_r.
  - rewrite IH, !filter_rev, filter_sink.
    destruct (holds_key ks k vi); [|reflexivity].
    cbn [rev]. now rewrite <- app_assoc.
Qed.

Lemma filter_insertion (ks : list Z) (k : Z) (positions : list nat) :
  filter (holds_key ks k) (insertion ks positions) = filter (holds_key ks k) positions.
Proof. unfold insertion. now rewrite filter_insertion_from. Qed.

(** Up to 17 keys are sorted by insertion. *)
Lemma aquicksort_short (ks : list Z) :
  (List.length ks <= 17)%nat ->
  aquicksort ks = insertion ks (seq 0 (List.length ks)).
Proof.
  intros H. unfold aquicksort. destruct (List.length ks) as [|n] eqn:E; [reflexivity|].
  cbn [sort_range].
  assert (D : (2 * Z.log2 (Z.of_nat (S n)) <? 0) = false).
  { apply Z.ltb_ge. pose proof (Z.log2_nonneg (Z.of_nat (S n))). lia. }
  rewrite D. cbn [andb].
  assert (R : (16 <? S n - 1 - 0)%nat = false) by (apply Nat.ltb_ge; lia).
  rewrite R. unfold on_range.
  replace (S (S n - 1) - 0)%nat with (S n) by lia.
  replace (S (S n - 1)) with (S n) by lia.
  change (firstn 0 (seq 0 (S n))) with (@nil nat).
  change (skipn 0 (seq 0 (S n))) with (seq 0 (S n)).
  rewrite skipn_all2 by (rewrite length_seq; lia).
  rewrite firstn_all2 by (rewrite length_seq; lia).
  cbn [app]. now rewrite app_nil_r.
Qed.

Lemma quicksort_kind_stable_upto : stable_upto 17 quicksort_kind.
Proof.
  intros ks k H. cbn [argsort quicksort_kind]. unfold quicksort_argsort.
  destruct (is_argsort ks (aquicksort ks)).
  - now rewrite aquicksort_short, filter_insertion.
  - apply insertion_kind_stable.
Qed.

(** ** The error monad *)

Lemma bind_Some {A B : Type} (m : option A) (k : A -> option B) (b : B) :
  bind m k = Some b -> exists a, m = Some a /\ k a = Some b.
Proof. destruct m as [a|]; cbn [bind]; [eauto | discriminate]. Qed.

Ltac inv_bind H :=
  let a := fresh "a" in
  let E := fresh "E" in
  apply bind_Some in H; destruct H as (a & E & H).

Lemma mapM_length {A B : Type} (f : A -> option B) (l : list A) (l' : list B) :
  mapM f l = Some l' -> List.length l' = List.length l.
Proof.
  revert l'. induction l as [|a l IH]; intros l' H; cbn [mapM] in H.
  - now inversion H.
  - inv_bind H. inv_bind H. inversion H; subst. cbn [List.length].
    now rewrite (IH _ E0).
Qed.

Lemma mapM_Forall2 {A B : Type} (f : A -> option B) (l : list A) (l' : list B) :
  mapM f l = Some l' -> Forall2 (fun a b => f a = Some b) l l'.
Proof.
  revert l'. induction l as [|a l IH]; intros l' H; cbn [mapM] in H.
  - inversion H. constructor.
  - inv_bind H. inv_bind H. inversion H; subst. constructor; auto.
Qed.

(** ** The upload handler *)

Lemma find_column_nth_error (name : string) (cols : list string) (j : nat) :
  find_column name cols = Some j -> nth_error cols j = Some name.
Proof.
  revert j. induction cols as [|c cols IH]; intros j H; cbn [find_column] in H.
  - discriminate.
  - destruct (String.eqb c name) eqn:E.
    + inversion H; subst. apply String.eqb_eq in E. now subst.
    + destruct (find_column name cols) as [i|]; [|discriminate].
      inversion H; subst. cbn [nth_error]. now apply IH.
Qed.

Lemma find_column_lt (name : string) (cols : list string) (j : nat) :
  find_column name cols = Some j -> (j < List.length cols)%nat.
Proof.
  intros H. apply find_column_nth_error in H.
  apply nth_error_Some. congruence.
Qed.

Lemma find_column_distinct (n1 n2 : string) (cols : list string) (j1 j2 : nat) :
  n1 <> n2 -> find_column n1 cols = Some j1 -> find_column n2 cols = Some j2 ->
  j1 <> j2.
Proof.
  intros Hn H1 H2 ->.
  apply find_column_nth_error in H1, H2. congruence.
Qed.

Lemma issubset_find (names cols : list string) (n : string) :
  issubset names cols = true -> In n names -> exists j, find_column n cols = Some j.
Proof.
  unfold issubset. rewrite forallb_forall. intros H Hn.
  specialize (H n Hn). destruct (find_column n cols) as [j|]; [eauto | discriminate].
Qed.

Lemma rectangular_no_long_record (f : csv_file) :
  rectangular f = true ->
  existsb (fun rec => Nat.ltb (List.length (header f)) (List.length rec)) (records f)
  = false.
Proof.
  unfold rectangular. rewrite forallb_forall. intros H.
  apply not_true_is_false. rewrite existsb_exists. intros (rec & Hin & Hlt).
  specialize (H rec Hin). apply Nat.leb_le in H. apply Nat.ltb_lt in Hlt. lia.
Qed.

(** With the date column there and no record too long, [read_csv] returns a
    frame with the header as its columns and one row for each record. *)
Lemma read_csv_frame (f : csv_file) (k : nat) :
  find_column "date" (header f) = Some k -> rectangular f = true ->
  read_csv f = inr {| columns := header f;
                      values := map (read_record f) (records f) |}.
Proof.
  intros Hd Hr. unfold read_csv. rewrite Hd, (rectangular_no_long_record f Hr).
  cbn [is_some negb]. destruct (header f); [discriminate Hd | reflexivity].
Qed.

Lemma read_csv_columns (f : csv_file) (df_up : parsed_frame) :
  read_csv f = inr df_up -> columns df_up = header f.
Proof.
  unfold read_csv. destruct (header f) as [|c cols]; [discriminate|].
  destruct (negb _); [discriminate|]. destruct (existsb _ _); [discriminate|].
  intros H. inversion H. reflexivity.
Qed.

(** The cell that [df_up[name]] has in the row read from a record. *)
Lemma getitem_read_record (f : csv_file) (name : string) (j : nat) (rec : list string) :
  find_column name (header f) = Some j ->
  getitem name {| columns := header f; values := map (read_record f) (records f) |}
          (read_record f rec)
  = read_cell (column_dtype f j) (field_at j rec).
Proof.
  intros H. unfold getitem. cbn [columns]. rewrite H.
  apply nth_error_nth. unfold read_record.
  rewrite nth_error_map, nth_error_seq.
  apply find_column_lt in H. apply Nat.ltb_lt in H. now rewrite H.
Qed.

(** A column other than the date column is never read as timestamps. *)
Lemma column_dtype_not_date (f : csv_file) (j k : nat) :
  find_column "date" (header f) = Some k -> j <> k -> column_dtype f j <> datetime64.
Proof.
  intros Hk Hj. unfold column_dtype. rewrite Hk.
  apply Nat.eqb_neq in Hj. rewrite Hj. unfold infer_dtype.
  destruct (forallb _ _); discriminate.
Qed.

Lemma read_cell_malformed_number (t : dtype) (s : string) :
  t <> datetime64 -> is_na s = false -> parse_number s = None ->
  read_cell t s = Text s.
Proof.
  intros Ht Hna Hp. unfold read_cell. rewrite Hna, Hp. now destruct t.
Qed.

(** ** Whole numbers as float64 *)

Lemma round64_exact (z : Z) : Z.abs z <= 2 ^ 53 -> round64 z = z.
Proof. intros H. unfold round64. apply Z.leb_le in H. now rewrite H. Qed.


Lemma fadd_exact (x y : Z) : Z.abs x + Z.abs y <= 2 ^ 53 -> fadd x y = x + y.
Proof. intros H. apply round64_exact. lia. Qed.

Lemma fsub_exact (x y : Z) : Z.abs x + Z.abs y <= 2 ^ 53 -> fsub x y = x - y.
Proof. intros H. apply round64_exact. lia. Qed.

Lemma cells_magnitude_cons (c : cell) (cs : list cell) :
  cells_magnitude (c :: cs) = cell_magnitude c + cells_magnitude cs.
Proof. reflexivity. Qed.

Lemma cell_magnitude_nonneg (c : cell) : 0 <= cell_magnitude c.
Proof. destruct c; cbn [cell_magnitude]; lia. Qed.

Lemma cells_magnitude_nonneg (cs : list cell) : 0 <= cells_magnitude cs.
Proof.
  induction cs as [|c cs IH]; [cbn; lia|].
  rewrite cells_magnitude_cons. pose proof (cell_magnitude_nonneg c). lia.
Qed.

Lemma cells_magnitude_app (cs cs' : list cell) :
  cells_magnitude (cs ++ cs') = cells_magnitude cs + cells_magnitude cs'.
Proof.
  induction cs as [|c cs IH]; [reflexivity|].
  cbn [app]. rewrite !cells_magnitude_cons, IH. lia.
Qed.

Lemma cells_magnitude_Permutation (cs cs' : list cell) :
  Permutation cs cs' -> cells_magnitude cs = cells_magnitude cs'.
Proof.
  induction 1 as [|x l l' H IH|x y l|l l' l'' H1 IH1 H2 IH2].
  - reflexivity.
  - rewrite !cells_magnitude_cons. lia.
  - rewrite !cells_magnitude_cons. lia.
  - congruence.
Qed.

(** Within the exact range the float64 sum is the sum of the whole numbers. *)
Lemma add_up_exact (cs : list cell) (acc : Z) :
  Z.abs acc + cells_magnitude cs <= 2 ^ 53 ->
  add_up acc cs = option_map (Z.add acc) (exact_sum cs).
Proof.
  revert acc. induction cs as [|c cs IH]; intros acc H.
  - cbn. f_equal. lia.
  - rewrite cells_magnitude_cons in H. pose proof (cells_magnitude_nonneg cs).
    destruct c as [s|z|t|]; cbn [add_up exact_sum cell_magnitude] in *;
      try reflexivity.
    + rewrite fadd_exact by lia. rewrite IH by lia.
      destruct (exact_sum cs) as [x|]; cbn [bind option_map]; [|reflexivity].
      f_equal. lia.
    + apply IH. lia.
Qed.

Lemma sum_exact (cs : list cell) :
  cells_magnitude cs <= 2 ^ 53 -> sum cs = exact_sum cs.
Proof.
  intros H. unfold sum. rewrite add_up_exact by (cbn [Z.abs]; lia).
  now destruct (exact_sum cs).
Qed.

Lemma cumsum_exact (cs : list cell) (acc : Z) :
  Z.abs acc + cells_magnitude cs <= 2 ^ 53 ->
  cumsum acc cs = exact_cumsum acc cs.
Proof.
  revert acc. induction cs as [|c cs IH]; intros acc H; [reflexivity|].
  rewrite cells_magnitude_cons in H. pose proof (cells_magnitude_nonneg cs).
  destruct c as [s|z|t|]; cbn [cumsum exact_cumsum cell_magnitude] in *;
    try reflexivity.
  - rewrite fadd_exact by lia. now rewrite IH by lia.
  - now rewrite IH by lia.
Qed.

Lemma exact_sum_bound (cs : list cell) (s : Z) :
  exact_sum cs = Some s -> Z.abs s <= cells_magnitude cs.
Proof.
  revert s. induction cs as [|c cs IH]; intros s H.
  - inversion H. cbn. lia.
  - rewrite cells_magnitude_cons.
    destruct c as [x|z|t|]; cbn [exact_sum cell_magnitude] in *; try discriminate.
    + destruct (exact_sum cs) as [y|]; cbn [bind] in H; [|discriminate].
      inversion H; subst. specialize (IH y eq_refl). lia.
    + specialize (IH s H). lia.
Qed.

Lemma magnitude_cells (l : DataFrame) : magnitude l = cells_magnitude (map amount l).
Proof.
  unfold magnitude, cells_magnitude. rewrite map_map. f_equal.
  apply map_ext. intros r. unfold amount_value. now destruct (amount r).
Qed.

Lemma magnitude_cons (r : row) (l : DataFrame) :
  magnitude (r :: l) = Z.abs (amount_value r) + magnitude l.
Proof. reflexivity. Qed.

Lemma magnitude_nonneg (l : DataFrame) : 0 <= magnitude l.
Proof. rewrite magnitude_cells. apply cells_magnitude_nonneg. Qed.

Lemma magnitude_app (l l' : DataFrame) : magnitude (l ++ l') = magnitude l + magnitude l'.
Proof. rewrite !magnitude_cells, map_app. apply cells_magnitude_app. Qed.

Lemma magnitude_Permutation (l l' : DataFrame) :
  Permutation l l' -> magnitude l = magnitude l'.
Proof.
  intros H. rewrite !magnitude_cells.
  now apply cells_magnitude_Permutation, Permutation_map.
Qed.

(** The amounts of two types are amounts of different rows. *)
Lemma magnitude_two_filters (P Q : row -> bool) (l : DataFrame) :
  (forall r, P r = true -> Q r = false) ->
  magnitude (filter P l) + magnitude (filter Q l) <= magnitude l.
Proof.
  intros H. induction l as [|r l IH]; [cbn; lia|].
  cbn [filter]. rewrite (magnitude_cons r l).
  destruct (P r) eqn:EP.
  - rewrite (H r EP), magnitude_cons. lia.
  - destruct (Q r); rewrite ?magnitude_cons; lia.
Qed.

Lemma magnitude_filter (P : row -> bool) (l : DataFrame) :
  magnitude (filter P l) <= magnitude l.
Proof.
  pose proof (magnitude_two_filters P (fun _ => false) l (fun _ _ => eq_refl)) as H.
  pose proof (magnitude_nonneg (filter (fun _ => false) l)). lia.
Qed.

Lemma exact_Permutation (l l' : DataFrame) : Permutation l l' -> exact l = exact l'.
Proof. intros H. unfold exact. now rewrite (magnitude_Permutation H). Qed.

(** ** What an upload and a deletion keep *)

(** A missing-value marker is no number and no date. *)
Lemma is_na_inv (s : string) : is_na s = true -> In s na_values.
Proof.
  unfold is_na. rewrite existsb_exists. intros (x & Hin & Hx).
  apply String.eqb_eq in Hx. now subst.
Qed.





Lemma read_csv_inr (f : csv_file) (df_up : parsed_frame) :
  read_csv f = inr df_up ->
  df_up = {| columns := header f; values := map (read_record f) (records f) |}
  /\ exists k, find_column "date" (header f) = Some k.
Proof.
  unfold read_csv. destruct (header f) as [|c cols] eqn:Eh; [discriminate|].
  destruct (find_column "date" (c :: cols)) as [k|]; cbn [is_some negb];
    [|discriminate].
  destruct (existsb _ _); [discriminate|].
  intros H. inversion H. eauto.
Qed.


Lemma drop_from_Forall (P : row -> Prop) (index : list nat) (data : DataFrame) (i : nat) :
  Forall P data -> Forall P (drop_from i index data).
Proof.
  intros H. revert i. induction H as [|r data Hr Hd IH]; intros i; cbn [drop_from].
  - constructor.
  - destruct (selected index i); [apply IH | constructor; [exact Hr | apply IH]].
Qed.

Lemma delete_clicked_Forall (P : row -> Prop) (data data' : DataFrame)
      (to_delete : list nat) (msg : delete_message) :
  Forall P data -> delete_clicked data to_delete = Some (msg, data') -> Forall P data'.
Proof.
  intros Hd H. destruct to_delete as [|i to_delete]; cbn [delete_clicked] in H.
  - inversion H; now subst.
  - inv_bind H. inversion H; subst. unfold drop in E.
    destruct (forallb _ _); [|discriminate]. inversion E; subst.
    now apply drop_from_Forall.
Qed.



(** ** Sorting rearranges the rows *)

Lemma filter_notna_isna (l : DataFrame) :
  Permutation (filter notna l ++ filter isna l) l.
Proof.
  induction l as [|r l IH]; cbn [filter]; [reflexivity|].
  unfold isna at 1. destruct (notna r); cbn [negb app].
  - now constructor.
  - rewrite <- Permutation_middle. now constructor.
Qed.

Lemma argsort_rows_Permutation (K : sort_kind) (l : DataFrame) :
  Permutation (reindex (argsort K (map key_of l)) l) l.
Proof.
  apply reindex_all. rewrite <- (length_map key_of l). apply argsort_perm.
Qed.

Lemma sort_values_Permutation (K : sort_kind) (ascending : bool) (l : DataFrame) :
  Permutation (sort_values K ascending l) l.
Proof.
  unfold sort_values.
  transitivity (filter notna l ++ filter isna l)%list; [|apply filter_notna_isna].
  apply Permutation_app_tail. destruct ascending.
  - apply argsort_rows_Permutation.
  - transitivity (rev (filter notna l)); [|symmetry; apply Permutation_rev].
    transitivity (reindex (argsort K (map key_of (rev (filter notna l))))
                          (rev (filter notna l))).
    + symmetry. apply Permutation_rev.
    + apply argsort_rows_Permutation.
Qed.

Lemma Permutation_filter' {A : Type} (f : A -> bool) (l l' : list A) :
  Permutation l l' -> Permutation (filter f l) (filter f l').
Proof.
  induction 1 as [|x l l' H IH|x y l|l l' l'' H1 IH1 H2 IH2]; cbn [filter].
  - constructor.
  - destruct (f x); [now constructor | exact IH].
  - destruct (f x), (f y); try reflexivity. apply perm_swap.
  - now transitivity (filter f l').
Qed.

(** ** Totals in the whole numbers do not depend on the order of the rows *)

Lemma exact_sum_Permutation (cs cs' : list cell) :
  Permutation cs cs' -> exact_sum cs = exact_sum cs'.
Proof.
  induction 1 as [|x l l' H IH|x y l|l l' l'' H1 IH1 H2 IH2].
  - reflexivity.
  - destruct x; cbn [exact_sum]; now rewrite ?IH.
  - destruct x, y; cbn [exact_sum]; try reflexivity.
    destruct (exact_sum l) as [s|]; cbn [bind]; [|reflexivity]. f_equal. lia.
  - congruence.
Qed.

Lemma exact_total_Permutation (label : string) (l l' : DataFrame) :
  Permutation l l' -> exact_total label l = exact_total label l'.
Proof.
  intros H. unfold exact_total.
  apply exact_sum_Permutation, Permutation_map, Permutation_filter', H.
Qed.

Lemma convert_dates_same_entry (data df0 : DataFrame) :
  convert_dates data = Some df0 -> Forall2 same_entry data df0.
Proof.
  intros H. apply mapM_Forall2 in H.
  induction H as [|r r' l l' Hr Hl IH]; constructor; [|exact IH].
  inv_bind Hr. inversion Hr; subst. now repeat split.
Qed.

(** The amounts of a type are the same before and after [pd.to_datetime]. *)
Lemma same_entry_amounts (label : string) (l l' : DataFrame) :
  Forall2 same_entry l l' ->
  map amount (filter (has_type label) l') = map amount (filter (has_type label) l).
Proof.
  induction 1 as [|r r' l l' (Ht & _ & Ha & _) Hl IH]; [reflexivity|].
  assert (Hh : has_type label r' = has_type label r)
    by (unfold has_type; now rewrite Ht).
  cbn [filter]. rewrite Hh. destruct (has_type label r); [|exact IH].
  cbn [map]. now rewrite Ha, IH.
Qed.

Lemma exact_total_same_entry (label : string) (l l' : DataFrame) :
  Forall2 same_entry l l' -> exact_total label l' = exact_total label l.
Proof. intros H. unfold exact_total. now rewrite (same_entry_amounts label H). Qed.

Lemma magnitude_same_entry (l l' : DataFrame) :
  Forall2 same_entry l l' -> magnitude l' = magnitude l.
Proof.
  induction 1 as [|r r' l l' (_ & _ & Ha & _) Hl IH]; [reflexivity|].
  rewrite !magnitude_cons, IH. unfold amount_value. now rewrite Ha.
Qed.

Lemma selected_magnitude_same_entry (label : string) (l l' : DataFrame) :
  Forall2 same_entry l l' ->
  magnitude (filter (has_type label) l') = magnitude (filter (has_type label) l).
Proof.
  intros H. rewrite !magnitude_cells. now rewrite (same_entry_amounts label H).
Qed.

Lemma shown_inv (K : sort_kind) (data df0 : DataFrame) :
  shown K data = Some df0 ->
  exists converted, convert_dates data = Some converted
                    /\ df0 = sort_values K false converted.
Proof.
  unfold shown. intros H. inv_bind H. inversion H; subst. eauto.
Qed.

Lemma shown_exact_total (K : sort_kind) (label : string) (data df0 : DataFrame) :
  shown K data = Some df0 -> exact_total label df0 = exact_total label data.
Proof.
  intros H. apply shown_inv in H. destruct H as (converted & Hc & ->).
  rewrite (exact_total_Permutation label (sort_values_Permutation K false converted)).
  now apply exact_total_same_entry, convert_dates_same_entry.
Qed.

Lemma shown_magnitude (K : sort_kind) (data df0 : DataFrame) :
  shown K data = Some df0 -> magnitude df0 = magnitude data.
Proof.
  intros H. apply shown_inv in H. destruct H as (converted & Hc & ->).
  rewrite (magnitude_Permutation (sort_values_Permutation K false converted)).
  now apply magnitude_same_entry, convert_dates_same_entry.
Qed.

Lemma shown_selected_magnitude (K : sort_kind) (label : string) (data df0 : DataFrame) :
  shown K data = Some df0 ->
  magnitude (filter (has_type label) df0) = magnitude (filter (has_type label) data).
Proof.
  intros H. apply shown_inv in H. destruct H as (converted & Hc & ->).
  rewrite (magnitude_Permutation
             (Permutation_filter' (has_type label)
                (sort_values_Permutation K false converted))).
  now apply selected_magnitude_same_entry, convert_dates_same_entry.
Qed.

Lemma shown_exact (K : sort_kind) (data df0 : DataFrame) :
  shown K data = Some df0 -> exact df0 = exact data.
Proof. intros H. unfold exact. now rewrite (shown_magnitude K data H). Qed.

(** ** The float64 totals within the exact range *)

Lemma total_by_type_exact_selected (label : string) (l : DataFrame) :
  magnitude (filter (has_type label) l) <= 2 ^ 53 ->
  total_by_type label l = exact_total label l.
Proof.
  intros H. unfold total_by_type, exact_total. apply sum_exact.
  now rewrite <- magnitude_cells.
Qed.

Lemma total_by_type_exact (label : string) (l : DataFrame) :
  exact l = true -> total_by_type label l = exact_total label l.
Proof.
  intros H. apply Z.leb_le in H. apply total_by_type_exact_selected.
  pose proof (magnitude_filter (has_type label) l). lia.
Qed.

Lemma exact_total_bound (label : string) (l : DataFrame) (s : Z) :
  exact_total label l = Some s -> Z.abs s <= magnitude (filter (has_type label) l).
Proof.
  intros H. rewrite magnitude_cells. now apply exact_sum_bound.
Qed.

Lemma income_is_no_expense (r : row) :
  has_type income_label r = true -> has_type expense_label r = false.
Proof.
  unfold has_type. destruct (type r) as [s| | |]; try discriminate.
  intros H. apply String.eqb_eq in H. now subst.
Qed.

Lemma summarize_inv (df0 : DataFrame) (m : summary) :
  summarize df0 = Some m ->
  total_by_type income_label df0 = Some (total_income m)
  /\ total_by_type expense_label df0 = Some (total_expense m)
  /\ balance m = fsub (total_income m) (total_expense m).
Proof.
  unfold summarize. intros H. inv_bind H. inv_bind H. inversion H; subst m.
  cbn [total_income total_expense balance]. auto.
Qed.

(** When the amounts of the two types are within the exact range, the
    metrics are the sums and the difference of the whole numbers. *)
Lemma summarize_exact_selected (df0 : DataFrame) (m : summary) :
  magnitude (filter (has_type income_label) df0)
  + magnitude (filter (has_type expense_label) df0) <= 2 ^ 53 ->
  summarize df0 = Some m ->
  exact_total income_label df0 = Some (total_income m)
  /\ exact_total expense_label df0 = Some (total_expense m)
  /\ balance m = total_income m - total_expense m.
Proof.
  intros Hb H. apply summarize_inv in H. destruct H as (Hi & He & Hbal).
  pose proof (magnitude_nonneg (filter (has_type income_label) df0)).
  pose proof (magnitude_nonneg (filter (has_type expense_label) df0)).
  rewrite total_by_type_exact_selected in Hi, He by lia.
  repeat split; try assumption.
  rewrite Hbal. apply fsub_exact.
  apply exact_total_bound in Hi, He. lia.
Qed.

Lemma summarize_exact (df0 : DataFrame) (m : summary) :
  exact df0 = true -> summarize df0 = Some m ->
  exact_total income_label df0 = Some (total_income m)
  /\ exact_total expense_label df0 = Some (total_expense m)
  /\ balance m = total_income m - total_expense m.
Proof.
  intros Hx. apply summarize_exact_selected. apply Z.leb_le in Hx.
  pose proof (magnitude_two_filters (has_type income_label) (has_type expense_label)
                df0 income_is_no_expense). lia.
Qed.

Lemma shown_metrics_inv (K : sort_kind) (data : DataFrame) (m : summary) :
  shown_metrics K data = Some m ->
  data <> [] /\ exists df0, shown K data = Some df0 /\ summarize df0 = Some m.
Proof.
  unfold shown_metrics. destruct data as [|r data]; [discriminate|].
  intros H. inv_bind H. split; [discriminate | eauto].
Qed.

(** What a finished run of the display part has computed. *)
Lemma render_inv (K : sort_kind) (data : DataFrame) (p : page) :
  render K data = Rendered p ->
  data <> []
  /\ shown K data = Some (df p)
  /\ summarize (df p) = Some (metrics p)
  /\ df_time p = sort_values K true (df p)
  /\ (exists signed, mapM signed_amount (df_time p) = Some signed
                     /\ cumsum 0 signed = Some (cumulative_balance p))
  /\ csv_buf p = to_csv (df_time p)
  /\ chart K data = Some (by_category p).
Proof.
  unfold render. destruct data as [|r data]; [discriminate|].
  destruct (render_page K (r :: data)) as [q|] eqn:E; [|discriminate].
  intros H. inversion H; subst q. clear H. unfold render_page in E.
  inv_bind E. inv_bind E. inv_bind E. inv_bind E. inv_bind E.
  inversion E; subst p.
  cbn [df metrics by_category df_time cumulative_balance csv_buf].
  repeat split; try assumption; try discriminate.
  - eauto.
  - unfold chart. rewrite E0. cbn [bind]. rewrite E1. cbn [bind]. rewrite E2.
    reflexivity.
Qed.


(** ** The totals that are shown *)

(** The totals that are shown are those of the stored rows: neither the
    conversion of the dates nor the sorting changes them, as long as the
    amounts of the two types are within the exact range. *)
Lemma shown_metrics_totals_selected (K : sort_kind) (data : DataFrame) (m : summary) :
  magnitude (filter (has_type income_label) data)
  + magnitude (filter (has_type expense_label) data) <= 2 ^ 53 ->
  shown_metrics K data = Some m ->
  exact_total income_label data = Some (total_income m)
  /\ exact_total expense_label data = Some (total_expense m)
  /\ balance m = total_income m - total_expense m.
Proof.
  intros Hb H. apply shown_metrics_inv in H. destruct H as (_ & df0 & Hs & Hm).
  rewrite <- (shown_exact_total K income_label data Hs).
  rewrite <- (shown_exact_total K expense_label data Hs).
  apply summarize_exact_selected; [|exact Hm].
  now rewrite !(shown_selected_magnitude K _ data Hs).
Qed.


(** ** A row of another type counts in no total *)

Lemma filter_skip (label : string) (L1 L2 : DataFrame) (e : row) :
  has_type label e = false ->
  filter (has_type label) (L1 ++ e :: L2) = filter (has_type label) (L1 ++ L2).
Proof.
  intros H. rewrite !filter_app. cbn [filter]. now rewrite H.
Qed.

Lemma exact_total_skip (label : string) (L1 L2 : DataFrame) (e : row) :
  has_type label e = false ->
  exact_total label (L1 ++ e :: L2) = exact_total label (L1 ++ L2).
Proof. intros H. unfold exact_total. now rewrite (@filter_skip label L1 L2 e H). Qed.

Lemma has_type_false (label : string) (e : row) :
  type e <> Text label -> has_type label e = false.
Proof.
  intros H. unfold has_type. destruct (type e) as [s| | |]; try reflexivity.
  apply String.eqb_neq. congruence.
Qed.

(** ** The last cumulative balance *)

Lemma last_cons {A : Type} (a d : A) (l : list A) : last (a :: l) d = last l a.
Proof.
  revert a d. induction l as [|b l IH]; intros a d; [reflexivity|].
  change (last (a :: b :: l) d) with (last (b :: l) d).
  now rewrite (IH b d), (IH b a).
Qed.

Lemma last_default {A : Type} (d d' : A) (l : list A) :
  l <> [] -> last l d = last l d'.
Proof.
  destruct l as [|a l]; [congruence|]. intros _. now rewrite !last_cons.
Qed.

Lemma exact_total_cons (label : string) (r : row) (l : DataFrame) :
  exact_total label (r :: l)
  = if has_type label r
    then match amount r with
         | Number z => s <- exact_total label l ;; Some (z + s)
         | Missing => exact_total label l
         | _ => None
         end
    else exact_total label l.
Proof.
  unfold exact_total. cbn [filter]. destruct (has_type label r); [|reflexivity].
  cbn [map exact_sum]. now destruct (amount r).
Qed.

Lemma has_type_label (label : string) (r : row) :
  type r = Text label -> forall label', has_type label' r = String.eqb label label'.
Proof. intros H label'. unfold has_type. now rewrite H. Qed.

(** Over typed rows the running total in the whole numbers ends at income
    minus expense. *)
Lemma exact_cumsum_last (l : DataFrame) :
  Forall typed l ->
  forall acc i e signed out,
    exact_total income_label l = Some i ->
    exact_total expense_label l = Some e ->
    mapM signed_amount l = Some signed ->
    exact_cumsum acc signed = Some out ->
    last out (Number acc) = Number (acc + i - e).
Proof.
  induction 1 as [|r l [[Ht|Ht] [z Hz]] Hl IH];
    intros acc i e signed out Hi He Hs Hc.
  - cbn in Hi, He, Hs. inversion Hi; inversion He; inversion Hs; subst.
    cbn in Hc. inversion Hc; subst. cbn. f_equal. lia.
  - rewrite exact_total_cons, (has_type_label r Ht), Hz in Hi, He.
    cbn [mapM] in Hs. unfold signed_amount at 1 in Hs.
    rewrite (has_type_label r Ht), Hz in Hs.
    change (String.eqb income_label income_label) with true in Hi, Hs.
    change (String.eqb income_label expense_label) with false in He.
    cbn [bind] in Hs. inv_bind Hi. inversion Hi; subst i.
    inv_bind Hs. inversion Hs; subst signed.
    cbn [exact_cumsum] in Hc. inv_bind Hc. inversion Hc; subst out.
    rewrite last_cons, (IH (acc + z) _ _ _ _ E He E0 E1). f_equal. lia.
  - rewrite exact_total_cons, (has_type_label r Ht), Hz in Hi, He.
    cbn [mapM] in Hs. unfold signed_amount at 1 in Hs.
    rewrite (has_type_label r Ht), Hz in Hs.
    change (String.eqb expense_label expense_label) with true in He.
    change (String.eqb expense_label income_label) with false in Hi, Hs.
    cbn [bind] in Hs. inv_bind He. inversion He; subst e.
    inv_bind Hs. inversion Hs; subst signed.
    cbn [exact_cumsum] in Hc. inv_bind Hc. inversion Hc; subst out.
    rewrite last_cons, (IH (acc + - z) _ _ _ _ Hi E E0 E1). f_equal. lia.
Qed.

(** The signed amounts are as large as the amounts. *)
Lemma signed_magnitude (l : DataFrame) (signed : list cell) :
  mapM signed_amount l = Some signed -> cells_magnitude signed = magnitude l.
Proof.
  revert signed. induction l as [|r l IH]; intros signed H; cbn [mapM] in H.
  - now inversion H.
  - inv_bind H. inv_bind H. inversion H; subst signed.
    rewrite cells_magnitude_cons, magnitude_cons, (IH _ E0). f_equal.
    unfold signed_amount in E. unfold amount_value.
    destruct (has_type income_label r).
    + inversion E; subst. now destruct (amount r).
    + destruct (amount r); inversion E; subst; cbn [cell_magnitude]; lia.
Qed.

Lemma typed_same_entry (l l' : DataFrame) :
  Forall2 same_entry l l' -> Forall typed l -> Forall typed l'.
Proof.
  induction 1 as [|r r' l l' (Ht & _ & Ha & _) Hl IH]; intros H; [constructor|].
  inversion H; subst. constructor; [|auto].
  unfold typed. now rewrite Ht, Ha.
Qed.

Lemma cumsum_length (cs out : list cell) (acc : Z) :
  cumsum acc cs = Some out -> List.length out = List.length cs.
Proof.
  revert acc out. induction cs as [|c cs IH]; intros acc out H; cbn [cumsum] in H.
  - now inversion H.
  - destruct c; try discriminate; inv_bind H; inversion H; subst;
      cbn [List.length]; f_equal; eauto.
Qed.

(** ** Two rows in the shown table *)

(** Two keys in descending order are exchanged by every sort kind. *)
Lemma argsort_two_descending (K : sort_kind) (a b : Z) :
  b < a -> argsort K [a; b] = [1; 0]%nat.
Proof.
  intros Hab. pose proof (argsort_perm K [a; b]) as Hp.
  pose proof (argsort_sorted K [a; b]) as Hs.
  cbn [List.length seq] in Hp. symmetry in Hp.
  apply Permutation_length_2_inv in Hp. destruct Hp as [E|E]; [|exact E].
  rewrite E in Hs. cbn in Hs. inversion Hs as [|x l Hl Hhd]; subst.
  inversion Hhd; subst. lia.
Qed.

(** What the handler does: the rows at the selected positions of the stored
    data are left out. *)
Lemma delete_clicked_drops_stored_rows (data : DataFrame) (i : nat) (to_delete : list nat) :
  forallb (fun j => Nat.ltb j (List.length data)) (i :: to_delete) = true ->
  delete_clicked data (i :: to_delete)
  = Some (Deleted, drop_from 0 (i :: to_delete) data).
Proof.
  intros H. cbn [delete_clicked]. unfold drop. now rewrite H.
Qed.

(** ** Rows of the same date *)

Lemma on_day_notna (k : Z) (r : row) : on_day k r = true -> notna r = true.
Proof. unfold on_day, notna. now destruct (sort_key r). Qed.

Lemma on_day_key_of (k : Z) (r : row) : notna r = true -> on_day k r = (key_of r =? k).
Proof. unfold on_day, notna, key_of. now destruct (sort_key r). Qed.

Lemma filter_on_day_notna (k : Z) (l : DataFrame) :
  filter (on_day k) (filter notna l) = filter (on_day k) l.
Proof.
  induction l as [|r l IH]; [reflexivity|]. cbn [filter].
  destruct (notna r) eqn:E; cbn [filter]; rewrite IH; [reflexivity|].
  destruct (on_day k r) eqn:E'; [|reflexivity].
  apply on_day_notna in E'. congruence.
Qed.

Lemma filter_on_day_isna (k : Z) (l : DataFrame) :
  filter (on_day k) (filter isna l) = [].
Proof.
  induction l as [|r l IH]; [reflexivity|]. cbn [filter]. unfold isna at 1.
  destruct (notna r) eqn:E; cbn [negb filter]; [exact IH|].
  rewrite IH. destruct (on_day k r) eqn:E'; [|reflexivity].
  apply on_day_notna in E'. congruence.
Qed.

Lemma filter_notna_Forall (l : DataFrame) :
  Forall (fun r => notna r = true) (filter notna l).
Proof. apply Forall_forall. intros r Hr. now apply filter_In in Hr. Qed.

(** The rows with a date come out in ascending order of their dates. *)
Lemma argsort_rows_Sorted (K : sort_kind) (m : DataFrame) :
  Sorted Z.le (map key_of (reindex (argsort K (map key_of m)) m)).
Proof. rewrite <- reindex_map. apply argsort_sorted. Qed.

Lemma filter_notna_isna_nil (l : DataFrame) : filter notna (filter isna l) = [].
Proof.
  induction l as [|r l IH]; [reflexivity|]. cbn [filter]. unfold isna at 1.
  destruct (notna r) eqn:E; cbn [negb filter]; [exact IH|]. now rewrite E.
Qed.

Lemma sort_values_ascending (K : sort_kind) (l : DataFrame) :
  Sorted Z.le (map key_of (filter notna (sort_values K true l))).
Proof.
  unfold sort_values. rewrite filter_app, filter_notna_isna_nil, app_nil_r.
  rewrite forallb_filter_id; [apply argsort_rows_Sorted|].
  apply forallb_forall. intros r Hr.
  apply (Permutation_in _ (argsort_rows_Permutation K (filter notna l))) in Hr.
  now apply filter_In in Hr.
Qed.

(** ** What is written is read back *)



Lemma parse_int_no_plus (s : string) :
  (forall r, s <> String "+" r) ->
  parse_int s = option_map Z.of_int (NilZero.int_of_string s).
Proof.
  intros H. destruct s as [|c r]; [reflexivity|].
  destruct c as [[] [] [] [] [] [] [] []]; try reflexivity.
  exfalso. now apply (H r).
Qed.









(** What [parse_number] reads is made of the characters of numbers. *)
Lemma string_of_uint_digits (u : Decimal.uint) :
  forallb number_char (list_ascii_of_string (NilEmpty.string_of_uint u)) = true.
Proof. induction u; cbn [NilEmpty.string_of_uint list_ascii_of_string forallb]; auto. Qed.

Lemma string_of_uint_number_chars (u : Decimal.uint) :
  forallb number_char (list_ascii_of_string (NilZero.string_of_uint u)) = true.
Proof.
  destruct u; try apply string_of_uint_digits. reflexivity.
Qed.

Lemma string_of_int_number_chars (d : Decimal.signed_int) :
  forallb number_char (list_ascii_of_string (NilZero.string_of_int d)) = true.
Proof.
  destruct d as [u|u]; cbn [NilZero.string_of_int list_ascii_of_string forallb].
  - apply string_of_uint_number_chars.
  - now rewrite string_of_uint_number_chars.
Qed.

Lemma parse_int_number_chars (t : string) (z : Z) :
  parse_int t = Some z -> forallb number_char (list_ascii_of_string t) = true.
Proof.
  intros H. destruct t as [|c r]; [discriminate H|].
  destruct (ascii_dec c "+") as [->|Hc].
  - cbn [parse_int] in H.
    destruct (NilZero.uint_of_string r) as [u|] eqn:E; [|discriminate H].
    apply NilZero.sus in E. subst r.
    cbn [list_ascii_of_string forallb]. now rewrite string_of_uint_number_chars.
  - rewrite parse_int_no_plus in H by (intros r' Hr; inversion Hr; congruence).
    destruct (NilZero.int_of_string (String c r)) as [d|] eqn:E; [|discriminate H].
    apply NilZero.sis in E. rewrite <- E. apply string_of_int_number_chars.
Qed.

Lemma drop_zeros_split (cs : list ascii) :
  exists zs, cs = zs ++ drop_zeros cs /\ forallb number_char zs = true.
Proof.
  induction cs as [|c cs (zs & Hcs & Hzs)]; [now exists []|].
  cbn [drop_zeros]. destruct (Ascii.eqb c zero_char) eqn:E.
  - apply Ascii.eqb_eq in E. subst c. exists (zero_char :: zs). split.
    + cbn [app]. now rewrite <- Hcs.
    + cbn [forallb]. now rewrite Hzs.
  - now exists [].
Qed.

Lemma whole_part_number_chars (s : string) :
  forallb number_char (list_ascii_of_string (whole_part s)) = true ->
  forallb number_char (list_ascii_of_string s) = true.
Proof.
  unfold whole_part.
  destruct (drop_zeros_split (rev (list_ascii_of_string s))) as (zs & Hs & Hzs).
  destruct (drop_zeros (rev (list_ascii_of_string s))) as [|c r]; [auto|].
  destruct (Ascii.eqb c dot_char) eqn:E; [|auto].
  apply Ascii.eqb_eq in E. subst c.
  rewrite list_ascii_of_string_of_list_ascii. intros Hr.
  apply (f_equal (@rev ascii)) in Hs. rewrite rev_involutive in Hs.
  rewrite Hs, rev_app_distr. cbn [rev]. rewrite <- app_assoc, !forallb_app, Hr.
  change (forallb number_char [dot_char]) with true. cbn [andb].
  apply forallb_forall. intros a Ha.
  apply in_rev in Ha. rewrite forallb_forall in Hzs. now apply Hzs.
Qed.

Lemma parse_number_number_like (s : string) (z : Z) :
  parse_number s = Some z -> number_like s = true.
Proof.
  intros H. unfold number_like. apply orb_true_intro. left.
  destruct s as [|c r]; [discriminate H|]. cbn [String.eqb negb andb].
  apply whole_part_number_chars. eapply parse_int_number_chars. exact H.
Qed.

Lemma not_number_like (s : string) : number_like s = false -> parse_number s = None.
Proof.
  intros H. destruct (parse_number s) as [z|] eqn:E; [|reflexivity].
  apply parse_number_number_like in E. congruence.
Qed.





(** ** The pages that are rendered *)

Lemma convert_dates_is_some (l : DataFrame) :
  is_some (convert_dates l) = forallb date_ok l.
Proof.
  unfold convert_dates, date_ok.
  induction l as [|r l IH]; [reflexivity|].
  cbn [mapM forallb]. rewrite <- IH.
  destruct (to_datetime (date r)); [|reflexivity].
  cbn [bind is_some andb]. destruct (mapM _ l); reflexivity.
Qed.

Lemma amount_ok_same_entry (l l' : DataFrame) :
  Forall2 same_entry l l' -> forallb amount_ok l' = forallb amount_ok l.
Proof.
  induction 1 as [|r r' l l' (_ & _ & Ha & _) _ IH]; [reflexivity|].
  cbn [forallb]. rewrite IH. unfold amount_ok. rewrite Ha. reflexivity.
Qed.

Lemma forallb_Permutation {A : Type} (f : A -> bool) (l l' : list A) :
  Permutation l l' -> forallb f l = forallb f l'.
Proof.
  intros H. apply eq_true_iff_eq. rewrite !forallb_forall.
  split; intros F x Hx; apply F.
  - apply Permutation_in with l'; [symmetry; exact H|exact Hx].
  - apply Permutation_in with l; assumption.
Qed.

Lemma add_up_amount_ok (l : DataFrame) (acc : Z) :
  forallb amount_ok l = true -> exists s, add_up acc (map amount l) = Some s.
Proof.
  revert acc. induction l as [|r l IH]; intros acc; [now exists acc|].
  cbn [forallb map]. intros H. apply andb_prop in H. destruct H as [Hr Hl].
  unfold amount_ok in Hr.
  destruct (amount r); try discriminate; cbn [add_up]; now apply IH.
Qed.

Lemma sum_amount_ok (l : DataFrame) :
  forallb amount_ok l = true -> exists s, sum (map amount l) = Some s.
Proof. apply add_up_amount_ok. Qed.

Lemma forallb_filter_keep {A : Type} (f g : A -> bool) (l : list A) :
  forallb f l = true -> forallb f (filter g l) = true.
Proof.
  rewrite !forallb_forall. intros H x Hx. apply filter_In in Hx. apply H, Hx.
Qed.

Lemma total_by_type_amount_ok (label : string) (l : DataFrame) :
  forallb amount_ok l = true -> exists s, total_by_type label l = Some s.
Proof.
  intros H. apply sum_amount_ok, forallb_filter_keep, H.
Qed.

Lemma signed_cumsum_amount_ok (l : DataFrame) (acc : Z) :
  forallb amount_ok l = true ->
  exists signed out, mapM signed_amount l = Some signed /\ cumsum acc signed = Some out.
Proof.
  revert acc. induction l as [|r l IH]; intros acc; [now exists [], []|].
  cbn [forallb]. intros H. apply andb_prop in H. destruct H as [Hr Hl].
  unfold amount_ok in Hr.
  assert (E : signed_amount r = Some (amount r)
              \/ exists z, amount r = Number z /\ signed_amount r = Some (Number (- z))).
  { unfold signed_amount. destruct (has_type income_label r); [now left|].
    destruct (amount r) as [s|z| |]; try discriminate; [right; eauto|now left]. }
  cbn [mapM].
  destruct E as [E|(z & Hz & E)]; rewrite E; cbn [bind].
  - destruct (amount r) as [s|z| |]; try discriminate.
    + destruct (IH (fadd acc z) Hl) as (signed & out & Hs & Ho). rewrite Hs.
      exists (Number z :: signed), (Number (fadd acc z) :: out).
      split; [reflexivity|]. cbn [cumsum]. rewrite Ho. reflexivity.
    + destruct (IH acc Hl) as (signed & out & Hs & Ho). rewrite Hs.
      exists (Missing :: signed), (Missing :: out).
      split; [reflexivity|]. cbn [cumsum]. rewrite Ho. reflexivity.
  - destruct (IH (fadd acc (- z)) Hl) as (signed & out & Hs & Ho). rewrite Hs.
    exists (Number (- z) :: signed), (Number (fadd acc (- z)) :: out).
    split; [reflexivity|]. cbn [cumsum]. rewrite Ho. reflexivity.
Qed.

Lemma cumsum_signed_amount_ok (l : DataFrame) :
  forall acc signed out,
    mapM signed_amount l = Some signed -> cumsum acc signed = Some out ->
    forallb amount_ok l = true.
Proof.
  induction l as [|r l IH]; intros acc signed out Hs Hc; [reflexivity|].
  cbn [mapM] in Hs. inv_bind Hs. inv_bind Hs. injection Hs as <-.
  cbn [forallb]. apply andb_true_intro.
  unfold signed_amount in E. unfold amount_ok.
  destruct (has_type income_label r).
  - injection E as <-. destruct (amount r); cbn [cumsum] in Hc; try discriminate;
      inv_bind Hc; (split; [reflexivity|eapply IH; eassumption]).
  - destruct (amount r); try discriminate; injection E as <-;
      cbn [cumsum] in Hc; inv_bind Hc; (split; [reflexivity|eapply IH; eassumption]).
Qed.

Lemma mapM_some {A B : Type} (f : A -> option B) (l : list A) :
  (forall a, In a l -> exists b, f a = Some b) -> exists l', mapM f l = Some l'.
Proof.
  induction l as [|a l IH]; intros H; [now exists []|].
  destruct (H a (or_introl eq_refl)) as [b Hb].
  destruct IH as [l' Hl']; [intros x Hx; apply H; now right|].
  exists (b :: l'). cbn [mapM]. rewrite Hb. cbn [bind]. rewrite Hl'. reflexivity.
Qed.

Lemma stamps_of_plain (l : DataFrame) :
  forallb plain_category l = true -> stamps_of (map category l) = [].
Proof.
  induction l as [|r l IH]; [reflexivity|].
  cbn [forallb map]. intros H. apply andb_prop in H. destruct H as [Hr Hl].
  unfold stamps_of in *. cbn [flat_map]. rewrite (IH Hl).
  unfold plain_category in Hr. destruct (category r); try reflexivity. discriminate.
Qed.

Lemma expense_by_cat_computed (K : sort_kind) (table : DataFrame) :
  forallb amount_ok table = true -> forallb plain_category table = true ->
  exists s, expense_by_cat K table = Some s.
Proof.
  intros Ha Hp. unfold expense_by_cat.
  set (E := filter (has_type expense_label) table).
  assert (Hkeys : exists keys, group_keys (map category E) = Some keys).
  { unfold group_keys. rewrite (@stamps_of_plain E (@forallb_filter_keep _ _ _ _ Hp)).
    cbn [unique_sorted fold_right].
    destruct (unique_sorted Z.compare (numbers_of (map category E))); eauto. }
  destruct Hkeys as [keys ->]. cbn [bind].
  destruct (mapM_some
              (fun k => s <- sum (map amount (filter (in_group k) E)) ;; Some (k, s)) keys)
    as [totals ->]; [|cbn [bind]; eauto].
  intros k _.
  destruct (sum_amount_ok (filter (in_group k) E)) as [v ->]; [|cbn [bind]; eauto].
  apply forallb_filter_keep, forallb_filter_keep, Ha.
Qed.

Lemma plain_category_same_entry (l l' : DataFrame) :
  Forall2 same_entry l l' -> forallb plain_category l' = forallb plain_category l.
Proof.
  induction 1 as [|r r' l l' (_ & Hc & _) _ IH]; [reflexivity|].
  cbn [forallb]. rewrite IH. unfold plain_category. rewrite Hc. reflexivity.
Qed.

Lemma read_cell_plain_category (t : dtype) (s : string) :
  t <> datetime64 ->
  match read_cell t s with Stamp _ => false | _ => true end = true.
Proof.
  intros Ht. unfold read_cell. destruct (is_na s); [reflexivity|].
  destruct t; [congruence|destruct (parse_number s); reflexivity|reflexivity].
Qed.

Lemma upload_plain_category (data : DataFrame) (f : csv_file) :
  forallb plain_category data = true ->
  forallb plain_category (snd (upload data f)) = true.
Proof.
  intros H. unfold upload.
  destruct (read_csv f) as [e|df_up] eqn:R; [exact H|].
  destruct (read_csv_inr _ R) as (-> & k & Hk). cbn [columns].
  destruct (issubset required_columns (header f)) eqn:S; [|exact H].
  destruct (@issubset_find required_columns (header f) "category" S) as [j Hj];
    [cbn; tauto|].
  cbn [snd]. unfold select_required. cbn [values]. rewrite map_map.
  apply forallb_forall. intros r Hr. apply in_map_iff in Hr.
  destruct Hr as (rec & <- & _). unfold plain_category. cbn [category].
  rewrite (@getitem_read_record f "category" j rec Hj).
  apply read_cell_plain_category.
  apply (@column_dtype_not_date f j k Hk).
  apply (@find_column_distinct "category" "date" (header f) j k); [discriminate|assumption..].
Qed.

Lemma step_plain_category (data : DataFrame) (e : event) :
  forallb plain_category data = true -> forallb plain_category (step data e) = true.
Proof.
  intros H. destruct e as [f|to_delete|f]; cbn [step].
  - unfold add_clicked. rewrite forallb_app, H. reflexivity.
  - destruct (delete_clicked data to_delete) as [[msg data']|] eqn:E; [|exact H].
    rewrite forallb_forall, <- Forall_forall in H |- *.
    exact (delete_clicked_Forall _ H E).
  - apply upload_plain_category, H.
Qed.

Lemma run_plain_category (es : list event) : forallb plain_category (run es) = true.
Proof.
  unfold run. assert (H : forallb plain_category [] = true) by reflexivity.
  revert H. generalize (@nil row). induction es as [|e es IH]; intros data H; [exact H|].
  cbn [fold_left]. apply IH, step_plain_category, H.
Qed.

Lemma renderable_split (l : DataFrame) :
  forallb renderable l = forallb date_ok l && forallb amount_ok l.
Proof.
  induction l as [|r l IH]; [reflexivity|].
  cbn [forallb]. rewrite IH. unfold renderable.
  destruct (date_ok r), (amount_ok r), (forallb date_ok l); reflexivity.
Qed.

(** The display part runs to its end on data whose dates convert, whose
    amounts are numbers or missing, and whose categories can be grouped. *)
Lemma render_renderable (K : sort_kind) (data : DataFrame) :
  data <> [] -> forallb renderable data = true -> forallb plain_category data = true ->
  exists p, render K data = Rendered p.
Proof.
  intros Hne H Hp. rewrite renderable_split in H. apply andb_prop in H.
  destruct H as [Hd Ha].
  rewrite <- convert_dates_is_some in Hd.
  destruct (convert_dates data) as [c|] eqn:Hc; [|discriminate].
  assert (Hc_ok : forallb amount_ok c = true).
  { rewrite (amount_ok_same_entry (convert_dates_same_entry _ Hc)). exact Ha. }
  assert (Hdf : forallb amount_ok (sort_values K false c) = true).
  { rewrite (forallb_Permutation _ (sort_values_Permutation K false c)). exact Hc_ok. }
  assert (Ht : forallb amount_ok (sort_values K true (sort_values K false c)) = true).
  { rewrite (forallb_Permutation _ (sort_values_Permutation K true _)). exact Hdf. }
  destruct (total_by_type_amount_ok income_label _ Hdf) as [i Hi].
  destruct (total_by_type_amount_ok expense_label _ Hdf) as [e He].
  destruct (signed_cumsum_amount_ok _ 0 Ht) as (signed & out & Hs & Ho).
  destruct (expense_by_cat_computed K (sort_values K false c) Hdf) as [s Hx].
  { rewrite (forallb_Permutation _ (sort_values_Permutation K false c)).
    rewrite (plain_category_same_entry (convert_dates_same_entry _ Hc)). exact Hp. }
  unfold render, render_page, shown, summarize.
  destruct data as [|r data]; [congruence|].
  rewrite Hc. cbn [bind]. rewrite Hi, He. cbn [bind]. rewrite Hx. cbn [bind].
  rewrite Hs. cbn [bind]. rewrite Ho. cbn [bind]. eauto.
Qed.





Lemma convert_dates_converted (data c : DataFrame) :
  convert_dates data = Some c ->
  Forall2 (fun r r' => to_datetime (date r) = Some (date r') /\ same_entry r r') data c.
Proof.
  intros H. apply mapM_Forall2 in H.
  induction H as [|r r' l l' Hr _ IH]; constructor; [|exact IH].
  inv_bind Hr. injection Hr as <-. split; [exact E|repeat split].
Qed.

(** ** Export and import *)

Lemma read_cell_plain (t : dtype) (s : string) :
  t <> datetime64 -> plain s = true -> read_cell t s = Text s.
Proof.
  intros Ht H. unfold plain in H. rewrite !andb_true_iff in H.
  destruct H as ((Hna & Hnum) & _). apply negb_true_iff in Hna, Hnum.
  apply read_cell_malformed_number; auto.
  now apply not_number_like.
Qed.

Lemma upload_rows (data : DataFrame) (f : csv_file) (jd jt jc ja jn : nat) :
  rectangular f = true ->
  find_column "date" (header f) = Some jd ->
  find_column "type" (header f) = Some jt ->
  find_column "category" (header f) = Some jc ->
  find_column "amount" (header f) = Some ja ->
  find_column "note" (header f) = Some jn ->
  upload data f = (Imported, map (row_of_record f jd jt jc ja jn) (records f)).
Proof.
  intros Hr Hd Ht Hc Ha Hn. unfold upload.
  rewrite (@read_csv_frame f _ Hd Hr). cbn [columns].
  unfold issubset, required_columns. cbn [forallb].
  rewrite Hd, Ht, Hc, Ha, Hn. cbn [is_some andb]. f_equal.
  unfold select_required. cbn [values].
  set (df_up := {| columns := _; values := _ |}).
  rewrite map_map. apply map_ext. intros rec. subst df_up.
  rewrite (@getitem_read_record f _ _ rec Hd), (@getitem_read_record f _ _ rec Ht),
    (@getitem_read_record f _ _ rec Hc), (@getitem_read_record f _ _ rec Ha),
    (@getitem_read_record f _ _ rec Hn).
  reflexivity.
Qed.








Lemma Forall2_map_r {A B : Type} (R : A -> B -> Prop) (g : A -> B) (l : list A) :
  (forall a, In a l -> R a (g a)) -> Forall2 R l (map g l).
Proof.
  induction l as [|a l IH]; intros H; constructor.
  - apply H. now left.
  - apply IH. intros x Hx. apply H. now right.
Qed.






Section Spelling.

(** The spelling of the amounts in the file, which [read_csv] reads back. *)
Variable number : Z -> string.
Hypothesis number_reads_back : forall z, parse_number (number z) = Some z.













End Spelling.

Lemma Forall2_In_r {A B : Type} (R : A -> B -> Prop) (l : list A) (l' : list B) (b : B) :
  Forall2 R l l' -> In b l' -> exists a, In a l /\ R a b.
Proof.
  induction 1 as [|a b' l l' Hab _ IH]; intros Hb; [contradiction|].
  destruct Hb as [<-|Hb].
  - exists a. split; [now left|exact Hab].
  - destruct (IH Hb) as (x & Hx & Rx). exists x. split; [now right|exact Rx].
Qed.







(** ** Text that is no date *)

Lemma hangul_text_no_digit (syllables : bool) (c : ascii) (cs : list ascii) :
  hangul_text syllables (c :: cs) = true -> digit_of c = None.
Proof.
  cbn [hangul_text]. unfold digit_of.
  destruct (N_of_ascii c <? 128)%N eqn:E.
  - intros H. apply andb_prop in H. destruct H as [H _].
    apply negb_true_iff in H. unfold is_alnum in H.
    apply orb_false_elim in H. destruct H as [H _].
    apply orb_false_elim in H. destruct H as [H _].
    destruct (48 <=? Z.of_N (N_of_ascii c)) eqn:E1; [|reflexivity].
    destruct (Z.of_N (N_of_ascii c) <=? 57) eqn:E2; [|reflexivity].
    exfalso. apply andb_false_elim in H.
    destruct H as [H|H]; [apply N.leb_gt in H | apply N.leb_gt in H]; lia.
  - intros _. apply N.ltb_ge in E.
    destruct (Z.of_N (N_of_ascii c) <=? 57) eqn:E2; [exfalso; lia|].
    now rewrite andb_false_r.
Qed.

Lemma undatable_no_date (s : string) : undatable s = true -> parse_date s = None.
Proof.
  unfold undatable, parse_date.
  destruct (list_ascii_of_string s) as [|c l]; [reflexivity|].
  intros H. apply hangul_text_no_digit in H.
  do 9 (destruct l as [|? l]; [reflexivity|]).
  destruct l; [|reflexivity].
  destruct (_ && _); [|reflexivity].
  cbn [digits_value]. now rewrite H.
Qed.

Lemma undatable_not_na (s : string) : undatable s = true -> is_na s = false.
Proof.
  intros H. destruct (is_na s) eqn:E; [|reflexivity].
  apply is_na_inv in E. unfold na_values in E. cbn [In] in E.
  repeat (destruct E as [<-|E]; [vm_compute in H; discriminate H|]). contradiction.
Qed.

(** The column named in [parse_dates] is read as timestamps or left as text. *)
Lemma date_column_not_float (f : csv_file) (k : nat) :
  find_column "date" (header f) = Some k -> column_dtype f k <> float64.
Proof.
  intros Hk. unfold column_dtype. rewrite Hk, Nat.eqb_refl. unfold infer_dtype.
  destruct (forallb _ _); discriminate.
Qed.

Lemma read_cell_undatable (t : dtype) (s : string) :
  t <> float64 -> undatable s = true -> read_cell t s = Text s.
Proof.
  intros Ht H. unfold read_cell.
  rewrite (undatable_not_na s H), (undatable_no_date s H).
  destruct t; congruence.
Qed.

(** ** Rows of the same date under a kind that is stable on few keys *)

Lemma stable_upto_argsort_rows (K : sort_kind) (n : nat) (k : Z) (m : DataFrame) :
  stable_upto n K -> (List.length m <= n)%nat -> Forall (fun r => notna r = true) m ->
  filter (on_day k) (reindex (argsort K (map key_of m)) m) = filter (on_day k) m.
Proof.
  intros Hst Hlen Hm.
  assert (Hext : forall i,
             match nth_error m i with Some x => on_day k x | None => false end
             = holds_key (map key_of m) k i).
  { intros i. unfold holds_key. rewrite nth_error_map.
    destruct (nth_error m i) as [x|] eqn:E; cbn [option_map]; [|reflexivity].
    apply on_day_key_of. rewrite Forall_forall in Hm.
    apply Hm. eapply nth_error_In, E. }
  rewrite reindex_filter, (filter_ext _ _ Hext), Hst by (rewrite length_map; exact Hlen).
  rewrite <- (filter_ext _ _ Hext), length_map, <- reindex_filter.
  now rewrite reindex_seq.
Qed.

Lemma filter_length_le {A : Type} (f : A -> bool) (l : list A) :
  (List.length (filter f l) <= List.length l)%nat.
Proof.
  induction l as [|a l IH]; [apply le_n|].
  cbn [filter]. destruct (f a); cbn [List.length]; lia.
Qed.

Lemma sort_values_stable_upto (K : sort_kind) (n : nat) (ascending : bool) (k : Z)
      (l : DataFrame) :
  stable_upto n K -> (List.length l <= n)%nat ->
  filter (on_day k) (sort_values K ascending l) = filter (on_day k) l.
Proof.
  intros Hst Hlen. unfold sort_values.
  rewrite filter_app, filter_on_day_isna, app_nil_r, <- (filter_on_day_notna k l).
  pose proof (filter_length_le notna l) as Hf.
  destruct ascending.
  - apply (stable_upto_argsort_rows k Hst); [lia | apply filter_notna_Forall].
  - rewrite filter_rev, (stable_upto_argsort_rows k Hst).
    + now rewrite filter_rev, rev_involutive.
    + rewrite length_rev. lia.
    + apply Forall_rev, filter_notna_Forall.
Qed.

(** * The claims *)

(** ** C1: amounts are not negative *)




(** ** C2: an upload with a malformed amount or date *)

(** C2, as stated, fails: a file with all the columns, an amount that is no
    number and a date that is no date is imported; nothing is raised and both
    rows are stored, their amounts and dates as text. *)
Lemma upload_with_malformed_fields_succeeds :
  plain "천원" = true /\ undatable "어제" = true
  /\ upload [] file_with_malformed_fields
     = (Imported,
        [ {| date := Text "어제"; type := Text "지출"; category := Text "식비";
             amount := Text "천원"; note := Text "점심" |};
          {| date := Text "2024-01-02"; type := Text "수입"; category := Text "용돈";
             amount := Text "10000"; note := Text "1월" |} ]).
Proof. repeat split; reflexivity. Qed.

(** C2, amended: a file that has all the required columns (and no record
    longer than its header) is imported whatever its fields hold.  Nothing is
    raised, and the new data has one row for each record, in the order of the
    file: no row is skipped.  An amount that is plain text (no marker of a
    missing value, nothing made of the characters of numbers, no spelling of
    infinity or not-a-number, no truth value) is stored as the text it is, and
    so is a date that no reader of dates can parse: text with a Hangul
    syllable and without any letter or digit of ASCII. *)
Theorem upload_keeps_malformed_rows (data : DataFrame) (f : csv_file) (jd ja : nat) :
  issubset required_columns (header f) = true ->
  rectangular f = true ->
  find_column "date" (header f) = Some jd ->
  find_column "amount" (header f) = Some ja ->
  exists rows,
    upload data f = (Imported, rows)
    /\ Forall2 (fun rec r =>
                  (plain (field_at ja rec) = true -> amount r = Text (field_at ja rec))
                  /\ (undatable (field_at jd rec) = true
                      -> date r = Text (field_at jd rec)))
               (records f) rows.
Proof.
  intros Hsub Hrect Hd Ha.
  unfold upload. rewrite (read_csv_frame f Hd Hrect). cbn [columns].
  rewrite Hsub. eexists. split; [reflexivity|].
  unfold select_required. cbn [values]. rewrite map_map.
  apply Forall2_map_r. intros rec _. cbn [amount date].
  rewrite (getitem_read_record f "amount" rec Ha).
  rewrite (getitem_read_record f "date" rec Hd). split.
  - intros Hp. apply read_cell_plain; [|exact Hp].
    refine (column_dtype_not_date f Hd _).
    apply (@find_column_distinct "amount" "date" (header f)); auto.
    discriminate.
  - intros Hu. apply read_cell_undatable; [|exact Hu].
    now apply date_column_not_float.
Qed.

Lemma upload_keeps_malformed_rows_witness :
  plain (field_at 3 ["어제"; "지출"; "식비"; "천원"; "점심"]) = true
  /\ undatable (field_at 0 ["어제"; "지출"; "식비"; "천원"; "점심"]) = true
  /\ exists rows,
       upload [] file_with_malformed_fields = (Imported, rows)
       /\ Forall2 (fun rec r =>
                     (plain (field_at 3 rec) = true -> amount r = Text (field_at 3 rec))
                     /\ (undatable (field_at 0 rec) = true
                         -> date r = Text (field_at 0 rec)))
                  (records file_with_malformed_fields) rows.
Proof.
  split; [reflexivity|]. split; [reflexivity|].
  apply (@upload_keeps_malformed_rows [] file_with_malformed_fields 0 3); reflexivity.
Defined.

(** ** C3: deleting by the labels of the shown table *)

(** C3 (the code departs from the claim): after a meal on 2024-01-01 and an
    allowance on 2024-01-02 the shown table lists the allowance at index 0 and
    the meal at index 1, under every sort kind.  Selecting index 0 and
    clicking delete removes the meal, which is the row at position 0 of the
    stored data, and keeps the allowance, which is the row the table shows at
    index 0. *)
Theorem delete_removes_stored_position (K : sort_kind) :
  scenario = [new_row lunch; new_row allowance]
  /\ shown K scenario = Some [new_row allowance; new_row lunch]
  /\ delete_clicked scenario [0%nat] = Some (Deleted, [new_row allowance]).
Proof.
  split; [reflexivity|]. split; [|reflexivity].
  unfold shown. change (convert_dates scenario) with (Some scenario).
  cbn [bind]. f_equal. unfold sort_values.
  change (filter notna scenario) with [new_row lunch; new_row allowance].
  change (filter isna scenario) with (@nil row).
  cbn [rev app map].
  change (key_of (new_row allowance)) with 20240102.
  change (key_of (new_row lunch)) with 20240101.
  rewrite argsort_two_descending by lia. reflexivity.
Qed.

(** ** C4: export and import *)




(** ** C5: an upload without a required column *)

(** C5 (the code departs from the claim): an upload whose columns miss a
    required one leaves the data as it was, but the error it reports (for a
    file with no record longer than its header) is SchemaMismatch only when
    the file has a [date] column.  When the [date] column is the missing
    one, [read_csv] raises on [parse_dates] before the columns are checked,
    and the handler reports the load failure instead. *)
Theorem upload_missing_column (data : DataFrame) (f : csv_file) :
  issubset required_columns (header f) = false ->
  snd (upload data f) = data
  /\ (rectangular f = true ->
      fst (upload data f)
      = match find_column "date" (header f), header f with
        | Some _, _ => SchemaMismatch
        | None, [] => LoadFailed EmptyDataError
        | None, _ => LoadFailed MissingParseDates
        end).
Proof.
  intros Hmiss. split.
  - unfold upload. destruct (read_csv f) as [e|df_up] eqn:E; [reflexivity|].
    now rewrite (read_csv_columns f E), Hmiss.
  - intros Hr. destruct (find_column "date" (header f)) as [k|] eqn:Hd.
    + unfold upload. rewrite (read_csv_frame f Hd Hr).
      cbn [columns]. now rewrite Hmiss.
    + unfold upload, read_csv. rewrite Hd.
      destruct (header f); reflexivity.
Qed.

Lemma upload_missing_column_witness :
  upload (add_clicked [] lunch) file_without_date
  = (LoadFailed MissingParseDates, add_clicked [] lunch)
  /\ upload (add_clicked [] lunch) file_without_note
     = (SchemaMismatch, add_clicked [] lunch)
  /\ snd (upload (add_clicked [] lunch) file_without_date) = add_clicked [] lunch
  /\ (rectangular file_without_date = true ->
      fst (upload (add_clicked [] lunch) file_without_date)
      = match find_column "date" (header file_without_date), header file_without_date with
        | Some _, _ => SchemaMismatch
        | None, [] => LoadFailed EmptyDataError
        | None, _ => LoadFailed MissingParseDates
        end).
Proof.
  split; [reflexivity|]. split; [reflexivity|].
  apply (upload_missing_column (add_clicked [] lunch) file_without_date).
  reflexivity.
Defined.

(** ** C6: the balance is income minus expense *)




(** ** C7: the last cumulative balance *)

(** C7, as stated, fails: a row whose type is neither label (a file can bring
    one) counts in no total, so the balance is 0, while the cumulative balance
    takes every row that is not income as an expense. *)
Lemma last_cumulative_balance_differs :
  exists p,
    render quicksort_kind (run [Upload file_with_one_saving]) = Rendered p
    /\ balance (metrics p) = 0
    /\ last (cumulative_balance p) Missing = Number (-3000).
Proof.
  eexists. split.
  - vm_compute. reflexivity.
  - split; reflexivity.
Qed.

(** C7, amended: for every non-empty Ledger whose rows all have the type
    Income or Expense and a number as amount (the rows the form makes), and
    whose amounts add up to 2^53 at most in absolute value, the last element
    of the cumulative balance is the balance. *)
Theorem last_cumulative_balance (K : sort_kind) (data : DataFrame) (p : page) :
  Forall typed data ->
  exact data = true ->
  render K data = Rendered p ->
  last (cumulative_balance p) Missing = Number (balance (metrics p)).
Proof.
  intros Ht Hx H. apply render_inv in H.
  destruct H as (Hne & Hs & Hsum & Hd & (signed & Hm & Hc) & _).
  assert (Hxdf : exact (df p) = true) by now rewrite (shown_exact K data Hs).
  apply (summarize_exact _ Hxdf) in Hsum. destruct Hsum as (Hi & He & Hb).
  destruct (shown_inv K data Hs) as (converted & Hconv & Hdf).
  pose proof (convert_dates_same_entry data Hconv) as Hsame.
  assert (Hperm : Permutation converted (df_time p)).
  { rewrite Hd, Hdf. symmetry.
    etransitivity; apply sort_values_Permutation. }
  assert (Htyped : Forall typed (df_time p)).
  { eapply Permutation_Forall; [exact Hperm|]. now apply (typed_same_entry Hsame). }
  assert (Hdt : Permutation (df_time p) (df p)).
  { rewrite Hd. apply sort_values_Permutation. }
  rewrite <- (exact_total_Permutation income_label Hdt) in Hi.
  rewrite <- (exact_total_Permutation expense_label Hdt) in He.
  assert (Hlen : List.length (cumulative_balance p) = List.length signed)
    by exact (cumsum_length _ _ Hc).
  rewrite cumsum_exact in Hc.
  2:{ rewrite (signed_magnitude _ Hm), (magnitude_Permutation Hdt).
      apply Z.leb_le in Hxdf. cbn [Z.abs]. lia. }
  rewrite (@last_default _ Missing (Number 0)).
  - rewrite (exact_cumsum_last Htyped 0 Hi He Hm Hc), Hb. reflexivity.
  - intros Hnil. apply (f_equal (@List.length cell)) in Hnil.
    rewrite Hlen, (mapM_length _ _ Hm) in Hnil.
    rewrite <- (Permutation_length Hperm) in Hnil.
    rewrite <- (Forall2_length Hsame) in Hnil.
    destruct data; [congruence | discriminate Hnil].
Qed.

Lemma last_cumulative_balance_witness :
  exists p,
    render quicksort_kind scenario = Rendered p
    /\ last (cumulative_balance p) Missing = Number (balance (metrics p))
    /\ cumulative_balance p = [Number (-5000); Number 5000].
Proof.
  eexists. split; [vm_compute; reflexivity|]. split; [|reflexivity].
  apply (@last_cumulative_balance quicksort_kind scenario).
  - constructor; [split; [right; reflexivity | eexists; reflexivity]|].
    constructor; [split; [left; reflexivity | eexists; reflexivity]|].
    constructor.
  - reflexivity.
  - vm_compute; reflexivity.
Defined.

(** ** C8: rows of the same date *)

(** C8, as stated, fails.  The script calls [sort_values] with the default
    kind, the quicksort of numpy, which is not stable: it sorts up to 17 keys
    by insertion and partitions more.  Twenty entries of one day, made with
    the form one after the other, do not stand in the cumulative balance
    series in the order in which they were added. *)
Lemma equal_dates_out_of_insertion_order :
  List.length busy_day = 20%nat
  /\ forallb (on_day 20240101) busy_day = true
  /\ exists p,
       render quicksort_kind busy_day = Rendered p
       /\ Permutation (df_time p) busy_day
       /\ same_amounts (df_time p) busy_day = false.
Proof.
  split; [reflexivity|]. split; [reflexivity|].
  destruct (render quicksort_kind busy_day) as [| |p] eqn:E;
    try (vm_compute in E; discriminate E).
  exists p. split; [reflexivity|]. split.
  - apply render_inv in E. destruct E as (_ & Hs & _ & Hd & _).
    destruct (shown_inv _ _ Hs) as (converted & Hconv & Hdf).
    assert (converted = busy_day)
      by (vm_compute in Hconv; injection Hconv as <-; reflexivity).
    subst converted. rewrite Hd, Hdf.
    etransitivity; apply sort_values_Permutation.
  - assert (Hp : match render quicksort_kind busy_day with
                 | Rendered q => same_amounts (df_time q) busy_day
                 | _ => true
                 end = false) by (vm_compute; reflexivity).
    now rewrite E in Hp.
Qed.

(** C8, amended: the cumulative balance series is in ascending order of date,
    and in a Ledger of 17 rows at most the rows of each date stand in it in
    the order in which they stand in the Ledger.  (The quicksort of numpy
    sorts up to 17 keys by insertion, which keeps equal keys in their order;
    it promises nothing for more.) *)
Theorem equal_dates_keep_insertion_order (data : DataFrame) (p : page) :
  render quicksort_kind data = Rendered p ->
  Sorted Z.le (map key_of (filter notna (df_time p)))
  /\ exists converted,
       convert_dates data = Some converted
       /\ Forall2 same_entry data converted
       /\ ((List.length data <= 17)%nat ->
           forall k, filter (on_day k) (df_time p) = filter (on_day k) converted).
Proof.
  intros H. apply render_inv in H.
  destruct H as (_ & Hs & _ & Hd & _).
  destruct (shown_inv quicksort_kind data Hs) as (converted & Hconv & Hdf).
  split; [rewrite Hd; apply sort_values_ascending|].
  exists converted. split; [exact Hconv|].
  pose proof (convert_dates_same_entry data Hconv) as Hsame. split; [exact Hsame|].
  intros Hlen k. rewrite Hd, Hdf.
  pose proof (Forall2_length Hsame) as Hl.
  rewrite (@sort_values_stable_upto quicksort_kind 17 true k _ quicksort_kind_stable_upto).
  - apply (@sort_values_stable_upto quicksort_kind 17 false k _ quicksort_kind_stable_upto).
    lia.
  - rewrite (Permutation_length (sort_values_Permutation quicksort_kind false converted)).
    lia.
Qed.

Lemma equal_dates_keep_insertion_order_witness :
  exists p,
    render quicksort_kind one_day = Rendered p
    /\ df_time p = one_day
    /\ Sorted Z.le (map key_of (filter notna (df_time p)))
    /\ exists converted,
         convert_dates one_day = Some converted
         /\ Forall2 same_entry one_day converted
         /\ ((List.length one_day <= 17)%nat ->
             forall k, filter (on_day k) (df_time p) = filter (on_day k) converted).
Proof.
  eexists. split.
  - vm_compute. reflexivity.
  - split; [reflexivity|].
    apply (@equal_dates_keep_insertion_order one_day).
    vm_compute. reflexivity.
Defined.

(** ** C9: deleting with nothing selected *)

(** C9: a click on the delete button with no label selected gives the
    NothingSelected warning, and the data is the data before the click. *)
Theorem delete_nothing_selected (data : DataFrame) :
  delete_clicked data [] = Some (NothingSelected, data)
  /\ step data (Delete []) = data.
Proof. split; reflexivity. Qed.

(** ** C10: a row of another type *)

(** C10: a row whose type is neither the income label nor the expense label
    is selected for neither total: the rows that each total adds up are those
    of the Ledger without that row.  When the amounts of the other rows add
    up to 2^53 at most in absolute value, the totals and the balance that are
    shown are the sums and the difference for the Ledger without that row. *)
Theorem unknown_type_is_ignored (K : sort_kind) (L1 L2 : DataFrame) (e : row) (m : summary) :
  type e <> Text income_label -> type e <> Text expense_label ->
  shown_metrics K (L1 ++ e :: L2) = Some m ->
  filter (has_type income_label) (L1 ++ e :: L2) = filter (has_type income_label) (L1 ++ L2)
  /\ filter (has_type expense_label) (L1 ++ e :: L2)
     = filter (has_type expense_label) (L1 ++ L2)
  /\ (exact (L1 ++ L2) = true ->
      exact_total income_label (L1 ++ L2) = Some (total_income m)
      /\ exact_total expense_label (L1 ++ L2) = Some (total_expense m)
      /\ balance m = total_income m - total_expense m).
Proof.
  intros Hi He H.
  pose proof (@filter_skip income_label L1 L2 e (has_type_false _ Hi)) as Fi.
  pose proof (@filter_skip expense_label L1 L2 e (has_type_false _ He)) as Fe.
  split; [exact Fi|]. split; [exact Fe|]. intros Hx.
  rewrite <- (@exact_total_skip income_label L1 L2 e) by now apply has_type_false.
  rewrite <- (@exact_total_skip expense_label L1 L2 e) by now apply has_type_false.
  apply (shown_metrics_totals_selected K); [|exact H].
  rewrite Fi, Fe. apply Z.leb_le in Hx.
  pose proof (magnitude_two_filters (has_type income_label) (has_type expense_label)
                (L1 ++ L2) income_is_no_expense). lia.
Qed.

Lemma unknown_type_is_ignored_witness :
  run [Upload file_with_savings] = [pay] ++ savings :: [meal]
  /\ shown_metrics quicksort_kind ([pay] ++ savings :: [meal])
     = Some {| total_income := 10000; total_expense := 5000; balance := 5000 |}
  /\ filter (has_type income_label) ([pay] ++ savings :: [meal])
     = filter (has_type income_label) ([pay] ++ [meal])
  /\ filter (has_type expense_label) ([pay] ++ savings :: [meal])
     = filter (has_type expense_label) ([pay] ++ [meal])
  /\ (exact ([pay] ++ [meal]) = true ->
      exact_total income_label ([pay] ++ [meal]) = Some 10000
      /\ exact_total expense_label ([pay] ++ [meal]) = Some 5000
      /\ 5000 = 10000 - 5000).
Proof.
  split; [reflexivity|]. split; [reflexivity|].
  exact (@unknown_type_is_ignored quicksort_kind [pay] [meal] savings
           {| total_income := 10000; total_expense := 5000; balance := 5000 |}
           ltac:(discriminate) ltac:(discriminate) eq_refl).
Defined.

(** * Further properties *)

(** ** The category of a new row *)

Lemma lstrip_blank (cs : list ascii) : forallb is_space cs = true -> lstrip cs = [].
Proof.
  induction cs as [|c cs IH]; cbn [forallb lstrip]; [reflexivity|].
  intros H. apply andb_prop in H. destruct H as [Hc Hcs]. rewrite Hc. auto.
Qed.







Lemma strip_blank (s : string) : blank s = true -> strip s = "".
Proof.
  unfold blank, strip. intros H. rewrite (lstrip_blank _ H). reflexivity.
Qed.


(** X2: a category of blanks only, or none at all, is stored as "기타". *)
Theorem blank_category_is_default (f : entry_form) :
  blank (entry_category f) = true -> category (new_row f) = Text default_category.
Proof.
  intros H. cbn [new_row category]. rewrite (strip_blank _ H). reflexivity.
Qed.

Lemma blank_category_is_default_witness :
  blank "  " = true
  /\ category (new_row (mkForm (mkTimestamp 2024 1 1) Expense "  " 1000 ""))
     = Text default_category.
Proof.
  split; [reflexivity|].
  apply (blank_category_is_default (mkForm (mkTimestamp 2024 1 1) Expense "  " 1000 "")).
  reflexivity.
Defined.

(** ** The delete button *)

Lemma selected_In (index : list nat) (i : nat) : selected index i = true <-> In i index.
Proof.
  unfold selected. rewrite existsb_exists. split.
  - intros (j & Hj & E). apply Nat.eqb_eq in E. now subst.
  - intros H. exists i. split; [exact H|apply Nat.eqb_refl].
Qed.

Lemma drop_from_reindex (index : list nat) (data : DataFrame) (i : nat) :
  drop_from i index data
  = reindex (filter (fun j => negb (selected index (i + j))) (seq 0 (List.length data))) data.
Proof.
  revert i. induction data as [|r data IH]; intros i; [reflexivity|].
  cbn [drop_from List.length seq filter]. rewrite Nat.add_0_r.
  rewrite <- seq_shift, filter_map_swap.
  rewrite (IH (S i)).
  assert (E : filter (fun j => negb (selected index (i + S j))) (seq 0 (List.length data))
              = filter (fun j => negb (selected index (S i + j))) (seq 0 (List.length data))).
  { apply filter_ext. intros j. now rewrite Nat.add_succ_r. }
  destruct (selected index i); cbn [negb].
  - rewrite reindex_shift, E. reflexivity.
  - rewrite reindex_cons. unfold pick. cbn [nth_error app].
    rewrite reindex_shift, E. reflexivity.
Qed.

Lemma drop_in_range (index : list nat) (data : DataFrame) :
  (forall i, In i index -> (i < List.length data)%nat) ->
  drop index data = Some (reindex (unselected index data) data).
Proof.
  intros H. unfold drop.
  replace (forallb _ index) with true.
  - rewrite drop_from_reindex. reflexivity.
  - symmetry. apply forallb_forall. intros i Hi. apply Nat.ltb_lt. auto.
Qed.

Lemma reindex_length {A : Type} (idx : list nat) (l : list A) :
  Forall (fun i => (i < List.length l)%nat) idx ->
  List.length (reindex idx l) = List.length idx.
Proof.
  induction 1 as [|i idx Hi _ IH]; [reflexivity|].
  rewrite reindex_cons, length_app, IH. unfold pick.
  destruct (nth_error l i) eqn:E; [reflexivity|].
  apply nth_error_None in E. lia.
Qed.

Lemma filter_negb_length {A : Type} (f : A -> bool) (l : list A) :
  (List.length (filter f l) + List.length (filter (fun x => negb (f x)) l))%nat
  = List.length l.
Proof.
  induction l as [|a l IH]; [reflexivity|].
  cbn [filter]. destruct (f a); cbn [negb List.length]; lia.
Qed.

Lemma selected_positions (index : list nat) (n : nat) :
  (forall i, In i index -> (i < n)%nat) ->
  Permutation (filter (selected index) (seq 0 n)) (nodup Nat.eq_dec index).
Proof.
  intros H. apply NoDup_Permutation.
  - apply NoDup_filter, seq_NoDup.
  - apply NoDup_nodup.
  - intros i. rewrite filter_In, nodup_In, in_seq, selected_In.
    split; [tauto|]. intros Hi. split; [|exact Hi]. specialize (H i Hi). lia.
Qed.

(** X3: a click on the delete button with a label that is no position of the
    stored data raises, and the data stays as it was. *)
Theorem delete_unknown_label (data : DataFrame) (to_delete : list nat) (i : nat) :
  In i to_delete -> (List.length data <= i)%nat ->
  delete_clicked data to_delete = None /\ step data (Delete to_delete) = data.
Proof.
  intros Hi Hle.
  assert (E : delete_clicked data to_delete = None).
  { unfold delete_clicked. destruct to_delete as [|j l]; [contradiction|].
    unfold drop.
    replace (forallb _ (j :: l)) with false; [reflexivity|].
    symmetry. apply not_true_is_false. intros F.
    rewrite forallb_forall in F. specialize (F i Hi).
    apply Nat.ltb_lt in F. lia. }
  split; [exact E|]. cbn [step]. rewrite E. reflexivity.
Qed.

Lemma delete_unknown_label_witness :
  delete_clicked scenario [0; 2]%nat = None
  /\ step scenario (Delete [0; 2]%nat) = scenario.
Proof.
  apply (@delete_unknown_label scenario [0; 2]%nat 2%nat).
  - right. left. reflexivity.
  - vm_compute. lia.
Defined.

Lemma delete_in_range (data : DataFrame) (to_delete : list nat) :
  to_delete <> [] ->
  (forall i, In i to_delete -> (i < List.length data)%nat) ->
  delete_clicked data to_delete
  = Some (Deleted, reindex (unselected to_delete data) data)
  /\ (List.length (reindex (unselected to_delete data) data)
      + List.length (nodup Nat.eq_dec to_delete))%nat
     = List.length data.
Proof.
  intros Hne Hin. split.
  - unfold delete_clicked. destruct to_delete as [|j l]; [congruence|].
    rewrite (drop_in_range _ _ Hin). reflexivity.
  - rewrite reindex_length.
    + rewrite <- (Permutation_length (selected_positions _ Hin)).
      unfold unselected.
      rewrite Nat.add_comm, filter_negb_length. apply length_seq.
    + unfold unselected. apply Forall_forall. intros i Hi.
      apply filter_In in Hi. destruct Hi as [Hi _]. apply in_seq in Hi. lia.
Qed.

(** X4: a click with labels that are positions of the stored data keeps the
    rows at the other positions, in their order, and removes one row for each
    distinct label. *)
Theorem delete_keeps_unselected (data : DataFrame) (to_delete : list nat) :
  to_delete <> [] ->
  (forall i, In i to_delete -> (i < List.length data)%nat) ->
  exists data',
    delete_clicked data to_delete = Some (Deleted, data')
    /\ data' = reindex (unselected to_delete data) data
    /\ (List.length data' + List.length (nodup Nat.eq_dec to_delete))%nat
       = List.length data.
Proof.
  intros Hne Hin. destruct (@delete_in_range data to_delete Hne Hin) as [Hd Hl].
  exists (reindex (unselected to_delete data) data). auto.
Qed.

Lemma delete_keeps_unselected_witness :
  exists data',
    delete_clicked one_day [2; 0; 2]%nat = Some (Deleted, data')
    /\ data' = reindex (unselected [2; 0; 2]%nat one_day) one_day
    /\ (List.length data' + List.length (nodup Nat.eq_dec [2; 0; 2]%nat))%nat
       = List.length one_day.
Proof.
  apply (@delete_keeps_unselected one_day [2; 0; 2]%nat).
  - discriminate.
  - intros i Hi. vm_compute. cbn in Hi. lia.
Defined.

(** X5: the order of the selected labels and their repetitions do not matter:
    two selections with the same labels do the same to the data. *)
Theorem delete_same_labels (data : DataFrame) (to_delete to_delete' : list nat) :
  (forall i, In i to_delete <-> In i to_delete') ->
  step data (Delete to_delete) = step data (Delete to_delete').
Proof.
  intros H.
  assert (Hsel : forall i, selected to_delete i = selected to_delete' i).
  { intros i. apply eq_true_iff_eq. rewrite !selected_In. apply H. }
  assert (Hdrop : drop to_delete data = drop to_delete' data).
  { unfold drop.
    assert (E : forallb (fun i => Nat.ltb i (List.length data)) to_delete
                = forallb (fun i => Nat.ltb i (List.length data)) to_delete').
    { apply eq_true_iff_eq. rewrite !forallb_forall.
      split; intros F i Hi; apply F, H, Hi. }
    rewrite E. destruct (forallb _ to_delete'); [|reflexivity].
    f_equal. rewrite !drop_from_reindex. f_equal. apply filter_ext.
    intros j. now rewrite Hsel. }
  cbn [step]. unfold delete_clicked.
  destruct to_delete as [|a l], to_delete' as [|a' l'].
  - reflexivity.
  - exfalso. apply (proj2 (H a')). left. reflexivity.
  - exfalso. apply (proj1 (H a)). left. reflexivity.
  - rewrite Hdrop. reflexivity.
Qed.

Lemma delete_same_labels_witness :
  step one_day (Delete [2; 0; 2]%nat) = step one_day (Delete [0; 2]%nat).
Proof.
  apply (@delete_same_labels one_day [2; 0; 2]%nat [0; 2]%nat).
  intros i. cbn. tauto.
Defined.

(** ** The pages that are rendered *)

Lemma new_row_renderable (f : entry_form) : renderable (new_row f) = true.
Proof. reflexivity. Qed.

Lemma step_by_hand_renderable (data : DataFrame) (e : event) :
  by_hand e -> forallb renderable data = true -> forallb renderable (step data e) = true.
Proof.
  destruct e as [f|to_delete|f]; cbn [by_hand step]; intros He H; [| |contradiction].
  - unfold add_clicked. rewrite forallb_app, H. reflexivity.
  - destruct (delete_clicked data to_delete) as [[msg data']|] eqn:E; [|exact H].
    rewrite forallb_forall, <- Forall_forall in H |- *.
    exact (delete_clicked_Forall _ H E).
Qed.

Lemma fold_step_by_hand (es : list event) (data : DataFrame) :
  Forall by_hand es -> forallb renderable data = true ->
  forallb renderable (fold_left step es data) = true.
Proof.
  intros Hes. revert data. induction Hes as [|e es He _ IH]; intros data H; [exact H|].
  cbn [fold_left]. apply IH, step_by_hand_renderable; assumption.
Qed.

(** X7: in a session without an upload the display part never raises: after
    any entries and deletions, the data is empty or the page is rendered. *)
Theorem session_by_hand_renders (K : sort_kind) (es : list event) :
  Forall by_hand es -> run es = [] \/ exists p, render K (run es) = Rendered p.
Proof.
  intros Hes. destruct (run es) as [|r l] eqn:E; [now left|right].
  rewrite <- E. apply render_renderable; [rewrite E; discriminate| |].
  - apply fold_step_by_hand; [exact Hes|reflexivity].
  - apply run_plain_category.
Qed.

Lemma session_by_hand_renders_witness :
  run [Add lunch; Add snack; Delete [0%nat]; Add allowance] = []
  \/ exists p,
       render insertion_kind (run [Add lunch; Add snack; Delete [0%nat]; Add allowance])
       = Rendered p.
Proof.
  apply (@session_by_hand_renders insertion_kind
           [Add lunch; Add snack; Delete [0%nat]; Add allowance]).
  repeat constructor.
Defined.

(** ** The runs of a session go through the handlers *)

Lemma reload_events_step (uploaded : option csv_file) (data : DataFrame) :
  fold_left step (reload_events uploaded) data = reload uploaded data.
Proof. destruct uploaded; reflexivity. Qed.

(** Reading the file of the uploader twice is reading it once. *)
Lemma reload_twice (uploaded : option csv_file) (data : DataFrame) :
  reload uploaded (reload uploaded data) = reload uploaded data.
Proof.
  destruct uploaded as [f|]; [|reflexivity]. cbn [reload].
  unfold upload. destruct (read_csv f) as [e|df_up]; [reflexivity|].
  destruct (issubset required_columns (columns df_up)); reflexivity.
Qed.

Lemma delete_nothing_inv (data data' : DataFrame) (to_delete : list nat) :
  delete_clicked data to_delete = Some (NothingSelected, data') -> data' = data.
Proof.
  destruct to_delete as [|i to_delete]; cbn [delete_clicked]; intros H.
  - now inversion H.
  - inv_bind H. discriminate H.
Qed.

Lemma act_steps (s : session) (a : action) :
  stored (act s a) = fold_left step (events_of (uploaded s) a) (stored s)
  /\ uploaded (act s a) = match a with
                          | Choose f => Some f
                          | Remove => None
                          | _ => uploaded s
                          end.
Proof.
  destruct a as [f|to_delete|f|]; cbn [act stored uploaded events_of];
    (split; [|reflexivity]).
  - cbn [fold_left step]. now rewrite reload_events_step.
  - rewrite fold_left_app, reload_events_step. cbn [fold_left step].
    rewrite reload_events_step.
    destruct (delete_clicked (reload (uploaded s) (stored s)) to_delete)
      as [[[|] data']|] eqn:E.
    + reflexivity.
    + apply delete_nothing_inv in E. subst data'. now rewrite reload_twice.
    + now rewrite reload_twice.
  - reflexivity.
  - reflexivity.
Qed.

(** Every state that the runs of the script reach is a state of [run]. *)
Lemma play_from (acts : list action) (s : session) :
  stored (fold_left act acts s)
  = fold_left step (trace (uploaded s) acts) (stored s).
Proof.
  revert s. induction acts as [|a acts IH]; intros s; [reflexivity|].
  cbn [fold_left trace]. rewrite IH, fold_left_app.
  destruct (act_steps s a) as [-> ->]. reflexivity.
Qed.

Lemma play_is_run (acts : list action) : stored (play acts) = run (trace None acts).
Proof. apply (play_from acts new_session). Qed.

(** ** The metrics and the order of the rows *)

Lemma exact_summarize_Permutation (l l' : DataFrame) :
  Permutation l l' -> exact_summarize l = exact_summarize l'.
Proof.
  intros H. unfold exact_summarize.
  rewrite (exact_total_Permutation income_label H).
  rewrite (exact_total_Permutation expense_label H). reflexivity.
Qed.

Lemma exact_summarize_same_entry (l l' : DataFrame) :
  Forall2 same_entry l l' -> exact_summarize l' = exact_summarize l.
Proof.
  intros H. unfold exact_summarize.
  rewrite (exact_total_same_entry income_label H).
  rewrite (exact_total_same_entry expense_label H). reflexivity.
Qed.

(** Within the exact range the metrics are those of the whole numbers. *)
Lemma summarize_is_exact (l : DataFrame) :
  exact l = true -> summarize l = exact_summarize l.
Proof.
  intros Hx. unfold summarize, exact_summarize.
  rewrite !(total_by_type_exact _ _ Hx).
  destruct (exact_total income_label l) as [i|] eqn:Hi; [|reflexivity].
  destruct (exact_total expense_label l) as [e|] eqn:He; [|reflexivity].
  cbn [bind]. do 2 f_equal. apply fsub_exact.
  apply exact_total_bound in Hi, He. apply Z.leb_le in Hx.
  pose proof (magnitude_two_filters (has_type income_label) (has_type expense_label)
                l income_is_no_expense). lia.
Qed.

Lemma shown_metrics_exact (K : sort_kind) (data : DataFrame) :
  exact data = true ->
  shown_metrics K data
  = if negb (forallb date_ok data) || match data with [] => true | _ => false end
    then None else exact_summarize data.
Proof.
  intros Hx. rewrite <- convert_dates_is_some.
  unfold shown_metrics. destruct data as [|r data]; [reflexivity|].
  destruct (shown K (r :: data)) as [df0|] eqn:Hs.
  - pose proof (shown_exact K _ Hs) as Hx0. rewrite Hx in Hx0.
    apply shown_inv in Hs. destruct Hs as (c & Hc & ->).
    rewrite Hc. cbn [bind is_some negb orb].
    rewrite (summarize_is_exact _ Hx0).
    rewrite (exact_summarize_Permutation (sort_values_Permutation K false c)).
    apply exact_summarize_same_entry, convert_dates_same_entry, Hc.
  - unfold shown in Hs. destruct (convert_dates (r :: data)); [discriminate|].
    reflexivity.
Qed.

(** X8: when the amounts add up to 2^53 at most in absolute value, the three
    metrics depend neither on the order in which the rows are stored nor on
    the sorting routine. *)
Theorem metrics_ignore_order (K K' : sort_kind) (data data' : DataFrame) :
  Permutation data data' -> exact data = true ->
  shown_metrics K data = shown_metrics K' data'.
Proof.
  intros H Hx. rewrite !shown_metrics_exact by now rewrite <- ?(exact_Permutation H).
  rewrite (forallb_Permutation date_ok H), (exact_summarize_Permutation H).
  destruct data as [|r l], data' as [|r' l']; try reflexivity.
  - apply Permutation_nil in H. discriminate.
  - apply Permutation_sym, Permutation_nil in H. discriminate.
Qed.

Lemma metrics_ignore_order_witness :
  shown_metrics insertion_kind one_day = shown_metrics quicksort_kind (rev one_day).
Proof.
  apply (@metrics_ignore_order insertion_kind quicksort_kind one_day (rev one_day)).
  - apply Permutation_rev.
  - reflexivity.
Defined.

Lemma exact_total_app (label : string) (l : DataFrame) (r : row) :
  exact_total label (l ++ [r]) = exact_total label (r :: l).
Proof.
  apply exact_total_Permutation. symmetry. apply Permutation_cons_append.
Qed.

Lemma exact_summarize_inv (l : DataFrame) (m : summary) :
  exact_summarize l = Some m ->
  exact_total income_label l = Some (total_income m)
  /\ exact_total expense_label l = Some (total_expense m)
  /\ balance m = total_income m - total_expense m.
Proof.
  unfold exact_summarize. intros H. inv_bind H. inv_bind H. inversion H; subst m.
  cbn [total_income total_expense balance]. auto.
Qed.

(** X9: with no file in the uploader, and amounts that add up to 2^53 at most
    in absolute value, an entry of the form adds its amount to the total of
    its type and leaves the other total as it is; the balance moves by the
    amount, up for an income and down for an expense.  (Before the first
    entry no metric is shown; the totals count from zero.) *)
Theorem add_updates_metrics (K K' : sort_kind) (s : session) (f : entry_form)
        (m : summary) :
  uploaded s = None ->
  exact (add_clicked (stored s) f) = true ->
  shown_metrics K (stored s) = Some m \/ (stored s = [] /\ m = mkSummary 0 0 0) ->
  shown_metrics K' (stored (act s (Submit f)))
  = Some (with_entry m (entry_type f) (round64 (Z.of_N (entry_amount f)))).
Proof.
  intros Hu Hx H. cbn [act stored]. rewrite Hu. cbn [reload].
  set (data := stored s) in *.
  assert (Hxd : exact data = true).
  { unfold exact, add_clicked in *. rewrite magnitude_app in Hx.
    apply Z.leb_le in Hx. apply Z.leb_le.
    pose proof (magnitude_nonneg [new_row f]). lia. }
  assert (Hm : forallb date_ok data = true
               /\ exact_total income_label data = Some (total_income m)
               /\ exact_total expense_label data = Some (total_expense m)
               /\ balance m = total_income m - total_expense m).
  { destruct H as [H|[-> ->]]; [|repeat split].
    rewrite (shown_metrics_exact K data Hxd) in H.
    destruct (forallb date_ok data); [|discriminate H]. cbn [negb orb] in H.
    destruct data; [discriminate H|].
    split; [reflexivity|]. now apply exact_summarize_inv. }
  destruct Hm as (Hd & Hi & He & Hb).
  rewrite (shown_metrics_exact K' _ Hx). unfold add_clicked.
  rewrite forallb_app, Hd.
  replace (match data ++ [new_row f] with [] => true | _ => false end) with false
    by (destruct data; reflexivity).
  change (forallb date_ok [new_row f]) with true. cbn [andb negb orb].
  unfold exact_summarize. rewrite !exact_total_app, !exact_total_cons.
  rewrite !(has_type_label (new_row f) eq_refl).
  cbn [new_row amount]. rewrite Hi, He.
  destruct (entry_type f); cbn [label_of with_entry];
    [ change (String.eqb expense_label income_label) with false;
      change (String.eqb expense_label expense_label) with true
    | change (String.eqb income_label income_label) with true;
      change (String.eqb income_label expense_label) with false ];
    cbn [bind]; do 2 f_equal; lia.
Qed.

Lemma add_updates_metrics_witness :
  shown_metrics quicksort_kind
                (stored (act {| stored := scenario; uploaded := None |} (Submit snack)))
  = Some (with_entry (mkSummary 10000 5000 5000) (entry_type snack)
                     (round64 (Z.of_N (entry_amount snack)))).
Proof.
  apply (@add_updates_metrics insertion_kind quicksort_kind
           {| stored := scenario; uploaded := None |} snack (mkSummary 10000 5000 5000)).
  - reflexivity.
  - reflexivity.
  - left. reflexivity.
Defined.

(** ** An upload in a session *)

Lemma upload_fst (data : DataFrame) (f : csv_file) :
  fst (upload data f) = fst (upload [] f).
Proof.
  unfold upload. destruct (read_csv f) as [e|df_up]; [reflexivity|].
  destruct (issubset required_columns (columns df_up)); reflexivity.
Qed.

Lemma upload_snd (data : DataFrame) (f : csv_file) :
  snd (upload data f) = if accepted f then snd (upload [] f) else data.
Proof.
  unfold accepted, upload. destruct (read_csv f) as [e|df_up]; [reflexivity|].
  destruct (issubset required_columns (columns df_up)); reflexivity.
Qed.

(** While an accepted file is in the uploader, every run ends with the rows
    of the file. *)
Lemma act_keeps_file (f : csv_file) (s : session) (a : action) :
  accepted f = true -> keeps_file a ->
  uploaded s = Some f ->
  uploaded (act s a) = Some f /\ stored (act s a) = snd (upload [] f).
Proof.
  intros Hf Ha Hu.
  assert (R : forall data, reload (Some f) data = snd (upload [] f)).
  { intros data. cbn [reload]. now rewrite upload_snd, Hf. }
  destruct a as [g|to_delete|g|]; cbn [keeps_file] in Ha; try contradiction;
    cbn [act stored uploaded]; rewrite Hu; (split; [reflexivity|]).
  - apply R.
  - rewrite !R.
    destruct (delete_clicked (snd (upload [] f)) to_delete) as [[[|] data']|];
      try reflexivity. apply R.
Qed.

(** X10: the uploader keeps its file, and every run of the script reads it
    again.  So when a file that is accepted (and has no record longer than
    its header) is chosen, the data is the rows of the file after that run
    and after every later entry and deletion, as long as the file stays in
    the uploader: what was stored before no longer matters, and what is added
    or deleted is undone.  A file that is not accepted leaves the data as it
    was. *)
Theorem upload_replaces_the_data (s : session) (f : csv_file) (acts : list action) :
  rectangular f = true ->
  (accepted f = true -> Forall keeps_file acts ->
   stored (fold_left act acts (act s (Choose f))) = snd (upload [] f))
  /\ (accepted f = false -> stored (act s (Choose f)) = stored s).
Proof.
  intros _. split.
  - intros Hf Hacts.
    assert (H0 : uploaded (act s (Choose f)) = Some f
                 /\ stored (act s (Choose f)) = snd (upload [] f)).
    { cbn [act stored uploaded reload]. now rewrite upload_snd, Hf. }
    revert H0. generalize (act s (Choose f)) as s0.
    induction Hacts as [|a acts Ha _ IH]; intros s0 [Hu Hs]; cbn [fold_left].
    + exact Hs.
    + apply IH. now apply act_keeps_file.
  - intros Hf. cbn [act stored reload]. now rewrite upload_snd, Hf.
Qed.

Lemma upload_replaces_the_data_witness :
  stored (play [Submit lunch; Choose file_with_one_saving; Submit snack; Click [0%nat]])
  = [savings]
  /\ stored (fold_left act [Submit snack; Click [0%nat]]
                       (act (play [Submit lunch]) (Choose file_with_one_saving)))
     = snd (upload [] file_with_one_saving)
  /\ stored (act (play [Submit lunch]) (Choose file_without_note))
     = stored (play [Submit lunch]).
Proof.
  split; [reflexivity|]. split.
  - apply (proj1 (@upload_replaces_the_data (play [Submit lunch]) file_with_one_saving
                    [Submit snack; Click [0%nat]] eq_refl)).
    + reflexivity.
    + repeat constructor.
  - apply (proj2 (@upload_replaces_the_data (play [Submit lunch]) file_without_note
                    [] eq_refl)).
    reflexivity.
Defined.

(** ** The shown table and the recent items *)

Lemma StronglySorted_app {A : Type} (R : A -> A -> Prop) (l1 l2 : list A) :
  StronglySorted R l1 -> StronglySorted R l2 ->
  (forall a b, In a l1 -> In b l2 -> R a b) ->
  StronglySorted R (l1 ++ l2).
Proof.
  intros H1 H2 H. induction H1 as [|a l1 H1 IH Ha]; [exact H2|].
  cbn [app]. constructor.
  - apply IH. intros x y Hx Hy. apply H; [now right|exact Hy].
  - apply Forall_app. split; [exact Ha|].
    apply Forall_forall. intros y Hy. apply H; [now left|exact Hy].
Qed.

Lemma StronglySorted_app_inv {A : Type} (R : A -> A -> Prop) (l1 l2 : list A) :
  StronglySorted R (l1 ++ l2) -> forall a b, In a l1 -> In b l2 -> R a b.
Proof.
  induction l1 as [|x l1 IH]; intros H a b Ha Hb; [contradiction|].
  cbn [app] in H. apply StronglySorted_inv in H. destruct H as [Hs Hx].
  destruct Ha as [->|Ha].
  - rewrite Forall_forall in Hx. apply Hx, in_or_app. now right.
  - now apply IH.
Qed.

Lemma StronglySorted_rev {A : Type} (R : A -> A -> Prop) (l : list A) :
  StronglySorted R l -> StronglySorted (fun a b => R b a) (rev l).
Proof.
  induction 1 as [|a l Hl IH Ha]; [constructor|].
  cbn [rev]. apply StronglySorted_app; [exact IH|repeat constructor|].
  intros x y Hx [<-|[]]. apply in_rev in Hx.
  rewrite Forall_forall in Ha. now apply Ha.
Qed.

Lemma StronglySorted_map {A B : Type} (R : B -> B -> Prop) (f : A -> B) (l : list A) :
  StronglySorted R (map f l) -> StronglySorted (fun a b => R (f a) (f b)) l.
Proof.
  induction l as [|a l IH]; [constructor|].
  cbn [map]. intros H. apply StronglySorted_inv in H. destruct H as [Hs Ha].
  constructor; [now apply IH|].
  rewrite Forall_map in Ha. exact Ha.
Qed.

Lemma StronglySorted_weaken {A : Type} (R R' : A -> A -> Prop) (l : list A) :
  (forall a b, In a l -> In b l -> R a b -> R' a b) ->
  StronglySorted R l -> StronglySorted R' l.
Proof.
  intros H Hs. induction Hs as [|a l Hl IH Ha]; [constructor|].
  constructor.
  - apply IH. intros x y Hx Hy. apply H; now right.
  - rewrite Forall_forall in *. intros y Hy. apply H; [now left|now right|auto].
Qed.

Lemma latest_first_notna (r r' : row) :
  notna r = true -> notna r' = true ->
  key_of r' <= key_of r -> latest_first r r' = true.
Proof.
  unfold notna, key_of, latest_first.
  destruct (sort_key r), (sort_key r'); try discriminate.
  intros _ _ H. now apply Z.leb_le.
Qed.

Lemma latest_first_isna (r r' : row) : isna r' = true -> latest_first r r' = true.
Proof.
  unfold isna, notna, latest_first.
  destruct (sort_key r), (sort_key r'); try discriminate; reflexivity.
Qed.

Lemma sort_values_latest_first (K : sort_kind) (l : DataFrame) :
  StronglySorted (fun r r' => latest_first r r' = true) (sort_values K false l).
Proof.
  unfold sort_values.
  set (m := rev (filter notna l)).
  assert (Hm : Forall (fun r => notna r = true) (reindex (argsort K (map key_of m)) m)).
  { apply Forall_forall. intros r Hr.
    apply (Permutation_in _ (argsort_rows_Permutation K m)) in Hr.
    unfold m in Hr. apply in_rev in Hr. apply filter_In in Hr. apply Hr. }
  apply StronglySorted_app.
  - pose proof (argsort_rows_Sorted K m) as Hs.
    apply (Sorted_StronglySorted Z.le_trans) in Hs.
    apply StronglySorted_map, StronglySorted_rev in Hs.
    revert Hs. apply StronglySorted_weaken.
    intros a b Ha Hb Hle. apply in_rev in Ha, Hb.
    rewrite Forall_forall in Hm. apply latest_first_notna; auto.
  - apply StronglySorted_weaken with (R := fun _ _ => True).
    + intros a b _ Hb _. apply latest_first_isna.
      apply filter_In in Hb. apply Hb.
    + induction (filter isna l) as [|a t IH]; constructor; [exact IH|].
      apply Forall_forall. auto.
  - intros a b _ Hb. apply latest_first_isna. apply filter_In in Hb. apply Hb.
Qed.

(** X11: the shown table holds the stored rows, each with its date converted
    by [pd.to_datetime], the latest date first and the rows without a date
    last. *)
Theorem shown_is_latest_first (K : sort_kind) (data table : DataFrame) :
  shown K data = Some table ->
  (exists converted,
     Forall2 (fun r r' => to_datetime (date r) = Some (date r') /\ same_entry r r')
             data converted
     /\ Permutation table converted)
  /\ StronglySorted (fun r r' => latest_first r r' = true) table.
Proof.
  intros H. apply shown_inv in H. destruct H as (c & Hc & ->).
  split; [|apply sort_values_latest_first].
  exists c. split; [apply convert_dates_converted, Hc|apply sort_values_Permutation].
Qed.

Lemma shown_is_latest_first_witness :
  (exists converted,
     Forall2 (fun r r' => to_datetime (date r) = Some (date r') /\ same_entry r r')
             scenario converted
     /\ Permutation (sort_values quicksort_kind false scenario) converted)
  /\ StronglySorted (fun r r' => latest_first r r' = true)
                    (sort_values quicksort_kind false scenario).
Proof.
  apply (@shown_is_latest_first quicksort_kind scenario). reflexivity.
Defined.

Lemma shown_length (K : sort_kind) (data table : DataFrame) :
  shown K data = Some table -> List.length table = List.length data.
Proof.
  intros H. apply shown_inv in H. destruct H as (c & Hc & ->).
  rewrite (Permutation_length (sort_values_Permutation K false c)).
  apply (mapM_length _ _ Hc).
Qed.

(** X12: the table of the recent items holds the first five rows of the shown
    table, or all of them when there are fewer, and no row that is left out
    may stand above one that is in it: a row that is left out has no later
    date, and it has a date only if every recent item has one. *)
Theorem recent_items (K : sort_kind) (data : DataFrame) (p : page) :
  render K data = Rendered p ->
  List.length (head 5 (df p)) = Nat.min 5 (List.length data)
  /\ forall r r', In r (head 5 (df p)) -> In r' (skipn 5 (df p)) ->
                  latest_first r r' = true.
Proof.
  intros H. apply render_inv in H. destruct H as (_ & H & _). split.
  - unfold head. rewrite length_firstn, (shown_length _ _ H). reflexivity.
  - apply StronglySorted_app_inv. unfold head. rewrite firstn_skipn.
    apply shown_inv in H. destruct H as (c & _ & ->).
    apply sort_values_latest_first.
Qed.

Lemma recent_items_witness :
  exists p,
    render insertion_kind scenario = Rendered p
    /\ List.length (head 5 (df p)) = Nat.min 5 (List.length scenario)
    /\ forall r r', In r (head 5 (df p)) -> In r' (skipn 5 (df p)) ->
                    latest_first r r' = true.
Proof.
  eexists. split; [vm_compute; reflexivity|].
  apply (@recent_items insertion_kind scenario).
  vm_compute. reflexivity.
Defined.

(** ** The cumulative balance *)

Lemma running_total_0 (r : row) (l : DataFrame) :
  running_total (r :: l) 0 = signed_value r.
Proof. unfold running_total. cbn. lia. Qed.

Lemma running_total_S (r : row) (l : DataFrame) (i : nat) :
  running_total (r :: l) (S i) = signed_value r + running_total l i.
Proof. reflexivity. Qed.

Lemma exact_cumsum_running_total (l : DataFrame) :
  forall acc signed out,
    mapM signed_amount l = Some signed -> exact_cumsum acc signed = Some out ->
    forall i r, nth_error l i = Some r ->
      nth_error out i
      = Some (match amount r with
              | Missing => Missing
              | _ => Number (acc + running_total l i)
              end).
Proof.
  induction l as [|r0 l IH]; intros acc signed out Hs Hc i r Hi;
    [destruct i; discriminate|].
  cbn [mapM] in Hs. inv_bind Hs. inv_bind Hs. injection Hs as <-.
  assert (Hstep : exists out',
             exact_cumsum (acc + signed_value r0) a0 = Some out'
             /\ out = match amount r0 with
                      | Missing => Missing
                      | _ => Number (acc + signed_value r0)
                      end :: out').
  { unfold signed_value. rewrite E. unfold signed_amount in E.
    destruct (has_type income_label r0).
    - injection E as <-. destruct (amount r0); cbn [exact_cumsum] in Hc;
        try discriminate;
        inv_bind Hc; injection Hc as <-; [|rewrite Z.add_0_r]; eauto.
    - destruct (amount r0); try discriminate; injection E as <-;
        cbn [exact_cumsum] in Hc; inv_bind Hc; injection Hc as <-;
        [|rewrite Z.add_0_r]; eauto. }
  destruct Hstep as (out' & Hc' & ->).
  destruct i as [|i].
  - injection Hi as <-. cbn [nth_error]. rewrite running_total_0. reflexivity.
  - cbn [nth_error] in *. rewrite (IH _ _ _ E0 Hc' _ _ Hi), running_total_S.
    destruct (amount r); try reflexivity; do 2 f_equal; lia.
Qed.

(** Within the exact range the cumulative balance is the running total in
    the whole numbers. *)
Lemma render_exact_cumsum (K : sort_kind) (data : DataFrame) (p : page) :
  render K data = Rendered p -> exact data = true ->
  exists signed, mapM signed_amount (df_time p) = Some signed
                 /\ exact_cumsum 0 signed = Some (cumulative_balance p).
Proof.
  intros H Hx. apply render_inv in H.
  destruct H as (_ & Hshown & _ & Htime & (signed & Hs & Ho) & _).
  exists signed. split; [exact Hs|].
  rewrite <- Ho. symmetry. apply cumsum_exact.
  rewrite (signed_magnitude _ Hs), Htime.
  rewrite (magnitude_Permutation (sort_values_Permutation K true (df p))).
  rewrite (shown_magnitude K data Hshown).
  apply Z.leb_le in Hx. cbn [Z.abs]. lia.
Qed.

(** X13: when the amounts add up to 2^53 at most in absolute value, the
    cumulative balance has one value for each stored row, taken in the order
    of ascending dates; it is missing where the amount of the row is missing,
    and elsewhere the value at a row is the sum of the amounts up to and
    including it, incomes added and all other rows subtracted. *)
Theorem cumulative_balance_is_running_total (K : sort_kind) (data : DataFrame) (p : page) :
  render K data = Rendered p ->
  exact data = true ->
  List.length (cumulative_balance p) = List.length data
  /\ Sorted Z.le (map key_of (filter notna (df_time p)))
  /\ forall i r, nth_error (df_time p) i = Some r ->
       nth_error (cumulative_balance p) i
       = Some (match amount r with
               | Missing => Missing
               | _ => Number (running_total (df_time p) i)
               end).
Proof.
  intros H Hx. destruct (render_exact_cumsum K data H Hx) as (signed' & Hs' & Ho').
  apply render_inv in H.
  destruct H as (_ & Hshown & _ & Htime & (signed & Hs & Ho) & _).
  split; [|split].
  - rewrite (cumsum_length _ _ Ho), (mapM_length _ _ Hs), Htime.
    rewrite (Permutation_length (sort_values_Permutation K true (df p))).
    apply (shown_length _ _ Hshown).
  - rewrite Htime. apply sort_values_ascending.
  - intros i r Hi. rewrite (exact_cumsum_running_total _ _ Hs' Ho' _ Hi).
    destruct (amount r); reflexivity.
Qed.

Lemma cumulative_balance_is_running_total_witness :
  exists p,
    render insertion_kind scenario = Rendered p
    /\ List.length (cumulative_balance p) = List.length scenario
    /\ Sorted Z.le (map key_of (filter notna (df_time p)))
    /\ forall i r, nth_error (df_time p) i = Some r ->
         nth_error (cumulative_balance p) i
         = Some (match amount r with
                 | Missing => Missing
                 | _ => Number (running_total (df_time p) i)
                 end).
Proof.
  eexists. split; [vm_compute; reflexivity|].
  apply (@cumulative_balance_is_running_total insertion_kind scenario).
  - vm_compute. reflexivity.
  - reflexivity.
Defined.

(** ** The rows of an upload *)







(** ** The exported file is accepted *)





(** ** The keys of the groups *)

Section UniqueSorted.

Context {A : Type}.
Variable cmp : A -> A -> comparison.
Hypothesis cmp_eq : forall a b, cmp a b = Eq -> a = b.
Hypothesis cmp_antisym : forall a b, cmp a b = CompOpp (cmp b a).
Hypothesis cmp_trans : forall a b c, cmp a b = Lt -> cmp b c = Lt -> cmp a c = Lt.

Lemma insert_key_In (k x : A) (ks : list A) :
  In x (insert_key cmp k ks) <-> x = k \/ In x ks.
Proof.
  induction ks as [|k' ks IH]; cbn [insert_key].
  - cbn. intuition congruence.
  - destruct (cmp k k') eqn:E.
    + apply cmp_eq in E. subst k'. cbn. intuition congruence.
    + cbn. intuition congruence.
    + cbn [In]. rewrite IH. cbn. intuition congruence.
Qed.

Lemma unique_sorted_In (x : A) (l : list A) : In x (unique_sorted cmp l) <-> In x l.
Proof.
  unfold unique_sorted. induction l as [|a l IH]; [reflexivity|].
  cbn [fold_right]. rewrite insert_key_In, IH. cbn. intuition congruence.
Qed.

Lemma insert_key_sorted (k : A) (ks : list A) :
  StronglySorted (fun a b => cmp a b = Lt) ks ->
  StronglySorted (fun a b => cmp a b = Lt) (insert_key cmp k ks).
Proof.
  induction 1 as [|k' ks Hs IH Hk']; cbn [insert_key]; [repeat constructor|].
  destruct (cmp k k') eqn:E.
  - constructor; assumption.
  - constructor; [constructor; assumption|].
    constructor; [exact E|].
    rewrite Forall_forall in *. intros x Hx. apply cmp_trans with k'; auto.
  - constructor; [exact IH|].
    apply Forall_forall. intros x Hx. apply insert_key_In in Hx.
    destruct Hx as [->|Hx].
    + rewrite cmp_antisym, E. reflexivity.
    + rewrite Forall_forall in Hk'. auto.
Qed.

Lemma unique_sorted_NoDup (l : list A) : NoDup (unique_sorted cmp l).
Proof.
  assert (Hs : StronglySorted (fun a b => cmp a b = Lt) (unique_sorted cmp l)).
  { unfold unique_sorted. induction l as [|a l IH]; [constructor|].
    cbn [fold_right]. apply insert_key_sorted, IH. }
  induction Hs as [|a ks _ IH Ha]; constructor; [|exact IH].
  intros Hin. rewrite Forall_forall in Ha. specialize (Ha a Hin).
  pose proof (cmp_antisym a a) as E. rewrite Ha in E. discriminate.
Qed.

End UniqueSorted.

Lemma Z_compare_trans (a b c : Z) : (a ?= b) = Lt -> (b ?= c) = Lt -> (a ?= c) = Lt.
Proof. rewrite !Z.compare_lt_iff. lia. Qed.

Lemma Z_compare_antisym (a b : Z) : (a ?= b) = CompOpp (b ?= a).
Proof. apply Z.compare_antisym. Qed.

Lemma ascii_compare_trans (a b c : ascii) :
  Ascii.compare a b = Lt -> Ascii.compare b c = Lt -> Ascii.compare a c = Lt.
Proof. unfold Ascii.compare. rewrite !N.compare_lt_iff. lia. Qed.

Lemma string_compare_trans (a b c : string) :
  String.compare a b = Lt -> String.compare b c = Lt -> String.compare a c = Lt.
Proof.
  revert b c. induction a as [|x a IH]; intros [|y b] [|z c]; cbn [String.compare];
    try discriminate; try reflexivity.
  destruct (Ascii.compare x y) eqn:Exy; try discriminate;
    destruct (Ascii.compare y z) eqn:Eyz; try discriminate; intros H1 H2.
  - apply Ascii.compare_eq_iff in Exy, Eyz. subst y z.
    replace (Ascii.compare x x) with Eq; [eauto|].
    destruct (Ascii.compare x x) eqn:E; [reflexivity| |];
      pose proof (Ascii.compare_antisym x x) as F; rewrite E in F; discriminate.
  - apply Ascii.compare_eq_iff in Exy. subst y. now rewrite Eyz.
  - apply Ascii.compare_eq_iff in Eyz. subst z. now rewrite Exy.
  - now rewrite (ascii_compare_trans _ _ _ Exy Eyz).
Qed.

Lemma compare_timestamp_lt (t t' : Timestamp) :
  compare_timestamp t t' = Lt
  <-> year t < year t'
      \/ (year t = year t'
          /\ (month t < month t' \/ (month t = month t' /\ day t < day t'))).
Proof.
  unfold compare_timestamp.
  destruct (Z.compare_spec (year t) (year t'));
    destruct (Z.compare_spec (month t) (month t'));
    destruct (Z.compare_spec (day t) (day t'));
    split; intros; try discriminate; try reflexivity; try lia.
Qed.

Lemma compare_timestamp_eq (t t' : Timestamp) : compare_timestamp t t' = Eq -> t = t'.
Proof.
  unfold compare_timestamp. destruct t as [y m d], t' as [y' m' d']. cbn [year month day].
  destruct (Z.compare_spec y y'); try discriminate;
    destruct (Z.compare_spec m m'); try discriminate;
    destruct (Z.compare_spec d d'); try discriminate.
  intros _. congruence.
Qed.

Lemma compare_timestamp_antisym (t t' : Timestamp) :
  compare_timestamp t t' = CompOpp (compare_timestamp t' t).
Proof.
  unfold compare_timestamp.
  rewrite (Z.compare_antisym (year t') (year t)), (Z.compare_antisym (month t') (month t)),
    (Z.compare_antisym (day t') (day t)).
  destruct (year t' ?= year t), (month t' ?= month t), (day t' ?= day t); reflexivity.
Qed.

Lemma compare_timestamp_trans (a b c : Timestamp) :
  compare_timestamp a b = Lt -> compare_timestamp b c = Lt -> compare_timestamp a c = Lt.
Proof. rewrite !compare_timestamp_lt. lia. Qed.

Lemma numbers_of_In (z : Z) (cs : list cell) : In z (numbers_of cs) <-> In (Number z) cs.
Proof.
  unfold numbers_of. rewrite in_flat_map. split.
  - intros (c & Hc & Hz). destruct c; cbn in Hz; try contradiction.
    destruct Hz as [<-|[]]. exact Hc.
  - intros H. exists (Number z). split; [exact H|now left].
Qed.

Lemma stamps_of_In (t : Timestamp) (cs : list cell) : In t (stamps_of cs) <-> In (Stamp t) cs.
Proof.
  unfold stamps_of. rewrite in_flat_map. split.
  - intros (c & Hc & Hz). destruct c; cbn in Hz; try contradiction.
    destruct Hz as [<-|[]]. exact Hc.
  - intros H. exists (Stamp t). split; [exact H|now left].
Qed.

Lemma texts_of_In (s : string) (cs : list cell) : In s (texts_of cs) <-> In (Text s) cs.
Proof.
  unfold texts_of. rewrite in_flat_map. split.
  - intros (c & Hc & Hz). destruct c; cbn in Hz; try contradiction.
    destruct Hz as [<-|[]]. exact Hc.
  - intros H. exists (Text s). split; [exact H|now left].
Qed.

Lemma group_keys_inv (cs keys : list cell) :
  group_keys cs = Some keys ->
  keys = map Number (unique_sorted Z.compare (numbers_of cs))
         ++ map Stamp (unique_sorted compare_timestamp (stamps_of cs))
         ++ map Text (unique_sorted String.compare (texts_of cs)).
Proof.
  unfold group_keys.
  destruct (unique_sorted Z.compare (numbers_of cs)),
    (unique_sorted compare_timestamp (stamps_of cs)); congruence.
Qed.

Lemma group_keys_In (cs keys : list cell) (k : cell) :
  group_keys cs = Some keys -> (In k keys <-> k <> Missing /\ In k cs).
Proof.
  intros H. rewrite (group_keys_inv _ H), !in_app_iff, !in_map_iff.
  pose proof (fun z => @unique_sorted_In _ _ Z.compare_eq z (numbers_of cs)) as Hn.
  pose proof (fun t => @unique_sorted_In _ _ compare_timestamp_eq t (stamps_of cs)) as Hs.
  pose proof (fun s => @unique_sorted_In _ _ String.compare_eq_iff s (texts_of cs)) as Ht.
  split.
  - intros [(z & <- & Hz)|[(t & <- & Hz)|(s & <- & Hz)]]; (split; [discriminate|]).
    + apply numbers_of_In, Hn, Hz.
    + apply stamps_of_In, Hs, Hz.
    + apply texts_of_In, Ht, Hz.
  - intros [Hk Hin]. destruct k as [s|z|t|]; [| | |congruence].
    + right. right. exists s. split; [reflexivity|]. apply Ht, texts_of_In, Hin.
    + left. exists z. split; [reflexivity|]. apply Hn, numbers_of_In, Hin.
    + right. left. exists t. split; [reflexivity|]. apply Hs, stamps_of_In, Hin.
Qed.

Lemma NoDup_map_injective {A B : Type} (f : A -> B) (l : list A) :
  (forall x y, f x = f y -> x = y) -> NoDup l -> NoDup (map f l).
Proof.
  intros Hf. induction 1 as [|a l Ha _ IH]; cbn [map]; constructor; [|exact IH].
  rewrite in_map_iff. intros (x & Hx & Hin). apply Hf in Hx. now subst.
Qed.

Lemma group_keys_NoDup (cs keys : list cell) : group_keys cs = Some keys -> NoDup keys.
Proof.
  intros H. rewrite (group_keys_inv _ H).
  apply NoDup_app; [|apply NoDup_app|].
  - apply NoDup_map_injective; [congruence|].
    apply unique_sorted_NoDup;
      [apply Z.compare_eq|apply Z_compare_antisym|apply Z_compare_trans].
  - apply NoDup_map_injective; [congruence|].
    apply unique_sorted_NoDup;
      [apply compare_timestamp_eq|apply compare_timestamp_antisym
      |apply compare_timestamp_trans].
  - apply NoDup_map_injective; [congruence|].
    apply unique_sorted_NoDup;
      [apply String.compare_eq_iff|apply String.compare_antisym
      |apply string_compare_trans].
  - intros a. rewrite !in_map_iff. intros (t & <- & _) (s & E & _). discriminate.
  - intros a. rewrite in_app_iff, !in_map_iff.
    intros (z & <- & _) [(t & E & _)|(s & E & _)]; discriminate.
Qed.

(** ** The expenses by category *)

Lemma timestamp_eqb_eq (t t' : Timestamp) : timestamp_eqb t t' = true <-> t = t'.
Proof.
  unfold timestamp_eqb. destruct t as [y m d], t' as [y' m' d']. cbn [year month day].
  rewrite !andb_true_iff, !Z.eqb_eq. split; [intros [[-> ->] ->]; reflexivity|].
  intros E. injection E as -> -> ->. auto.
Qed.

Lemma cell_eqb_eq (a b : cell) : cell_eqb a b = true <-> a = b /\ b <> Missing.
Proof.
  destruct a as [s|z|t|], b as [s'|z'|t'|]; cbn [cell_eqb];
    try (split; [discriminate|intros [E N]; congruence]).
  - rewrite String.eqb_eq. split; [intros ->; split; [reflexivity|discriminate]|].
    intros [E _]. congruence.
  - rewrite Z.eqb_eq. split; [intros ->; split; [reflexivity|discriminate]|].
    intros [E _]. congruence.
  - rewrite timestamp_eqb_eq. split; [intros ->; split; [reflexivity|discriminate]|].
    intros [E _]. congruence.
Qed.

Lemma in_group_eq (k : cell) (r : row) :
  in_group k r = true <-> category r = k /\ k <> Missing.
Proof. apply cell_eqb_eq. Qed.

Lemma reindex_nil {A : Type} (idx : list nat) : reindex idx (@nil A) = [].
Proof.
  induction idx as [|i idx IH]; [reflexivity|].
  rewrite reindex_cons, IH. unfold pick. destruct i; reflexivity.
Qed.

Lemma argsort_by_Permutation {A : Type} (K : sort_kind) (key : A -> Z) (l : list A) :
  Permutation (reindex (argsort K (map key l)) l) l.
Proof.
  apply reindex_all. rewrite <- (length_map key l). apply argsort_perm.
Qed.

Lemma sort_series_Permutation (K : sort_kind) (ascending : bool) (s : series) :
  Permutation (sort_series K ascending s) s.
Proof.
  unfold sort_series. destruct ascending; [apply argsort_by_Permutation|].
  rewrite <- Permutation_rev. rewrite (argsort_by_Permutation K snd (rev s)).
  symmetry. apply Permutation_rev.
Qed.

Lemma sort_series_descending (K : sort_kind) (s : series) :
  StronglySorted (fun a b => snd b <= snd a) (sort_series K false s).
Proof.
  unfold sort_series.
  pose proof (argsort_sorted K (map snd (rev s))) as Hs.
  rewrite reindex_map in Hs.
  apply (Sorted_StronglySorted Z.le_trans) in Hs.
  apply StronglySorted_map, StronglySorted_rev in Hs. exact Hs.
Qed.

Lemma expense_by_cat_inv (K : sort_kind) (df0 : DataFrame) (s : series) :
  expense_by_cat K df0 = Some s ->
  exists keys totals,
    group_keys (map category (filter (has_type expense_label) df0)) = Some keys
    /\ Forall2 (fun k kv =>
                  fst kv = k
                  /\ sum (map amount (filter (in_group k)
                                             (filter (has_type expense_label) df0)))
                     = Some (snd kv))
               keys totals
    /\ s = sort_series K false totals.
Proof.
  unfold expense_by_cat. intros H. inv_bind H. inv_bind H. injection H as <-.
  exists a, a0. split; [exact E|]. split; [|reflexivity].
  apply mapM_Forall2 in E0.
  eapply Forall2_impl; [|exact E0]. cbn beta. intros k kv Hk.
  inv_bind Hk. injection Hk as <-. split; [reflexivity|exact E1].
Qed.

Lemma Forall2_fst {A B : Type} (P : A -> B -> Prop) (keys : list A) (totals : list (A * B)) :
  Forall2 (fun k kv => fst kv = k /\ P k (snd kv)) keys totals -> map fst totals = keys.
Proof.
  induction 1 as [|k kv keys totals [E _] _ IH]; [reflexivity|].
  cbn [map]. now rewrite E, IH.
Qed.

Lemma Forall2_In_pair {A B : Type} (P : A -> B -> Prop) (keys : list A)
      (totals : list (A * B)) (k : A) (v : B) :
  Forall2 (fun k kv => fst kv = k /\ P k (snd kv)) keys totals ->
  In (k, v) totals -> P k v.
Proof.
  induction 1 as [|k' kv keys totals [E HP] _ IH]; intros Hin; [contradiction|].
  destruct Hin as [->|Hin]; [|exact (IH Hin)].
  cbn [fst snd] in *. now subst.
Qed.

(** The sum of a group within the exact range. *)
Lemma group_sum_exact (table : DataFrame) (k : cell) :
  exact table = true ->
  sum (map amount (filter (in_group k) (filter (has_type expense_label) table)))
  = exact_sum (map amount (filter (in_group k) (filter (has_type expense_label) table))).
Proof.
  intros Hx. apply sum_exact. rewrite <- magnitude_cells.
  pose proof (magnitude_filter (in_group k) (filter (has_type expense_label) table)).
  pose proof (magnitude_filter (has_type expense_label) table).
  apply Z.leb_le in Hx. lia.
Qed.

(** X16: the chart has one bar for each category that an expense row holds,
    each category once and none for the rows without a category; when the
    amounts of the table add up to 2^53 at most in absolute value, the value
    of a bar is the sum of the amounts of the expense rows of its category. *)
Theorem expense_by_cat_groups (K : sort_kind) (table : DataFrame) (s : series) :
  expense_by_cat K table = Some s ->
  NoDup (map fst s)
  /\ (forall k, In k (map fst s)
                <-> k <> Missing
                    /\ exists r, In r table /\ has_type expense_label r = true
                                 /\ category r = k)
  /\ (exact table = true ->
      forall k v, In (k, v) s ->
        exact_sum (map amount (filter (in_group k)
                                      (filter (has_type expense_label) table)))
        = Some v).
Proof.
  intros H. apply expense_by_cat_inv in H.
  destruct H as (keys & totals & Hkeys & Htotals & ->).
  pose proof (sort_series_Permutation K false totals) as Hperm.
  set (P := fun (k : cell) (v : Z) =>
              sum (map amount (filter (in_group k) (filter (has_type expense_label) table)))
              = Some v) in *.
  pose proof (@Forall2_fst _ _ P _ _ Htotals) as Hfst.
  split; [|split].
  - apply (Permutation_NoDup (l := map fst totals)).
    + symmetry. apply Permutation_map, Hperm.
    + rewrite Hfst. apply (@group_keys_NoDup _ _ Hkeys).
  - intros k.
    assert (E : In k (map fst (sort_series K false totals)) <-> In k keys).
    { rewrite <- Hfst. split; apply Permutation_in, Permutation_map;
        [exact Hperm|symmetry; exact Hperm]. }
    rewrite E, (@group_keys_In _ _ k Hkeys), in_map_iff.
    split; intros [Hk Hr]; (split; [exact Hk|]).
    + destruct Hr as (r & Hc & Hr). apply filter_In in Hr. exists r. tauto.
    + destruct Hr as (r & Hr & Ht & Hc). exists r. split; [exact Hc|].
      apply filter_In. tauto.
  - intros Hx k v Hin. apply (Permutation_in _ Hperm) in Hin.
    rewrite <- (@group_sum_exact table k Hx).
    exact (@Forall2_In_pair _ _ P _ _ _ _ Htotals Hin).
Qed.

Lemma expense_by_cat_groups_witness :
  exists s,
    expense_by_cat insertion_kind two_lunches = Some s
    /\ NoDup (map fst s)
    /\ (forall k, In k (map fst s)
                  <-> k <> Missing
                      /\ exists r, In r two_lunches /\ has_type expense_label r = true
                                   /\ category r = k)
    /\ (exact two_lunches = true ->
        forall k v, In (k, v) s ->
          exact_sum (map amount (filter (in_group k)
                                        (filter (has_type expense_label) two_lunches)))
          = Some v).
Proof.
  eexists. split; [vm_compute; reflexivity|].
  apply (@expense_by_cat_groups insertion_kind two_lunches).
  vm_compute. reflexivity.
Defined.

(** X17: the bars stand in descending order of their values. *)
Theorem expense_by_cat_descending (K : sort_kind) (table : DataFrame) (s : series) :
  expense_by_cat K table = Some s -> StronglySorted (fun a b => snd b <= snd a) s.
Proof.
  intros H. apply expense_by_cat_inv in H.
  destruct H as (keys & totals & _ & _ & ->). apply sort_series_descending.
Qed.

Lemma expense_by_cat_descending_witness :
  exists s,
    expense_by_cat quicksort_kind two_lunches = Some s
    /\ StronglySorted (fun a b => snd b <= snd a) s.
Proof.
  eexists. split; [vm_compute; reflexivity|].
  apply (@expense_by_cat_descending quicksort_kind two_lunches).
  vm_compute. reflexivity.
Defined.

(** ** The bars and the total of the expenses *)

Lemma total_Permutation (l l' : list Z) : Permutation l l' -> total l = total l'.
Proof.
  unfold total. induction 1; cbn [fold_right]; lia.
Qed.

Lemma add_up_inv (l : DataFrame) (acc v : Z) :
  add_up acc (map amount l) = Some v -> forallb amount_ok l = true.
Proof.
  revert acc. induction l as [|r l IH]; intros acc H; [reflexivity|].
  cbn [map add_up] in H. cbn [forallb]. unfold amount_ok at 1.
  destruct (amount r) as [s|z|t|]; try discriminate; eapply IH; exact H.
Qed.

Lemma sum_amounts_ok (l : DataFrame) (v : Z) :
  sum (map amount l) = Some v -> forallb amount_ok l = true.
Proof. apply add_up_inv. Qed.

Lemma exact_sum_inv (l : DataFrame) (v : Z) :
  exact_sum (map amount l) = Some v -> v = total (map amount_value l).
Proof.
  revert v. induction l as [|r l IH]; intros v H.
  - now injection H as <-.
  - cbn [map exact_sum] in H. unfold amount_value at 1. cbn [map total fold_right].
    fold (total (map amount_value l)).
    destruct (amount r) as [s|z|t|]; try discriminate.
    + inv_bind H. injection H as <-. now rewrite (IH _ E).
    + now rewrite (IH _ H).
Qed.

Lemma exact_sum_total (l : DataFrame) :
  forallb amount_ok l = true ->
  exact_sum (map amount l) = Some (total (map amount_value l)).
Proof.
  induction l as [|r l IH]; [reflexivity|].
  cbn [forallb map]. intros H. apply andb_prop in H. destruct H as [Hr Hl].
  unfold amount_ok in Hr. unfold amount_value at 1. cbn [total fold_right].
  fold (total (map amount_value l)).
  destruct (amount r); try discriminate; cbn [exact_sum]; rewrite (IH Hl); reflexivity.
Qed.

Lemma total_map_add {A : Type} (f g : A -> Z) (l : list A) :
  total (map (fun a => f a + g a) l) = total (map f l) + total (map g l).
Proof.
  unfold total. induction l as [|a l IH]; cbn [map fold_right]; lia.
Qed.

Lemma total_map_zero {A : Type} (f : A -> Z) (l : list A) :
  (forall a, In a l -> f a = 0) -> total (map f l) = 0.
Proof.
  unfold total. induction l as [|a l IH]; intros H; [reflexivity|].
  cbn [map fold_right]. rewrite (H a), IH; [reflexivity| |now left].
  intros x Hx. apply H. now right.
Qed.

(** Among keys that are all different, a row counts for the one it has. *)
Lemma total_one_group (keys : list cell) (r : row) (z : Z) :
  NoDup keys ->
  total (map (fun k => if in_group k r then z else 0) keys)
  = if existsb (fun k => in_group k r) keys then z else 0.
Proof.
  induction 1 as [|k keys Hk _ IH]; [reflexivity|].
  cbn [map existsb]. unfold total in *. cbn [fold_right]. rewrite IH.
  destruct (in_group k r) eqn:E; cbn [orb]; [|reflexivity].
  replace (existsb (fun k0 => in_group k0 r) keys) with false; [lia|].
  symmetry. apply not_true_is_false. intros F. apply existsb_exists in F.
  destruct F as (k' & Hk' & E'). apply in_group_eq in E, E'.
  destruct E as [<- _], E' as [<- _]. contradiction.
Qed.

Lemma total_groups (keys : list cell) (l : DataFrame) :
  NoDup keys ->
  total (map (fun k => total (map amount_value (filter (in_group k) l))) keys)
  = total (map amount_value (filter (fun r => existsb (fun k => in_group k r) keys) l)).
Proof.
  intros Hk. induction l as [|r l IH].
  - cbn [filter map]. apply total_map_zero. reflexivity.
  - transitivity
      (total (map (fun k => (if in_group k r then amount_value r else 0)
                            + total (map amount_value (filter (in_group k) l))) keys)).
    + f_equal. apply map_ext. intros k. cbn [filter].
      destruct (in_group k r); [reflexivity|lia].
    + rewrite total_map_add, IH, (@total_one_group keys r (amount_value r) Hk).
      cbn [filter]. destruct (existsb _ keys); [reflexivity|lia].
Qed.

Lemma filter_comm {A : Type} (f g : A -> bool) (l : list A) :
  filter f (filter g l) = filter g (filter f l).
Proof.
  induction l as [|a l IH]; [reflexivity|].
  cbn [filter]. destruct (f a) eqn:F, (g a) eqn:G; cbn [filter];
    rewrite ?F, ?G, IH; reflexivity.
Qed.

Lemma in_group_has_category (keys : list cell) (l : DataFrame) (r : row) :
  group_keys (map category l) = Some keys -> In r l ->
  existsb (fun k => in_group k r) keys = has_category r.
Proof.
  intros Hkeys Hr. unfold has_category. apply eq_true_iff_eq. rewrite existsb_exists.
  split.
  - intros (k & _ & E). apply in_group_eq in E. destruct E as [-> N].
    destruct k; congruence.
  - intros H. exists (category r). split.
    + apply (@group_keys_In _ _ (category r) Hkeys). split.
      * intros E. rewrite E in H. discriminate.
      * apply in_map, Hr.
    + apply in_group_eq. split; [reflexivity|].
      intros E. rewrite E in H. discriminate.
Qed.

Lemma Forall2_In_l {A B : Type} (R : A -> B -> Prop) (l : list A) (l' : list B) (a : A) :
  Forall2 R l l' -> In a l -> exists b, In b l' /\ R a b.
Proof.
  induction 1 as [|a' b l l' Hab _ IH]; intros Ha; [contradiction|].
  destruct Ha as [<-|Ha].
  - exists b. split; [now left|exact Hab].
  - destruct (IH Ha) as (x & Hx & Rx). exists x. split; [now right|exact Rx].
Qed.

Lemma map_snd_totals (keys : list cell) (totals : series) (l : DataFrame) :
  Forall2 (fun k kv => fst kv = k
                       /\ exact_sum (map amount (filter (in_group k) l)) = Some (snd kv))
          keys totals ->
  map snd totals = map (fun k => total (map amount_value (filter (in_group k) l))) keys.
Proof.
  induction 1 as [|k kv keys totals [_ Hs] _ IH]; [reflexivity|].
  cbn [map]. rewrite IH. f_equal. apply (@exact_sum_inv _ _ Hs).
Qed.

Lemma expense_by_cat_total (K : sort_kind) (table : DataFrame) (s : series) :
  exact table = true ->
  expense_by_cat K table = Some s ->
  exact_total expense_label (filter has_category table) = Some (total (map snd s)).
Proof.
  intros Hx H. apply expense_by_cat_inv in H.
  destruct H as (keys & totals & Hkeys & Htotals & ->).
  assert (Hok : forall k kv, In k keys ->
            fst kv = k
            /\ sum (map amount (filter (in_group k)
                                       (filter (has_type expense_label) table)))
               = Some (snd kv) ->
            forallb amount_ok (filter (in_group k) (filter (has_type expense_label) table))
            = true).
  { intros k kv _ [_ Hs]. exact (sum_amounts_ok _ Hs). }
  assert (Htotals' : Forall2 (fun k kv =>
             fst kv = k
             /\ exact_sum (map amount (filter (in_group k)
                                              (filter (has_type expense_label) table)))
                = Some (snd kv)) keys totals).
  { eapply Forall2_impl; [|exact Htotals]. cbn beta. intros k kv [Hk Hs].
    split; [exact Hk|]. now rewrite <- (@group_sum_exact table k Hx). }
  set (E := filter (has_type expense_label) table) in *.
  rewrite (total_Permutation (Permutation_map snd (sort_series_Permutation K false totals))).
  rewrite (@map_snd_totals keys totals E Htotals').
  rewrite (@total_groups keys E (@group_keys_NoDup _ _ Hkeys)).
  assert (Hf : filter (fun r => existsb (fun k => in_group k r) keys) E
               = filter has_category E).
  { apply filter_ext_in. intros r Hr. apply (@in_group_has_category keys E r Hkeys Hr). }
  rewrite Hf. unfold exact_total. rewrite filter_comm. fold E.
  apply exact_sum_total. apply forallb_forall. intros r Hr.
  apply filter_In in Hr. destruct Hr as [Hr Hc].
  rewrite <- (@in_group_has_category keys E r Hkeys Hr) in Hc.
  apply existsb_exists in Hc. destruct Hc as (k & Hk & Hg).
  destruct (@Forall2_In_l _ _ _ _ _ k Htotals Hk) as (kv & _ & Hkv).
  pose proof (Hok k kv Hk Hkv) as Hall. rewrite forallb_forall in Hall.
  apply Hall, filter_In. split; assumption.
Qed.

Lemma shown_rows (K : sort_kind) (data table : DataFrame) :
  shown K data = Some table ->
  (forall r', In r' table -> exists r, In r data /\ same_entry r r')
  /\ (forall r, In r data -> exists r', In r' table /\ same_entry r r').
Proof.
  intros H. apply shown_inv in H. destruct H as (c & Hc & ->).
  pose proof (convert_dates_same_entry _ Hc) as Hs.
  pose proof (sort_values_Permutation K false c) as Hp.
  split.
  - intros r' Hr'. apply (Permutation_in _ Hp) in Hr'.
    exact (@Forall2_In_r _ _ _ _ _ _ Hs Hr').
  - intros r Hr. destruct (@Forall2_In_l _ _ _ _ _ _ Hs Hr) as (r' & Hr' & E).
    exists r'. split; [|exact E].
    apply Permutation_in with c; [symmetry; exact Hp|exact Hr'].
Qed.

Lemma has_type_same_entry (label : string) (r r' : row) :
  same_entry r r' -> has_type label r' = has_type label r.
Proof. intros (E & _). unfold has_type. now rewrite E. Qed.

Lemma has_category_same_entry (r r' : row) :
  same_entry r r' -> has_category r' = has_category r.
Proof. intros (_ & E & _). unfold has_category. now rewrite E. Qed.

Lemma chart_inv (K : sort_kind) (data : DataFrame) (ch : category_chart) :
  chart K data = Some ch ->
  exists table m,
    data <> [] /\ shown K data = Some table /\ summarize table = Some m
    /\ expense_by_cat K table = Some (bars ch).
Proof.
  unfold chart. intros H. destruct data as [|r data]; [discriminate|].
  inv_bind H. inv_bind H. inv_bind H. injection H as <-.
  exists a, a0. split; [discriminate|]. split; [exact E|]. split; [exact E0|].
  rewrite E1. destruct a1; reflexivity.
Qed.

(** X18: when every expense row has a category and the amounts add up to
    2^53 at most in absolute value, the values of the bars add up to the
    total of the expenses that the summary shows. *)
Theorem bars_add_up_to_total_expense (K : sort_kind) (data : DataFrame) (m : summary)
        (ch : category_chart) :
  shown_metrics K data = Some m -> chart K data = Some ch ->
  (forall r, In r data -> has_type expense_label r = true -> has_category r = true) ->
  exact data = true ->
  total (map snd (bars ch)) = total_expense m.
Proof.
  intros Hm Hch Hcat Hx.
  apply chart_inv in Hch. destruct Hch as (table & _ & _ & Hshown & _ & Hs).
  apply shown_metrics_inv in Hm. destruct Hm as (_ & table' & Hshown' & Hsum).
  rewrite Hshown in Hshown'. injection Hshown' as <-.
  assert (Hxt : exact table = true) by now rewrite (shown_exact K data Hshown).
  apply (summarize_exact _ Hxt) in Hsum. destruct Hsum as (_ & He & _).
  apply (@expense_by_cat_total K table _ Hxt) in Hs.
  assert (E : exact_total expense_label (filter has_category table)
              = exact_total expense_label table).
  { unfold exact_total. rewrite filter_comm. f_equal. f_equal.
    apply forallb_filter_id. apply forallb_forall. intros r' Hr'.
    apply filter_In in Hr'. destruct Hr' as [Hr' Ht].
    destruct (proj1 (shown_rows _ _ Hshown) r' Hr') as (r & Hr & Hsame).
    rewrite (has_category_same_entry Hsame). apply (Hcat r Hr).
    rewrite <- (has_type_same_entry expense_label Hsame). exact Ht. }
  rewrite E, He in Hs. congruence.
Qed.

Lemma bars_add_up_to_total_expense_witness :
  exists ch,
    chart insertion_kind two_lunches = Some ch
    /\ total (map snd (bars ch)) = total_expense (mkSummary 10000 11500 (-1500)).
Proof.
  eexists. split; [vm_compute; reflexivity|].
  apply (@bars_add_up_to_total_expense insertion_kind two_lunches).
  - vm_compute. reflexivity.
  - vm_compute. reflexivity.
  - intros r Hr _. cbn in Hr.
    destruct Hr as [<-|[<-|[<-|[<-|[]]]]]; reflexivity.
  - reflexivity.
Defined.

Lemma group_keys_missing (cs : list cell) :
  (forall c, In c cs -> c = Missing) -> group_keys cs = Some [].
Proof.
  intros H.
  assert (E : numbers_of cs = [] /\ stamps_of cs = [] /\ texts_of cs = []).
  { induction cs as [|c cs IH]; [repeat split|].
    destruct IH as (E1 & E2 & E3); [intros x Hx; apply H; now right|].
    rewrite (H c (or_introl eq_refl)).
    unfold numbers_of, stamps_of, texts_of in *. cbn [flat_map app].
    now rewrite E1, E2, E3. }
  destruct E as (E1 & E2 & E3). unfold group_keys. rewrite E1, E2, E3. reflexivity.
Qed.

(** X19: instead of the chart, the line that says there are no expenses is
    shown exactly when the summary is shown and no stored expense row has a
    category: when there is no expense row, or when each one lacks its
    category. *)
Theorem no_expenses_line (K : sort_kind) (data : DataFrame) :
  chart K data = Some NoExpenses
  <-> (exists m, shown_metrics K data = Some m)
      /\ forall r, In r data -> has_type expense_label r = true -> has_category r = false.
Proof.
  split.
  - intros H. apply chart_inv in H.
    destruct H as (table & m & Hne & Hshown & Hsum & Hs).
    split.
    { exists m. unfold shown_metrics. destruct data; [congruence|].
      rewrite Hshown. exact Hsum. }
    intros r Hr Ht.
    destruct (proj2 (shown_rows _ _ Hshown) r Hr) as (r' & Hr' & Hsame).
    rewrite <- (has_category_same_entry Hsame).
    rewrite <- (has_type_same_entry expense_label Hsame) in Ht.
    apply expense_by_cat_inv in Hs. destruct Hs as (keys & totals & Hkeys & Htotals & Hnil).
    cbn [bars] in Hnil.
    assert (Hk : keys = []).
    { pose proof (sort_series_Permutation K false totals) as Hp.
      rewrite <- Hnil in Hp. apply Permutation_nil in Hp. subst totals.
      apply Forall2_length in Htotals. destruct keys; [reflexivity|discriminate]. }
    subst keys. apply not_true_is_false. intros Hc.
    apply (proj2 (@group_keys_In _ _ (category r') Hkeys)).
    split.
    + intros E. unfold has_category in Hc. rewrite E in Hc. discriminate.
    + apply in_map, filter_In. split; assumption.
  - intros [[m Hm] Hcat]. apply shown_metrics_inv in Hm.
    destruct Hm as (Hne & table & Hshown & Hsum).
    unfold chart, expense_by_cat. destruct data as [|r0 data]; [congruence|].
    rewrite Hshown. cbn [bind]. rewrite Hsum. cbn [bind].
    rewrite group_keys_missing.
    + cbn [bind mapM]. unfold sort_series. cbn [rev]. rewrite reindex_nil. reflexivity.
    + intros c Hc. apply in_map_iff in Hc. destruct Hc as (r' & <- & Hr').
      apply filter_In in Hr'. destruct Hr' as [Hr' Ht].
      destruct (proj1 (shown_rows _ _ Hshown) r' Hr') as (r & Hr & Hsame).
      rewrite (has_type_same_entry expense_label Hsame) in Ht.
      pose proof (Hcat r Hr Ht) as Hc. rewrite <- (has_category_same_entry Hsame) in Hc.
      unfold has_category in Hc. destruct (category r'); congruence.
Qed.

(** ** The chart is computed whenever the page is *)


(** X6: on data that is not empty, that the model tells apart as the script
    does (see [modelled]) and whose amounts add up to 2^53 at most in
    absolute value, the display part runs to its end, the chart of the
    expenses by category included, exactly when every date is one that
    [pd.to_datetime] accepts (a timestamp, a missing value or text that it
    reads as a date) and every amount is a number or missing; on other such
    data it raises. *)
Theorem render_completes (K : sort_kind) (data : DataFrame) :
  forallb modelled data = true ->
  exact data = true ->
  (exists p, render K data = Rendered p /\ chart K data = Some (by_category p))
  <-> data <> [] /\ forallb renderable data = true.
Proof.
  intros Hm _. split.
  - intros (p & Hp & _). apply render_inv in Hp.
    destruct Hp as (Hne & Hshown & _ & Htime & (signed & Hs & Ho) & _).
    split; [exact Hne|].
    apply shown_inv in Hshown. destruct Hshown as (c & Hc & Hdf).
    rewrite renderable_split. apply andb_true_intro. split.
    + rewrite <- convert_dates_is_some, Hc. reflexivity.
    + rewrite <- (amount_ok_same_entry (convert_dates_same_entry _ Hc)).
      rewrite <- (forallb_Permutation _ (sort_values_Permutation K false c)), <- Hdf.
      rewrite <- (forallb_Permutation _ (sort_values_Permutation K true (df p))), <- Htime.
      eapply cumsum_signed_amount_ok; eassumption.
  - intros [Hne H]. destruct (@render_renderable K data Hne H) as [p Hp].
    + apply forallb_forall. intros r Hr. rewrite forallb_forall in Hm.
      specialize (Hm r Hr). unfold modelled in Hm.
      now apply andb_prop in Hm.
    + exists p. split; [exact Hp|].
      apply render_inv in Hp. now destruct Hp as (_ & _ & _ & _ & _ & _ & Hch).
Qed.

Lemma render_completes_witness :
  (exists p, render quicksort_kind scenario = Rendered p
             /\ chart quicksort_kind scenario = Some (by_category p))
  <-> scenario <> [] /\ forallb renderable scenario = true.
Proof.
  apply (@render_completes quicksort_kind scenario); reflexivity.
Defined.



(** ** An upload without records *)

(** X21: a file that has the required columns and no record is accepted and
    empties the data: the page then says that nothing is recorded yet. *)
Theorem upload_without_records (K : sort_kind) (data : DataFrame) (f : csv_file) :
  records f = [] -> issubset required_columns (header f) = true ->
  upload data f = (Imported, []) /\ render K (step data (Upload f)) = NoRecords.
Proof.
  intros Hrec Hsub.
  assert (Hr : rectangular f = true) by (unfold rectangular; rewrite Hrec; reflexivity).
  destruct (@issubset_find required_columns (header f) "date" Hsub) as [jd Hd];
    [cbn; tauto|].
  destruct (@issubset_find required_columns (header f) "type" Hsub) as [jt Ht];
    [cbn; tauto|].
  destruct (@issubset_find required_columns (header f) "category" Hsub) as [jc Hc];
    [cbn; tauto|].
  destruct (@issubset_find required_columns (header f) "amount" Hsub) as [ja Ha];
    [cbn; tauto|].
  destruct (@issubset_find required_columns (header f) "note" Hsub) as [jn Hn];
    [cbn; tauto|].
  assert (E : upload data f = (Imported, [])).
  { rewrite (@upload_rows data f _ _ _ _ _ Hr Hd Ht Hc Ha Hn), Hrec. reflexivity. }
  split; [exact E|]. cbn [step]. rewrite E. reflexivity.
Qed.

Lemma upload_without_records_witness :
  upload scenario (mkCsv required_columns []) = (Imported, [])
  /\ render insertion_kind (step scenario (Upload (mkCsv required_columns []))) = NoRecords.
Proof.
  apply (@upload_without_records insertion_kind scenario (mkCsv required_columns []));
    reflexivity.
Defined.

(** ** The labels that the multiselect offers *)

Lemma options_in_range (K : sort_kind) (data table : DataFrame) (to_delete : list nat) :
  shown K data = Some table -> incl to_delete (options table) ->
  forall i, In i to_delete -> (i < List.length data)%nat.
Proof.
  intros Hshown Hincl i Hi. apply Hincl in Hi. unfold options in Hi.
  apply in_seq in Hi. rewrite (shown_length _ _ Hshown) in Hi. lia.
Qed.

(** X22: the multiselect offers the positions of the shown table, which has as
    many rows as the stored data: a click with any selection made from them
    never raises, and it removes as many rows as labels are selected. *)
Theorem offered_labels_are_deleted (K : sort_kind) (data table : DataFrame)
        (to_delete : list nat) :
  shown K data = Some table -> to_delete <> [] -> incl to_delete (options table) ->
  exists data',
    delete_clicked data to_delete = Some (Deleted, data')
    /\ (List.length data' + List.length (nodup Nat.eq_dec to_delete))%nat
       = List.length data.
Proof.
  intros Hshown Hne Hincl.
  destruct (@delete_in_range data to_delete Hne
              (@options_in_range K data table to_delete Hshown Hincl)) as [Hd Hl].
  eauto.
Qed.

Lemma offered_labels_are_deleted_witness :
  exists data',
    delete_clicked one_day [1; 2]%nat = Some (Deleted, data')
    /\ (List.length data' + List.length (nodup Nat.eq_dec [1; 2]%nat))%nat
       = List.length one_day.
Proof.
  apply (@offered_labels_are_deleted insertion_kind one_day
           (sort_values insertion_kind false one_day) [1; 2]%nat).
  - reflexivity.
  - discriminate.
  - intros i Hi. cbn in Hi. destruct Hi as [<-|[<-|[]]]; vm_compute; tauto.
Defined.

Lemma filter_none {A : Type} (f : A -> bool) (l : list A) :
  (forall x, In x l -> f x = false) -> filter f l = [].
Proof.
  induction l as [|a l IH]; intros H; [reflexivity|].
  cbn [filter]. rewrite (H a (or_introl eq_refl)). apply IH.
  intros x Hx. apply H. now right.
Qed.

(** X23: a click with every offered label selected empties the data. *)
Theorem all_labels_selected_empties (K : sort_kind) (data table : DataFrame)
        (to_delete : list nat) :
  shown K data = Some table -> data <> [] ->
  incl to_delete (options table) -> incl (options table) to_delete ->
  delete_clicked data to_delete = Some (Deleted, []).
Proof.
  intros Hshown Hdata Hincl Hall.
  assert (Hne : to_delete <> []).
  { intros E. subst to_delete. apply (Hall 0%nat). unfold options. apply in_seq.
    rewrite (shown_length _ _ Hshown). destruct data; [congruence|cbn; lia]. }
  destruct (@delete_in_range data to_delete Hne
              (@options_in_range K data table to_delete Hshown Hincl)) as [Hd _].
  rewrite Hd. do 2 f_equal.
  replace (unselected to_delete data) with (@nil nat); [reflexivity|].
  symmetry. apply filter_none. intros i Hi.
  apply negb_false_iff, selected_In, Hall. unfold options.
  rewrite (shown_length _ _ Hshown). exact Hi.
Qed.

Lemma all_labels_selected_empties_witness :
  delete_clicked scenario [1; 0]%nat = Some (Deleted, []).
Proof.
  apply (@all_labels_selected_empties insertion_kind scenario
           (sort_values insertion_kind false scenario) [1; 0]%nat).
  - reflexivity.
  - discriminate.
  - intros i Hi. cbn in Hi. destruct Hi as [<-|[<-|[]]]; vm_compute; tauto.
  - intros i Hi. vm_compute in Hi. cbn. tauto.
Defined.
